(** * Sentiment analysis engine: a shallow embedding of
      [crypto-trading-backend/src/scripts/sentiment_analyzer.py]

    The embedding follows the methods of [CryptoSentimentAnalyzer].

    - A Python [float] is a binary64 number: it is modelled by Rocq's
      primitive [float], whose operations are the IEEE 754 binary64
      operations with rounding to nearest, ties to even.
    - A Python [int] is a [Z].
    - A Python [str] is a [string] of 7-bit ASCII characters; the few
      characters outside ASCII in the templates of the mock tweets are
      held as their UTF-8 bytes.
    - A raised exception is a value of [exn] carried in a sum type.
    - A [datetime] is a number of microseconds counted from
      1970-01-01T00:00:00; [timedelta] and the subtraction of a timedelta
      from a datetime raise [OverflowError] outside their ranges, as in
      Python.
    - The built-in [sum] on floats adds from left to right, as CPython
      does up to version 3.11; the compensated summation of later
      versions is [py_sum_compensated], and the aggregator is also
      stated with the summation as a parameter.
    - The collaborators that live outside the file (the Twitter client,
      the VADER scorer, [datetime.fromisoformat], the wall clock and the
      C library's [pow]) are the fields of the class [Collaborators].
    - The fetch of the file itself, [fetch_twitter_data] with
      [generate_mock_tweets], is modelled over the class [Source]: the
      bearer token, the tweepy client and the draws of the module
      [random]; [with_source] plugs it into the analyzer. *)

From Stdlib Require Import ZArith List Bool Ascii String Lia.
From Stdlib Require Import Floats.
From stdpp Require Import gmap strings pretty.

Set Warnings "-inexact-float".

Local Open Scope Z_scope.

(** ** Python values and helpers *)

(** The exceptions the code can meet, by class; [Other] carries [str(e)]
    of an exception raised by a collaborator. *)
Inductive exn : Type :=
  | ZeroDivisionError
  | Other (msg : string).

(** [str(e)] of an exception. *)
Definition exn_str (e : exn) : string :=
  match e with
  | ZeroDivisionError => "float division by zero"
  | Other msg => msg
  end.

(** A computation that returns a value or raises. *)
Definition M (A : Type) : Type := exn + A.

Definition ret {A} (a : A) : M A := inr a.
Definition raise {A} (e : exn) : M A := inl e.
Definition bind {A B} (k : A -> M B) (m : M A) : M B :=
  match m with
  | inl e => inl e
  | inr a => k a
  end.

#[global] Instance M_ret : MRet M := @ret.
#[global] Instance M_bind : MBind M := @bind.

(** [try: m except Exception as e: h e]. *)
Definition try_except {A} (m : M A) (h : exn -> M A) : M A :=
  match m with
  | inl e => h e
  | inr a => inr a
  end.

(** [for a in l: st = body st a], where the body may raise. *)
Fixpoint for_loop {A S} (body : S -> A -> M S) (l : list A) (st : S) : M S :=
  match l with
  | [] => ret st
  | a :: l' => st' ← body st a; for_loop body l' st'
  end.

(** [x / y] on floats raises [ZeroDivisionError] when [y] is zero. *)
Definition py_div (x y : float) : M float :=
  if (y =? 0)%float then raise ZeroDivisionError else ret (x / y)%float.

(** [float(n)] for an int [n]: the nearest float, ties to even. The
    conversion goes through a 63-bit machine integer: it is [float(n)] for
    [|n| < 2^63], which covers every count and length ([sys.maxsize]). *)
Definition float_of_int (n : Z) : float :=
  match n with
  | Z0 => 0%float
  | Zpos _ => of_uint63 (Uint63.of_Z n)
  | Zneg _ => (- of_uint63 (Uint63.of_Z (- n)))%float
  end.

(** [sum(xs)]: the items are added from left to right, starting from the
    int [0]. This is the [+=] of a loop, and the built-in [sum] of CPython
    up to version 3.11; from version 3.12 on [sum] compensates the
    rounding of the partial sums, see [py_sum_compensated]. *)
Definition py_sum (xs : list float) : float :=
  fold_left (fun acc x => (acc + x)%float) xs 0%float.

(** [max(0, y)]: the first argument unless the second is greater. *)
Definition py_max0 (y : float) : float :=
  if (0 <? y)%float then y else 0%float.

(** [min(1.0, y)]: the first argument unless the second is smaller. *)
Definition py_min1 (y : float) : float :=
  if (y <? 1)%float then y else 1%float.

(** ** Class constants *)

Definition BUY_THRESHOLD : float := 0.06%float.
Definition SELL_THRESHOLD : float := 0.04%float.
Definition NEUTRAL_ZONE : float * float := (0.04%float, 0.06%float).

Definition HIGH_VOLUME_THRESHOLD : Z := 500.
Definition LOW_VOLUME_THRESHOLD : Z := 100.
Definition HIGH_VOLUME_MULTIPLIER : float := 1.5%float.
Definition LOW_VOLUME_MULTIPLIER : float := 0.5%float.

(** ** Data *)

Inductive Signal : Type := BUY | SELL | NEUTRAL.

(** A tweet as [fetch_twitter_data] and [generate_mock_tweets] build it. *)
Record Tweet : Type := {
  id : string;
  text : string;
  created_at : string;
  retweet_count : Z;
  like_count : Z;
  reply_count : Z
}.

(** ** [get_volume_multiplier] *)

Definition get_volume_multiplier (tweet_count : Z) : float :=
  if HIGH_VOLUME_THRESHOLD <? tweet_count then HIGH_VOLUME_MULTIPLIER
  else if tweet_count <? LOW_VOLUME_THRESHOLD then LOW_VOLUME_MULTIPLIER
  else 1.0%float.

(** ** [generate_trading_signal] *)

Definition generate_trading_signal (compound_score : float) : Signal :=
  if (BUY_THRESHOLD <? compound_score)%float then BUY
  else if (compound_score <? SELL_THRESHOLD)%float then SELL
  else NEUTRAL.

(** ** [calculate_engagement_weight] *)

Definition engagement_score (tweet : Tweet) : Z :=
  retweet_count tweet * 3 + like_count tweet * 1 + reply_count tweet * 2.

Definition calculate_engagement_weight (tweet : Tweet) : float :=
  let engagement_score := engagement_score tweet in
  if engagement_score =? 0 then 1.0%float
  else if engagement_score <? 10 then 0.8%float
  else if engagement_score <? 50 then 1.2%float
  else 1.5%float.

(** ** Text: [preprocess_tweet] and [is_crypto_related] *)

(** Character classes of [re] and [str] on ASCII: [\s] and [str.strip]
    use [str.isspace] (codes 9-13 and 28-32), [\w] is a letter, a digit or
    the underscore. *)
Definition is_space (c : ascii) : bool :=
  let n := N_of_ascii c in
  ((9 <=? n) && (n <=? 13) || (28 <=? n) && (n <=? 32))%N.

Definition is_upper (c : ascii) : bool :=
  let n := N_of_ascii c in ((65 <=? n) && (n <=? 90))%N.

Definition is_lower (c : ascii) : bool :=
  let n := N_of_ascii c in ((97 <=? n) && (n <=? 122))%N.

Definition is_digit (c : ascii) : bool :=
  let n := N_of_ascii c in ((48 <=? n) && (n <=? 57))%N.

Definition is_word (c : ascii) : bool :=
  is_upper c || is_lower c || is_digit c || Ascii.eqb c "_".

Definition to_lower (c : ascii) : ascii :=
  if is_upper c then ascii_of_N (N_of_ascii c + 32) else c.

(** [s.lower()]. *)
Definition lower (l : list ascii) : list ascii := map to_lower l.

(** The rest of [l] after the literal [lit], when [l] starts with it. *)
Fixpoint match_lit (lit l : list ascii) : option (list ascii) :=
  match lit with
  | [] => Some l
  | a :: lit' =>
    match l with
    | c :: l' => if Ascii.eqb a c then match_lit lit' l' else None
    | [] => None
    end
  end.

(** [lit\S+] matches at the head of [l]. *)
Definition lit_nonspace_at (lit l : list ascii) : bool :=
  match match_lit lit l with
  | Some (c :: _) => negb (is_space c)
  | _ => false
  end.

(** [http\S+|www\S+|https\S+] matches at the head of [l]. A match runs
    to the end of the run of non-space characters it starts in. *)
Definition url_at (l : list ascii) : bool :=
  lit_nonspace_at (list_ascii_of_string "http") l
  || lit_nonspace_at (list_ascii_of_string "www") l
  || lit_nonspace_at (list_ascii_of_string "https") l.

(** [re.sub(r'http\S+|www\S+|https\S+', '', text)]: a left-to-right scan;
    [in_match] says that the scan is inside a match. *)
Fixpoint sub_url (in_match : bool) (l : list ascii) : list ascii :=
  match l with
  | [] => []
  | c :: l' =>
    if is_space c then c :: sub_url false l'
    else if in_match then sub_url true l'
    else if url_at (c :: l') then sub_url true l'
    else c :: sub_url false l'
  end.

Definition head_is_word (l : list ascii) : bool :=
  match l with
  | c :: _ => is_word c
  | [] => false
  end.

(** [re.sub(r'@\w+', '', text)]. *)
Fixpoint sub_mention (in_match : bool) (l : list ascii) : list ascii :=
  match l with
  | [] => []
  | c :: l' =>
    if in_match && is_word c then sub_mention true l'
    else if Ascii.eqb c "@" && head_is_word l' then sub_mention true l'
    else c :: sub_mention false l'
  end.

(** [re.sub(r'\s+', ' ', text)]. *)
Fixpoint sub_spaces (in_match : bool) (l : list ascii) : list ascii :=
  match l with
  | [] => []
  | c :: l' =>
    if is_space c then
      if in_match then sub_spaces true l' else " "%char :: sub_spaces true l'
    else c :: sub_spaces false l'
  end.

Fixpoint lstrip (l : list ascii) : list ascii :=
  match l with
  | [] => []
  | c :: l' => if is_space c then lstrip l' else l
  end.

Fixpoint rstrip (l : list ascii) : list ascii :=
  match l with
  | [] => []
  | c :: l' =>
    match rstrip l' with
    | [] => if is_space c then [] else [c]
    | r => c :: r
    end
  end.

(** [s.strip()]. *)
Definition strip (l : list ascii) : list ascii := rstrip (lstrip l).

(** [preprocess_tweet] on the characters of the text. *)
Definition preprocess (l : list ascii) : list ascii :=
  let l := sub_url false l in
  let l := sub_mention false l in
  let l := strip (sub_spaces false l) in
  lower l.

Definition preprocess_tweet (text : string) : string :=
  string_of_list_ascii (preprocess (list_ascii_of_string text)).

(** [needle in hay]. *)
Fixpoint is_substring (needle hay : list ascii) : bool :=
  match match_lit needle hay with
  | Some _ => true
  | None =>
    match hay with
    | [] => false
    | _ :: hay' => is_substring needle hay'
    end
  end.

(** [self.crypto_symbols]. *)
Definition crypto_symbols : gmap string (list string) :=
  list_to_map
    [ ("BTC", ["bitcoin"; "btc"; "$btc"; "#bitcoin"; "#btc"]);
      ("ETH", ["ethereum"; "eth"; "$eth"; "#ethereum"; "#eth"]);
      ("USDC", ["usdc"; "$usdc"; "#usdc"; "usd coin"]);
      ("USDT", ["usdt"; "$usdt"; "#usdt"; "tether"]) ]%string.

Definition is_crypto_related (text symbol : string) : bool :=
  let text_lower := lower (list_ascii_of_string text) in
  let keywords := default [] (crypto_symbols !! symbol) in
  existsb (fun keyword => is_substring (list_ascii_of_string keyword) text_lower)
          keywords.

(** [s.replace('Z', '+00:00')]. *)
Definition replace_Z (s : string) : string :=
  string_of_list_ascii
    (flat_map (fun c => if Ascii.eqb c "Z" then list_ascii_of_string "+00:00"
                        else [c])
              (list_ascii_of_string s)).

(** ** Records of the analysis *)

(** The dict [self.sia.polarity_scores] returns. *)
Module Vader.
Record t : Type := { compound : float; pos : float; neg : float; neu : float }.
End Vader.

(** The dict [analyze_text_sentiment] returns. *)
Module Sentiment.
Record t : Type := {
  compound : float;
  positive : float;
  negative : float;
  neutral : float;
  processed_text : string
}.
End Sentiment.

(** An item of the list [sentiment_scores]. *)
Module Sample.
Record t : Type := {
  compound : float;
  positive : float;
  negative : float;
  neutral : float;
  weight : float;
  tweet_id : string
}.
End Sample.

(** [result['sentiment_scores']]. *)
Module Scores.
Record t : Type := {
  compound : float;
  adjusted_compound : float;
  positive : float;
  negative : float;
  neutral : float
}.
End Scores.

Record Thresholds : Type := {
  buy_threshold : float;
  sell_threshold : float;
  neutral_zone : float * float
}.

(** A [datetime] without time zone, in microseconds. *)
Definition datetime : Type := Z.

(** [datetime.min] and [datetime.max], the first microsecond of the year
    1 and the last one of the year 9999, with the microseconds counted
    from 1970-01-01T00:00:00. *)
Definition datetime_min : datetime := -62135596800000000.
Definition datetime_max : datetime := 253402300799999999.

(** The dict [analyze_symbol_sentiment] returns. [error] is [None] when
    the dict has no key ['error'], [Some None] when the key holds [None]. *)
Record Result : Type := {
  symbol : string;
  timestamp : datetime;
  sentiment_scores : Scores.t;
  trading_signal : Signal;
  confidence : float;
  tweet_count : Z;
  volume_multiplier : float;
  thresholds : Thresholds;
  raw_tweets_analyzed : Z;
  error : option (option string)
}.

(** The dict [analyze_multiple_symbols] returns. *)
Record BatchResult : Type := {
  batch_timestamp : datetime;
  symbols_analyzed : Z;
  results : gmap string Result
}.

Definition class_thresholds : Thresholds :=
  {| buy_threshold := BUY_THRESHOLD;
     sell_threshold := SELL_THRESHOLD;
     neutral_zone := NEUTRAL_ZONE |}.

(** [len(l)]. *)
Definition len {A} (l : list A) : Z := Z.of_nat (length l).

(** [not l] for a list. *)
Definition is_empty {A} (l : list A) : bool :=
  match l with
  | [] => true
  | _ :: _ => false
  end.

(** [x / n] for a float [x] and an int [n]: [n] is converted to a float,
    which is zero only when [n] is. *)
Definition py_div_int (x : float) (n : Z) : M float :=
  if n =? 0 then raise ZeroDivisionError
  else ret (x / float_of_int n)%float.

(** The integer nearest to [n / d], ties to the even one ([0 < d]). *)
Definition div_half_even (n d : Z) : Z :=
  let q := n / d in
  match 2 * (n mod d) ?= d with
  | Lt => q
  | Gt => q + 1
  | Eq => if Z.even q then q else q + 1
  end.

(** [round(x, 3)]: the decimal with three digits after the point that is
    nearest to the exact value of [x] (ties to even), converted back to
    the nearest float. A float with exponent [-3] or more is a multiple
    of [1/8], hence of [0.001] times an integer, and rounds to itself. *)
Definition py_round3 (x : float) : float :=
  match Prim2SF x with
  | S754_finite s m e =>
    if -3 <=? e then x
    else
      match div_half_even (Zpos m * 1000) (2 ^ (- e)) with
      | Zpos k =>
        SF2Prim (SFdiv prec emax (S754_finite s k 0) (S754_finite false 1000 0))
      | _ => if s then (-0)%float else 0%float
      end
  | _ => x
  end.

(** ** The analyzer *)

(** SentimentAggregator: [Sum(value * weight) / Sum(weight)], both sums
    taken from left to right in binary64. *)
Definition weighted_mean (f : Sample.t -> float) (samples : list Sample.t)
    : float :=
  (py_sum (map (fun s => f s * Sample.weight s) samples)
   / py_sum (map Sample.weight samples))%float.

(** The collaborators of the analyzer. *)
Class Collaborators : Type := {
  (** [self.fetch_twitter_data(symbol, max_results)]: the Twitter client
      or the mock generator; it returns a list of tweets or raises. *)
  fetch_twitter_data : string -> Z -> M (list Tweet);
  (** [self.sia.polarity_scores(text)]: the VADER scorer. *)
  polarity_scores : string -> M Vader.t;
  (** [datetime.fromisoformat(s).replace(tzinfo=None)]: the parsed time
      without its zone, or [ValueError]. *)
  fromisoformat : string -> M datetime;
  (** [datetime.now()]: the reading of the clock during the call. *)
  now : datetime;
  (** The clock of a running system reads a date from 1970 on, and a
      [datetime] is at most [datetime.max]. *)
  now_valid : (0 <=? now) && (now <=? datetime_max) = true;
  (** [x ** y] on floats: the C library's [pow]. Its [OverflowError] and
      the complex result for a negative base are outside the model: the
      code squares differences of scores and takes the root of a mean of
      squares. *)
  float_pow : float -> float -> float
}.

(** [timedelta(hours=h)] in microseconds. *)
Definition timedelta_hours (h : Z) : Z := h * 3600000000.

(** [timedelta(hours=hours)] for an int: the days, [hours // 24], must fit
    a C int and be at most 999999999 in magnitude; [OverflowError] is
    raised otherwise. *)
Definition timedelta (hours : Z) : M Z :=
  let days := hours / 24 in
  if (days <? -2147483648) || (2147483647 <? days) then
    raise (Other "Python int too large to convert to C int")
  else if (days <? -999999999) || (999999999 <? days) then
    raise (Other ("days=" +:+ pretty days
                  +:+ "; must have magnitude <= 999999999"))
  else ret (timedelta_hours hours).

(** [t - delta] for a datetime and a timedelta: [OverflowError] when the
    result is outside the years 1 to 9999. *)
Definition datetime_sub (t : datetime) (delta : Z) : M datetime :=
  let d := t - delta in
  if (d <? datetime_min) || (datetime_max <? d) then
    raise (Other "date value out of range")
  else ret d.

Section Analyzer.

Context {env : Collaborators}.

Definition analyze_text_sentiment (text : string) : M Sentiment.t :=
  try_except
    (let processed_text := preprocess_tweet text in
     scores ← polarity_scores processed_text;
     ret {| Sentiment.compound := Vader.compound scores;
            Sentiment.positive := Vader.pos scores;
            Sentiment.negative := Vader.neg scores;
            Sentiment.neutral := Vader.neu scores;
            Sentiment.processed_text := processed_text |})
    (fun e =>
     ret {| Sentiment.compound := 0.0;
            Sentiment.positive := 0.0;
            Sentiment.negative := 0.0;
            Sentiment.neutral := 1.0;
            Sentiment.processed_text := text |}).

Definition get_neutral_sentiment_result
    (symbol : string) (error : option string) : Result :=
  {| symbol := symbol;
     timestamp := now;
     sentiment_scores :=
       {| Scores.compound := 0.0;
          Scores.adjusted_compound := 0.0;
          Scores.positive := 0.0;
          Scores.negative := 0.0;
          Scores.neutral := 1.0 |};
     trading_signal := NEUTRAL;
     confidence := 0.0;
     tweet_count := 0;
     volume_multiplier := 1.0;
     thresholds := class_thresholds;
     raw_tweets_analyzed := 0;
     error := Some error |}.

Definition calculate_confidence
    (sentiment_scores : list Sample.t) (tweet_count : Z) : M float :=
  if is_empty sentiment_scores then ret 0.0%float
  else
    let compounds := map Sample.compound sentiment_scores in
    mean_compound ← py_div_int (py_sum compounds) (len compounds);
    variance ←
      py_div_int
        (py_sum (map (fun x => float_pow (x - mean_compound) 2) compounds))
        (len compounds);
    let std_dev := float_pow variance 0.5 in
    let consistency_score := py_max0 (1 - std_dev * 2) in
    let volume_score := py_min1 (float_of_int tweet_count / 100) in
    let confidence := (consistency_score * 0.7 + volume_score * 0.3)%float in
    ret (py_round3 confidence).

(** One turn of the loop that filters the tweets by time. *)
Definition time_window_step (cutoff_time : datetime)
    (recent_tweets : list Tweet) (tweet : Tweet) : M (list Tweet) :=
  try_except
    (tweet_time ← fromisoformat (replace_Z (created_at tweet));
     if cutoff_time <? tweet_time then ret (recent_tweets ++ [tweet])
     else ret recent_tweets)
    (fun e => ret (recent_tweets ++ [tweet])).

(** One turn of the loop that scores the recent tweets; the state is
    [(sentiment_scores, total_engagement_weight)]. *)
Definition sample_step (symbol : string)
    (st : list Sample.t * float) (tweet : Tweet)
    : M (list Sample.t * float) :=
  let '(sentiment_scores, total_engagement_weight) := st in
  if is_crypto_related (text tweet) symbol then
    sentiment ← analyze_text_sentiment (text tweet);
    let engagement_weight := calculate_engagement_weight tweet in
    ret (sentiment_scores ++
           [ {| Sample.compound := Sentiment.compound sentiment;
                Sample.positive := Sentiment.positive sentiment;
                Sample.negative := Sentiment.negative sentiment;
                Sample.neutral := Sentiment.neutral sentiment;
                Sample.weight := engagement_weight;
                Sample.tweet_id := id tweet |} ],
         (total_engagement_weight + engagement_weight)%float)
  else ret (sentiment_scores, total_engagement_weight).

(** The weighted average of one score (lines "Calculate weighted average
    sentiment" of [analyze_symbol_sentiment]). *)
Definition weighted_average (f : Sample.t -> float)
    (sentiment_scores : list Sample.t) (total_engagement_weight : float)
    : M float :=
  py_div
    (py_sum (map (fun s => (f s * Sample.weight s)%float) sentiment_scores))
    total_engagement_weight.

(** The body of the [try] block of [analyze_symbol_sentiment]. *)
Definition analyze_symbol_sentiment_body
    (symbol : string) (hours_back : Z) : M Result :=
  tweets ← fetch_twitter_data symbol 200;
  if is_empty tweets then ret (get_neutral_sentiment_result symbol None)
  else
    delta ← timedelta hours_back;
    cutoff_time ← datetime_sub now delta;
    recent_tweets ← for_loop (time_window_step cutoff_time) tweets [];
    if is_empty recent_tweets then
      ret (get_neutral_sentiment_result symbol None)
    else
      '(sentiment_scores, total_engagement_weight) ←
        for_loop (sample_step symbol) recent_tweets ([], 0%float);
      if is_empty sentiment_scores then
        ret (get_neutral_sentiment_result symbol None)
      else
        let weighted f :=
          weighted_average f sentiment_scores total_engagement_weight in
        weighted_compound ← weighted Sample.compound;
        weighted_positive ← weighted Sample.positive;
        weighted_negative ← weighted Sample.negative;
        weighted_neutral ← weighted Sample.neutral;
        let tweet_count := len sentiment_scores in
        let volume_multiplier := get_volume_multiplier tweet_count in
        let adjusted_compound :=
          (weighted_compound * volume_multiplier)%float in
        let trading_signal := generate_trading_signal adjusted_compound in
        confidence ← calculate_confidence sentiment_scores tweet_count;
        ret {| symbol := symbol;
               timestamp := now;
               sentiment_scores :=
                 {| Scores.compound := weighted_compound;
                    Scores.adjusted_compound := adjusted_compound;
                    Scores.positive := weighted_positive;
                    Scores.negative := weighted_negative;
                    Scores.neutral := weighted_neutral |};
               trading_signal := trading_signal;
               confidence := confidence;
               tweet_count := tweet_count;
               volume_multiplier := volume_multiplier;
               thresholds := class_thresholds;
               raw_tweets_analyzed := len sentiment_scores;
               error := None |}.

Definition analyze_symbol_sentiment
    (symbol : string) (hours_back : Z) : M Result :=
  try_except
    (analyze_symbol_sentiment_body symbol hours_back)
    (fun e =>
     ret (get_neutral_sentiment_result symbol (Some (exn_str e)))).

(** One turn of the loop of [analyze_multiple_symbols]. *)
Definition analyze_step (results : gmap string Result) (symbol : string)
    : M (gmap string Result) :=
  r ← try_except
        (analyze_symbol_sentiment symbol 1)
        (fun e =>
         ret (get_neutral_sentiment_result symbol (Some (exn_str e))));
  ret (<[symbol := r]> results).

Definition analyze_multiple_symbols (symbols : list string) : M BatchResult :=
  results ← for_loop analyze_step symbols ∅;
  ret {| batch_timestamp := now;
         symbols_analyzed := len symbols;
         results := results |}.

(** *** The stages of the pipeline, as the specification names them *)

(** TimeWindowFilter: a tweet is in the window when its time is after the
    cutoff, and also when its time cannot be parsed. *)
Definition in_window (cutoff_time : datetime) (tweet : Tweet) : bool :=
  match fromisoformat (replace_Z (created_at tweet)) with
  | inr tweet_time => cutoff_time <? tweet_time
  | inl _ => true
  end.

(** The messages of a symbol: what the fetch returns. *)
Definition messages (symbol : string) : list Tweet :=
  match fetch_twitter_data symbol 200 with
  | inr tweets => tweets
  | inl _ => []
  end.

(** The start of the time window, [datetime.now() - timedelta(hours=
    hours_back)], or the [OverflowError] of its computation. *)
Definition window_cutoff (hours_back : Z) : M datetime :=
  delta ← timedelta hours_back;
  datetime_sub now delta.

(** The messages that pass the time filter and the relevance filter; none
    does when the start of the window cannot be computed: the filters do
    not run then. *)
Definition qualifying (symbol : string) (hours_back : Z) : list Tweet :=
  match window_cutoff hours_back with
  | inr cutoff_time =>
    List.filter (fun tweet => is_crypto_related (text tweet) symbol)
      (List.filter (in_window cutoff_time) (messages symbol))
  | inl _ => []
  end.

(** The scores of a text: those of the scorer, or the neutral scores when
    the scorer fails. *)
Definition text_sentiment (text : string) : Sentiment.t :=
  match polarity_scores (preprocess_tweet text) with
  | inr scores =>
    {| Sentiment.compound := Vader.compound scores;
       Sentiment.positive := Vader.pos scores;
       Sentiment.negative := Vader.neg scores;
       Sentiment.neutral := Vader.neu scores;
       Sentiment.processed_text := preprocess_tweet text |}
  | inl _ =>
    {| Sentiment.compound := 0.0;
       Sentiment.positive := 0.0;
       Sentiment.negative := 0.0;
       Sentiment.neutral := 1.0;
       Sentiment.processed_text := text |}
  end.

(** The weighted sample of a tweet. *)
Definition weighted_sample (tweet : Tweet) : Sample.t :=
  let sentiment := text_sentiment (text tweet) in
  {| Sample.compound := Sentiment.compound sentiment;
     Sample.positive := Sentiment.positive sentiment;
     Sample.negative := Sentiment.negative sentiment;
     Sample.neutral := Sentiment.neutral sentiment;
     Sample.weight := calculate_engagement_weight tweet;
     Sample.tweet_id := id tweet |}.

Definition weighted_samples (symbol : string) (hours_back : Z)
    : list Sample.t :=
  map weighted_sample (qualifying symbol hours_back).

(** ConfidenceEstimator: the population standard deviation of the
    compound values, dividing by their number. *)
Definition population_std_dev (xs : list float) : float :=
  let n := float_of_int (len xs) in
  let mean := (py_sum xs / n)%float in
  float_pow (py_sum (map (fun x => float_pow (x - mean) 2) xs) / n) 0.5.

(** ConfidenceEstimator:
    [round(0.7 * max(0, 1 - 2 * sigma) + 0.3 * min(1, n / 100), 3)]. *)
Definition confidence_formula (samples : list Sample.t) : float :=
  let sigma := population_std_dev (map Sample.compound samples) in
  let n := float_of_int (len samples) in
  py_round3 (0.7 * py_max0 (1 - 2 * sigma) + 0.3 * py_min1 (n / 100)).

(** AnalysisOrchestrator: the result assembled from a non-empty set of
    weighted samples. *)
Definition full_result (symbol : string) (hours_back : Z) : Result :=
  let samples := weighted_samples symbol hours_back in
  let tweet_count := len samples in
  let weighted_compound := weighted_mean Sample.compound samples in
  let volume_multiplier := get_volume_multiplier tweet_count in
  let adjusted_compound := (weighted_compound * volume_multiplier)%float in
  {| symbol := symbol;
     timestamp := now;
     sentiment_scores :=
       {| Scores.compound := weighted_compound;
          Scores.adjusted_compound := adjusted_compound;
          Scores.positive := weighted_mean Sample.positive samples;
          Scores.negative := weighted_mean Sample.negative samples;
          Scores.neutral := weighted_mean Sample.neutral samples |};
     trading_signal := generate_trading_signal adjusted_compound;
     confidence := confidence_formula samples;
     tweet_count := tweet_count;
     volume_multiplier := volume_multiplier;
     thresholds := class_thresholds;
     raw_tweets_analyzed := tweet_count;
     error := None |}.

(** AnalysisOrchestrator: the zero-data result when the fetch fails, when
    the start of the window cannot be computed for a fetch that is not
    empty, or when no message qualifies; the full result otherwise. *)
Definition expected_result (symbol : string) (hours_back : Z) : Result :=
  match fetch_twitter_data symbol 200 with
  | inl e => get_neutral_sentiment_result symbol (Some (exn_str e))
  | inr tweets =>
    if is_empty tweets then get_neutral_sentiment_result symbol None
    else
      match window_cutoff hours_back with
      | inl e => get_neutral_sentiment_result symbol (Some (exn_str e))
      | inr _ =>
        if is_empty (weighted_samples symbol hours_back)
        then get_neutral_sentiment_result symbol None
        else full_result symbol hours_back
      end
  end.

End Analyzer.

(** ** The keyword test *)

(** [keyword in text_lower]. *)
Definition contains (keyword : string) (text_lower : list ascii) : bool :=
  is_substring (list_ascii_of_string keyword) text_lower.

(** ** The message source: [__init__], [generate_mock_tweets] and
       [fetch_twitter_data] *)

(** [s.lower()] on a string. *)
Definition str_lower (s : string) : string :=
  string_of_list_ascii (lower (list_ascii_of_string s)).

(** [sep.join(l)]. *)
Definition join (sep : string) (l : list string) : string :=
  match l with
  | [] => ""
  | x :: l' => fold_left (fun acc y => acc +:+ sep +:+ y) l' x
  end.

(** [timedelta(minutes=m)] in microseconds. *)
Definition timedelta_minutes (m : Z) : Z := m * 60000000.

(** What one turn of the loop of [generate_mock_tweets] draws from the
    module [random], in the order of the calls: [random.random()], the
    index that [random.choice] draws, and the four [random.randint]. *)
Record Draw : Type := {
  rand : float;
  pick : nat;
  minutes_ago : Z;
  retweets : Z;
  likes : Z;
  replies : Z
}.

(** A tweet as the Twitter client yields it: [tweet.id] (an integer, held
    as its decimal writing: the code only stores it), [tweet.text],
    [tweet.created_at.isoformat()] and [tweet.public_metrics]. *)
Record ApiTweet : Type := {
  api_id : string;
  api_text : string;
  api_created_at : string;
  api_public_metrics : gmap string Z
}.

(** The collaborators of the message source. *)
Class Source : Type := {
  (** [os.getenv('TWITTER_BEARER_TOKEN', '')]. *)
  twitter_bearer_token : string;
  (** [tweepy.Client(...)]: the client is built, or the call raises. *)
  tweepy_client : M unit;
  (** [tweepy.Paginator(client.search_recent_tweets, query=query,
      max_results=page, ...).flatten(limit=limit)], read to its end: the
      tweets, or the exception raised on the way. *)
  search_recent_tweets : string -> Z -> Z -> M (list ApiTweet);
  (** [d.isoformat()] for a datetime without zone. *)
  isoformat : datetime -> string;
  (** [datetime.now()] as [generate_mock_tweets] reads it. *)
  clock : datetime;
  (** The draws of the [i]-th turn of the loop of [generate_mock_tweets]. *)
  draws : nat -> Draw
}.

(** [random.choice(seq)]: the item at an index below [len(seq)]. *)
Definition choice (k : nat) (seq : list string) : string :=
  nth (k mod length seq) seq ""%string.

(** The templates of [generate_mock_tweets]. Three of them end in
    characters outside ASCII, held here as their UTF-8 bytes; no keyword
    has such a byte. *)
Definition positive_templates (symbol : string) : list string :=
  [ symbol +:+ " is looking bullish! Great momentum building ðŸš€";
    "Just bought more " +:+ symbol +:+ ", this dip won't last long";
    symbol +:+ " breaking resistance levels, moon incoming! ðŸ“ˆ";
    "Love the fundamentals of " +:+ symbol +:+ ", holding long term";
    symbol +:+ " adoption is growing rapidly, very bullish" ].

Definition negative_templates (symbol : string) : list string :=
  [ symbol +:+ " is dumping hard, might be time to sell";
    "Not feeling good about " +:+ symbol +:+ " right now, bearish signals";
    symbol +:+ " breaking support, this could get ugly ðŸ“‰";
    "Regulatory concerns around " +:+ symbol +:+ " are worrying";
    symbol +:+ " looking weak, might exit my position" ].

Definition neutral_templates (symbol : string) : list string :=
  [ symbol +:+ " consolidating in this range, waiting for breakout";
    "Watching " +:+ symbol +:+ " closely, could go either way";
    symbol +:+ " volume is low, not much happening";
    "Technical analysis on " +:+ symbol +:+ " shows mixed signals";
    symbol +:+ " holding steady, no major moves today" ].

(** The text of a mock tweet: 40% positive, 30% negative, 30% neutral. *)
Definition mock_text (symbol : string) (d : Draw) : string :=
  if (rand d <? 0.4)%float then choice (pick d) (positive_templates symbol)
  else if (rand d <? 0.7)%float then choice (pick d) (negative_templates symbol)
  else choice (pick d) (neutral_templates symbol).

Module MessageSource.

(** The query of [fetch_twitter_data]: the keywords of the symbol, or the
    lowercased symbol when it has none, joined by [OR]. *)
Definition search_query (symbol : string) : string :=
  let keywords := default [str_lower symbol] (crypto_symbols !! symbol) in
  join " OR " keywords +:+ " -is:retweet lang:en".

Section MessageSource.

Context {src : Source}.

(** [self.twitter_client] is set, as [__init__] leaves it: there is a
    bearer token and building the client did not raise. *)
Definition twitter_client : bool :=
  if String.eqb twitter_bearer_token "" then false
  else
    match tweepy_client with
    | inr _ => true
    | inl _ => false
    end.

(** The dict appended by the [i]-th turn of the loop. *)
Definition mock_tweet (symbol : string) (base_time : datetime) (i : nat)
    : Tweet :=
  let d := draws i in
  {| id := "mock_" +:+ pretty i;
     text := mock_text symbol d;
     created_at := isoformat (base_time - timedelta_minutes (minutes_ago d));
     retweet_count := retweets d;
     like_count := likes d;
     reply_count := replies d |}.

Definition generate_mock_tweets (symbol : string) (count : Z) : list Tweet :=
  let base_time := clock in
  map (mock_tweet symbol base_time) (seq 0 (Z.to_nat count)).

(** The dict [fetch_twitter_data] builds from a tweet of the client. *)
Definition tweet_of_api (tweet : ApiTweet) : Tweet :=
  {| id := api_id tweet;
     text := api_text tweet;
     created_at := api_created_at tweet;
     retweet_count :=
       default 0 (api_public_metrics tweet !! "retweet_count"%string);
     like_count :=
       default 0 (api_public_metrics tweet !! "like_count"%string);
     reply_count :=
       default 0 (api_public_metrics tweet !! "reply_count"%string) |}.

Definition fetch_twitter_data (symbol : string) (max_results : Z)
    : M (list Tweet) :=
  if negb twitter_client then ret (generate_mock_tweets symbol max_results)
  else
    try_except
      (tweets ← search_recent_tweets (search_query symbol)
                  (Z.min max_results 100) max_results;
       ret (map tweet_of_api tweets))
      (fun e => ret (generate_mock_tweets symbol max_results)).

End MessageSource.

End MessageSource.

(** The analyzer whose fetch is the one of the file. *)
Definition with_source (src : Source) (env : Collaborators) : Collaborators :=
  {| fetch_twitter_data := @MessageSource.fetch_twitter_data src;
     polarity_scores := @polarity_scores env;
     fromisoformat := @fromisoformat env;
     now := @now env;
     now_valid := @now_valid env;
     float_pow := @float_pow env |}.

(** The same source without a bearer token. *)
Definition mock_only (src : Source) : Source :=
  {| twitter_bearer_token := "";
     tweepy_client := @tweepy_client src;
     search_recent_tweets := @search_recent_tweets src;
     isoformat := @isoformat src;
     clock := @clock src;
     draws := @draws src |}.

(** ** The command line: [main] *)

(** What a run of [main] ends with: [sys.exit(status)] after the usage
    text, or the value whose JSON is printed. *)
Inductive Outcome : Type :=
  | Exit (status : Z)
  | Printed_result (result : Result)
  | Printed_batch (result : BatchResult).

(** [main()] with [sys.argv = argv]. [CryptoSentimentAnalyzer] is the
    call of the constructor: it returns the analyzer with its
    collaborators, or raises, as [__init__] builds the VADER scorer
    outside any [try]. *)
Definition main (CryptoSentimentAnalyzer : M Collaborators)
    (argv : list string) : M Outcome :=
  if len argv <? 2 then ret (Exit 1)
  else
    let symbols := tail argv in
    analyzer ← CryptoSentimentAnalyzer;
    if len symbols =? 1 then
      result ← @analyze_symbol_sentiment analyzer (nth 0 symbols ""%string) 1;
      ret (Printed_result result)
    else
      result ← @analyze_multiple_symbols analyzer symbols;
      ret (Printed_batch result).

(** ** Numbers that are not negative *)

(** A binary64 number that is not below zero: a zero of either sign, a
    positive number, [+inf] or NaN. *)
Definition SFnot_negative (x : spec_float) : bool :=
  match x with
  | S754_finite true _ _ | S754_infinity true => false
  | _ => true
  end.

(** ** Definitions used to state the properties *)

(** A strictly positive binary64 number: positive and finite, or [+inf]. *)
Definition SFpositive (x : spec_float) : bool :=
  match x with
  | S754_finite false _ _ | S754_infinity false => true
  | _ => false
  end.

Definition float_pos (x : float) : bool := SFpositive (Prim2SF x).

(** *** Values and bounds of binary64 numbers *)

(** The value of a mantissa and exponent, in units of [2 ^ - scale]. *)
Definition scale : Z := 2200.
Definition ival (m e : Z) : Z := m * 2 ^ (e + scale).

(** A number with a given sign that is not NaN. *)
Definition SFsign_is (sx : bool) (x : spec_float) : bool :=
  match x with
  | S754_zero s | S754_infinity s | S754_finite s _ _ => Bool.eqb s sx
  | S754_nan => false
  end.

(** Zero, or a positive finite number of value at most that of [B]. *)
Definition SFbelow (mB : positive) (eB : Z) (x : spec_float) : Prop :=
  x = S754_zero false \/
  exists m e, x = S754_finite false m e /\
              ival (Z.pos m) e <= ival (Z.pos mB) eB.

(** The value 1, and its binary64 encoding. *)
Definition m_one : positive := 4503599627370496.
Definition e_one : Z := -52.

(** A float that is zero or positive and at most [B]. *)
Definition float_below (mB : positive) (eB : Z) (x : float) : Prop :=
  SFbelow mB eB (Prim2SF x).

(** The float nearest to [k / 1000]. *)
Definition float_of_thousandths (k : Z) : float :=
  match k with
  | Z.pos p =>
    SF2Prim (SFdiv prec emax (S754_finite false p 0) (S754_finite false 1000 0))
  | _ => 0%float
  end.

(** [text.isascii()]: every character is below 128. On such a text
    [str.lower], [\s] and [\w] are the ASCII classes above; on other
    characters they follow Unicode, which the classes above do not. *)
Definition isascii (l : list ascii) : bool :=
  forallb (fun c => (N_of_ascii c <? 128)%N) l.

(** The text has no uppercase letter. *)
Definition no_upper (l : list ascii) : bool :=
  forallb (fun c => negb (is_upper c)) l.

(** The leading run of non-space characters. *)
Fixpoint run (l : list ascii) : list ascii :=
  match l with
  | [] => []
  | c :: l' => if is_space c then [] else c :: run l'
  end.

(** No URL pattern matches anywhere in the text. *)
Fixpoint no_url (l : list ascii) : bool :=
  match l with
  | [] => true
  | _ :: l' => negb (url_at l) && no_url l'
  end.

(** [@\w+] matches at the head of [l]. *)
Definition mention_at (l : list ascii) : bool :=
  match l with
  | c :: l' => Ascii.eqb c "@" && head_is_word l'
  | [] => false
  end.

(** No mention pattern matches anywhere in the text. *)
Fixpoint no_mention (l : list ascii) : bool :=
  match l with
  | [] => true
  | _ :: l' => negb (mention_at l) && no_mention l'
  end.

(** Every whitespace character is a single blank between two other
    characters ([after_space]: the previous character is a space). *)
Fixpoint collapsed (after_space : bool) (l : list ascii) : bool :=
  match l with
  | [] => true
  | c :: l' =>
    if is_space c then
      Ascii.eqb c " " && negb after_space && collapsed true l'
    else collapsed false l'
  end.

(** The zero-data scores. *)
Definition zero_scores : Scores.t :=
  {| Scores.compound := 0.0;
     Scores.adjusted_compound := 0.0;
     Scores.positive := 0.0;
     Scores.negative := 0.0;
     Scores.neutral := 1.0 |}.

(** ** A concrete environment

    Three tweets for every symbol but ["DOWN"], whose fetch fails; the
    second tweet has a timestamp that does not parse. The scorer gives
    every text the same scores; the power is computed with the binary64
    product and square root. *)

Definition tweet_a : Tweet :=
  {| id := "a"; text := "Bitcoin to the moon";
     created_at := "2024-01-01T12:00:00Z";
     retweet_count := 0; like_count := 0; reply_count := 0 |}.

Definition tweet_b : Tweet :=
  {| id := "b"; text := "BTC looks weak"; created_at := "garbled";
     retweet_count := 5; like_count := 10; reply_count := 2 |}.

Definition tweet_c : Tweet :=
  {| id := "c"; text := "nothing to see"; created_at := "2024-01-01T12:00:00Z";
     retweet_count := 1; like_count := 0; reply_count := 0 |}.

Definition test_env : Collaborators :=
  {| fetch_twitter_data := fun symbol _ =>
       if String.eqb symbol "DOWN" then inl (Other "connection refused")
       else inr [tweet_a; tweet_b; tweet_c];
     polarity_scores := fun _ =>
       inr {| Vader.compound := 0.5; Vader.pos := 0.4;
              Vader.neg := 0.1; Vader.neu := 0.5 |};
     fromisoformat := fun s =>
       if String.eqb s "garbled" then inl (Other "Invalid isoformat string")
       else inr 1704110400000000;
     now := 1704112200000000;
     now_valid := eq_refl;
     float_pow := fun x y => if (y =? 2)%float then (x * x)%float else sqrt x |}.

(** The same collaborators with a fetch that returns only the tweet whose
    timestamp does not parse. *)
Definition garbled_env : Collaborators :=
  {| fetch_twitter_data := fun _ _ => inr [tweet_b];
     polarity_scores := @polarity_scores test_env;
     fromisoformat := @fromisoformat test_env;
     now := @now test_env;
     now_valid := @now_valid test_env;
     float_pow := @float_pow test_env |}.

(** The same collaborators with a scorer that fails on every text. *)
Definition scorer_down_env : Collaborators :=
  {| fetch_twitter_data := @fetch_twitter_data test_env;
     polarity_scores := fun _ => inl (Other "scorer down");
     fromisoformat := @fromisoformat test_env;
     now := @now test_env;
     now_valid := @now_valid test_env;
     float_pow := @float_pow test_env |}.

(** A tweet with engagement score 9. *)
Definition tweet_9 : Tweet :=
  {| id := "1"; text := "btc"; created_at := "2024-01-01T00:00:00";
     retweet_count := 1; like_count := 2; reply_count := 2 |}.

(** The two samples of the aggregation example: compounds 0.2 and 0.6,
    weights 1.0 and 3.0. *)
Definition example_samples : list Sample.t :=
  [ {| Sample.compound := 0.2; Sample.positive := 0.2; Sample.negative := 0;
       Sample.neutral := 0.8; Sample.weight := 1.0; Sample.tweet_id := "1" |};
    {| Sample.compound := 0.6; Sample.positive := 0.6; Sample.negative := 0;
       Sample.neutral := 0.4; Sample.weight := 3.0; Sample.tweet_id := "2" |} ].

(** ** A concrete message source

    The search answers the query for ETH with one tweet and fails on
    every other query; every turn of the mock loop draws the same
    values. *)

Definition draw_0 : Draw :=
  {| rand := 0.25; pick := 7; minutes_ago := 30;
     retweets := 1; likes := 2; replies := 3 |}.

Definition api_tweet_0 : ApiTweet :=
  {| api_id := "1750000000000000000";
     api_text := "ETH flipping soon";
     api_created_at := "2024-01-01T11:50:00+00:00";
     api_public_metrics :=
       {[ "retweet_count"%string := 4; "like_count"%string := 9 ]} |}.

Definition test_source : Source :=
  {| twitter_bearer_token := "token";
     tweepy_client := inr tt;
     search_recent_tweets := fun query _ _ =>
       if String.eqb query
            "ethereum OR eth OR $eth OR #ethereum OR #eth -is:retweet lang:en"
       then inr [api_tweet_0]
       else inl (Other "429 Too Many Requests");
     isoformat := fun _ => "2024-01-01T11:30:00"%string;
     clock := 1704112200000000;
     draws := fun _ => draw_0 |}.

(** [sum(xs)] as CPython 3.12 and later compute it on floats: Neumaier's
    compensated summation, the compensation added at the end when it is
    finite and not zero. *)
Definition neumaier_step (st : float * float) (x : float) : float * float :=
  let '(f_result, c) := st in
  let t := (f_result + x)%float in
  let c' :=
    if (abs x <=? abs f_result)%float then (c + ((f_result - t) + x))%float
    else (c + ((x - t) + f_result))%float in
  (t, c').

Definition py_sum_compensated (xs : list float) : float :=
  match xs with
  | [] => 0%float
  | x :: xs' =>
    let '(f_result, c) := fold_left neumaier_step xs' ((0 + x)%float, 0%float) in
    if (c =? 0)%float || is_nan c || is_infinity c then f_result
    else (f_result + c)%float
  end.

(** The lines "Calculate weighted average sentiment" with the built-in
    [sum] as a parameter: CPython adds the items from left to right up
    to version 3.11 ([py_sum]) and with the compensation from version
    3.12 on ([py_sum_compensated]). *)
Definition weighted_average_with (builtin_sum : list float -> float)
    (f : Sample.t -> float) (sentiment_scores : list Sample.t)
    (total_engagement_weight : float) : M float :=
  py_div
    (builtin_sum
       (map (fun s => (f s * Sample.weight s)%float) sentiment_scores))
    total_engagement_weight.

(** The weighted samples of the tweets [tweet_a] and [tweet_b] in the
    concrete environment: equal scores, weights 1.0 and 1.2. *)
Definition equal_samples : list Sample.t :=
  [ {| Sample.compound := 0.5; Sample.positive := 0.4;
       Sample.negative := 0.1; Sample.neutral := 0.5;
       Sample.weight := 1.0; Sample.tweet_id := "a" |};
    {| Sample.compound := 0.5; Sample.positive := 0.4;
       Sample.negative := 0.1; Sample.neutral := 0.5;
       Sample.weight := 1.2; Sample.tweet_id := "b" |} ].

(** * Properties *)

(** ** Floats: constants and comparisons *)

(** Two float constants are different when their binary64 decodings are. *)
Ltac float_neq :=
  let H := fresh in
  intro H; apply (f_equal Prim2SF) in H; vm_compute in H; discriminate H.

(** Decide the branches of a cascade of integer tests. *)
Ltac z_tests :=
  repeat match goal with
  | |- context [?a <? ?b] => destruct (Z.ltb_spec a b)
  | |- context [?a =? ?b] => destruct (Z.eqb_spec a b)
  end.

(** *** Rounding a positive mantissa *)

Lemma digits2_pos_bounds (m : positive) :
  2 ^ (Z.pos (digits2_pos m) - 1) <= Z.pos m < 2 ^ Z.pos (digits2_pos m).
Proof.
  induction m as [p IH|p IH|]; cbn [digits2_pos].
  1,2: rewrite Pos2Z.inj_succ;
       replace (Z.succ (Z.pos (digits2_pos p)) - 1)
         with (Z.succ (Z.pos (digits2_pos p) - 1)) by lia;
       rewrite !Z.pow_succ_r by lia; lia.
  cbn. lia.
Qed.

Lemma iter_pos_nat {A} (f : A -> A) (p : positive) (x : A) :
  SpecFloat.iter_pos f p x = Nat.iter (Pos.to_nat p) f x.
Proof.
  revert x. induction p as [p IH|p IH|]; intros x; cbn [SpecFloat.iter_pos].
  - rewrite !IH, Pos2Nat.inj_xI.
    replace (S (2 * Pos.to_nat p))%nat
      with (Pos.to_nat p + S (Pos.to_nat p))%nat by lia.
    rewrite Nat.iter_add, Nat.iter_succ_r. reflexivity.
  - rewrite !IH, Pos2Nat.inj_xO.
    replace (2 * Pos.to_nat p)%nat
      with (Pos.to_nat p + Pos.to_nat p)%nat by lia.
    rewrite Nat.iter_add. reflexivity.
  - reflexivity.
Qed.

Lemma shr_1_m (mrs : shr_record) :
  0 <= shr_m mrs -> shr_m (shr_1 mrs) = shr_m mrs / 2.
Proof.
  destruct mrs as [m r s]; cbn [shr_m shr_1].
  destruct m as [|[p|p|]|p]; intros Hm; cbn [shr_m]; try lia.
  - reflexivity.
  - apply Z.div_unique with 1; lia.
  - apply Z.div_unique with 0; lia.
  - reflexivity.
Qed.

Lemma iter_shr_m (n : nat) (mrs : shr_record) :
  0 <= shr_m mrs ->
  shr_m (Nat.iter n shr_1 mrs) = shr_m mrs / 2 ^ Z.of_nat n.
Proof.
  intros Hm. induction n as [|n IH].
  - cbn. rewrite Z.div_1_r. reflexivity.
  - rewrite Nat.iter_succ, shr_1_m.
    + rewrite IH, Nat2Z.inj_succ, Z.pow_succ_r by lia.
      rewrite Z.div_div by lia. f_equal. lia.
    + rewrite IH. apply Z.div_pos; lia.
Qed.

Lemma fexp_eq (z : Z) : fexp prec emax z = Z.max (z - 53) (-1074).
Proof. reflexivity. Qed.

Lemma shr_record_of_loc_m (m : Z) (l : location) :
  shr_m (shr_record_of_loc m l) = m.
Proof. destruct l as [|[]]; reflexivity. Qed.

(** [shr_fexp] divides the mantissa by the power of two that brings the
    exponent up to [fexp]. *)
Lemma shr_fexp_spec (m e : Z) (l : location) :
  0 <= m ->
  let n := Z.max 0 (fexp prec emax (Zdigits2 m + e) - e) in
  snd (shr_fexp prec emax m e l) = e + n /\
  shr_m (fst (shr_fexp prec emax m e l)) = m / 2 ^ n.
Proof.
  intros Hm n. subst n. unfold shr_fexp, shr.
  destruct (fexp prec emax (Zdigits2 m + e) - e) as [|p|p] eqn:Hn;
    cbn [fst snd].
  - rewrite shr_record_of_loc_m, Z.max_id, Z.pow_0_r, Z.div_1_r. lia.
  - rewrite iter_pos_nat, iter_shr_m, shr_record_of_loc_m,
      positive_nat_Z by (rewrite shr_record_of_loc_m; lia).
    rewrite Z.max_r by lia. split; reflexivity.
  - rewrite shr_record_of_loc_m, Z.max_l, Z.pow_0_r, Z.div_1_r by lia. lia.
Qed.

Lemma round_nearest_even_bounds (q : Z) (l : location) :
  q <= round_nearest_even q l <= q + 1.
Proof.
  destruct l as [|[]]; cbn [round_nearest_even]; try lia.
  destruct (Z.even q); lia.
Qed.

(** Above the least exponent, shifting a positive mantissa leaves it
    positive. *)
Lemma shr_fexp_pos (m : positive) (e : Z) (l : location) :
  -1074 <= e ->
  -1074 <= snd (shr_fexp prec emax (Z.pos m) e l) /\
  0 < shr_m (fst (shr_fexp prec emax (Z.pos m) e l)).
Proof.
  intros He.
  destruct (shr_fexp_spec (Z.pos m) e l) as [-> ->]; [lia|].
  cbn [Zdigits2]. rewrite fexp_eq.
  pose proof (digits2_pos_bounds m) as [Hlo _].
  set (d := Z.pos (digits2_pos m)) in *.
  assert (0 < d) by (subst d; lia).
  split; [lia|].
  apply Z.div_str_pos. split; [apply Z.pow_pos_nonneg; lia|].
  etransitivity; [|exact Hlo].
  apply Z.pow_le_mono_r; lia.
Qed.

(** Rounding a positive mantissa whose exponent is not below the least
    one gives a positive float or infinity, never zero or NaN. *)
Lemma binary_round_aux_pos (sx : bool) (m : positive) (e : Z) (l : location) :
  -1074 <= e ->
  (exists m' e', binary_round_aux prec emax sx (Z.pos m) e l
                 = S754_finite sx m' e') \/
  binary_round_aux prec emax sx (Z.pos m) e l = S754_infinity sx.
Proof.
  intros He. unfold binary_round_aux.
  pose proof (shr_fexp_pos m e l He) as [He1 Hm1].
  destruct (shr_fexp prec emax (Z.pos m) e l) as [mrs1 e1].
  cbn [fst snd] in *.
  pose proof (round_nearest_even_bounds (shr_m mrs1) (loc_of_shr_record mrs1))
    as [Hr _].
  destruct (round_nearest_even (shr_m mrs1) (loc_of_shr_record mrs1))
    as [|m2|m2] eqn:Hm2; try lia.
  pose proof (shr_fexp_pos m2 e1 loc_Exact He1) as [He2 Hm3].
  destruct (shr_fexp prec emax (Z.pos m2) e1 loc_Exact) as [mrs2 e2].
  cbn [fst snd] in *.
  destruct (shr_m mrs2) as [|m3|m3]; try lia.
  destruct (e2 <=? emax - prec); eauto.
Qed.

Lemma shl_align_spec (mx : positive) (ex ex' : Z) :
  let '(m, e) := shl_align mx ex ex' in
  e = Z.min ex ex' /\ Z.pos m = Z.pos mx * 2 ^ (ex - e).
Proof.
  unfold shl_align.
  destruct (ex' - ex) as [|d|d] eqn:Hd.
  - split; [lia|]. rewrite Z.sub_diag. lia.
  - split; [lia|]. rewrite Z.sub_diag. lia.
  - split; [lia|].
    replace (ex - ex') with (Z.pos d) by lia.
    rewrite (Pos.iter_swap_gen _ _ Z.pos xO (Z.mul 2)) by reflexivity.
    change (Pos.iter (Z.mul 2) (Z.pos mx) d)
      with (Z.shiftl (Z.pos mx) (Z.pos d)).
    apply Z.shiftl_mul_pow2. lia.
Qed.

(** A float below the sell threshold is not above the buy threshold. *)
Lemma ltb_sell_not_buy (x : float) :
  (x <? SELL_THRESHOLD)%float = true -> (BUY_THRESHOLD <? x)%float = false.
Proof.
  rewrite !ltb_spec.
  generalize (Prim2SF x) as sx.
  let c := eval vm_compute in (Prim2SF SELL_THRESHOLD) in
    change (Prim2SF SELL_THRESHOLD) with c.
  let c := eval vm_compute in (Prim2SF BUY_THRESHOLD) in
    change (Prim2SF BUY_THRESHOLD) with c.
  intros [s|s| |s m e].
  1,2: destruct s; cbv; congruence.
  1: cbv; congruence.
  unfold SFltb, SFcompare.
  destruct s; [reflexivity|].
  rewrite (Z.compare_antisym e (-57)).
  destruct (e ?= -57) eqn:He; cbn [CompOpp]; try congruence.
  rewrite !Pos.compare_cont_spec, !Pos2Z.inj_compare.
  cbn [Pos.switch_Eq].
  destruct (Z.compare_spec (Z.pos m) 5764607523034235) as [Hm|Hm|Hm];
    try discriminate.
  intros _.
  destruct (Z.compare_spec 8646911284551352 (Z.pos m)); try reflexivity; lia.
Qed.

(** ** The signal classifier *)

(** C1. For every binary64 score [x] the classifier returns BUY exactly
    when [x > 0.06], SELL exactly when [x < 0.04] and NEUTRAL exactly when
    neither holds; the two thresholds themselves classify as NEUTRAL. The
    classifier is a function of the score alone. *)
Theorem generate_trading_signal_spec (x : float) :
  (generate_trading_signal x = BUY <-> (0.06 <? x)%float = true) /\
  (generate_trading_signal x = SELL <-> (x <? 0.04)%float = true) /\
  (generate_trading_signal x = NEUTRAL <->
     (0.06 <? x)%float = false /\ (x <? 0.04)%float = false) /\
  generate_trading_signal 0.04 = NEUTRAL /\
  generate_trading_signal 0.06 = NEUTRAL.
Proof.
  pose proof (ltb_sell_not_buy x) as Hexcl.
  unfold generate_trading_signal, BUY_THRESHOLD, SELL_THRESHOLD in *.
  destruct (0.06 <? x)%float eqn:Hbuy, (x <? 0.04)%float eqn:Hsell;
    try (specialize (Hexcl eq_refl); discriminate Hexcl);
    repeat split; intros; try reflexivity; try discriminate;
    try (destruct H; discriminate).
Qed.

(** The boundary cases listed with the classifier. *)
Example generate_trading_signal_cases :
  generate_trading_signal 0.04 = NEUTRAL /\
  generate_trading_signal 0.06 = NEUTRAL /\
  generate_trading_signal 0.0401 = NEUTRAL /\
  generate_trading_signal 0.0601 = BUY /\
  generate_trading_signal 0.0399 = SELL.
Proof. repeat split; vm_compute; reflexivity. Qed.

(** ** The volume multiplier *)

(** C2. For a sample count [n >= 0] the multiplier is 1.5 exactly when
    [n > 500], 0.5 exactly when [n < 100] and 1.0 exactly when
    [100 <= n <= 500]; so 100 and 500 give 1.0, 99 gives 0.5 and 501
    gives 1.5. *)
Theorem get_volume_multiplier_tiers (n : Z) (Hn : 0 <= n) :
  (get_volume_multiplier n = 1.5%float <-> 500 < n) /\
  (get_volume_multiplier n = 0.5%float <-> n < 100) /\
  (get_volume_multiplier n = 1.0%float <-> 100 <= n <= 500) /\
  get_volume_multiplier 100 = 1.0%float /\
  get_volume_multiplier 500 = 1.0%float /\
  get_volume_multiplier 99 = 0.5%float /\
  get_volume_multiplier 501 = 1.5%float.
Proof.
  unfold get_volume_multiplier, HIGH_VOLUME_THRESHOLD, LOW_VOLUME_THRESHOLD,
    HIGH_VOLUME_MULTIPLIER, LOW_VOLUME_MULTIPLIER.
  assert (1.5 <> 0.5)%float by float_neq.
  assert (1.5 <> 1.0)%float by float_neq.
  assert (0.5 <> 1.0)%float by float_neq.
  z_tests; repeat split; intros; try reflexivity; try lia; congruence.
Qed.

Lemma get_volume_multiplier_tiers_witness :
  0 <= 150 /\ get_volume_multiplier 150 = 1.0%float.
Proof.
  split; [lia|].
  apply (get_volume_multiplier_tiers 150); lia.
Defined.

(** ** The engagement weight *)

(** C3. For non-negative counts, with
    [s = 3 * retweets + 1 * likes + 2 * replies], the weight is 1.0
    exactly when [s = 0], 0.8 exactly when [0 < s < 10], 1.2 exactly when
    [10 <= s < 50] and 1.5 exactly when [50 <= s]. *)
Theorem calculate_engagement_weight_steps (tweet : Tweet)
    (Hr : 0 <= retweet_count tweet) (Hl : 0 <= like_count tweet)
    (Hp : 0 <= reply_count tweet) :
  let s := 3 * retweet_count tweet + 1 * like_count tweet
           + 2 * reply_count tweet in
  (calculate_engagement_weight tweet = 1.0%float <-> s = 0) /\
  (calculate_engagement_weight tweet = 0.8%float <-> 0 < s < 10) /\
  (calculate_engagement_weight tweet = 1.2%float <-> 10 <= s < 50) /\
  (calculate_engagement_weight tweet = 1.5%float <-> 50 <= s).
Proof.
  unfold calculate_engagement_weight, engagement_score.
  assert (1.0 <> 0.8)%float by float_neq.
  assert (1.0 <> 1.2)%float by float_neq.
  assert (1.0 <> 1.5)%float by float_neq.
  assert (0.8 <> 1.2)%float by float_neq.
  assert (0.8 <> 1.5)%float by float_neq.
  assert (1.2 <> 1.5)%float by float_neq.
  cbv zeta.
  z_tests; repeat split; intros; try reflexivity; try lia; congruence.
Qed.

Lemma calculate_engagement_weight_steps_witness :
  calculate_engagement_weight tweet_9 = 0.8%float.
Proof.
  apply (calculate_engagement_weight_steps tweet_9); simpl; lia.
Defined.

(** The boundary scores 0, 9, 10, 49 and 50. *)
Example calculate_engagement_weight_cases :
  let tw r l p :=
    {| id := ""; text := ""; created_at := "";
       retweet_count := r; like_count := l; reply_count := p |} in
  calculate_engagement_weight (tw 0 0 0) = 1.0%float /\
  calculate_engagement_weight (tw 3 0 0) = 0.8%float /\
  calculate_engagement_weight (tw 3 1 0) = 1.2%float /\
  calculate_engagement_weight (tw 15 0 2) = 1.2%float /\
  calculate_engagement_weight (tw 16 0 1) = 1.5%float.
Proof. repeat split. Qed.

(** ** Sums of positive floats *)

(** What validity says about a finite binary64 number. *)
Lemma valid_binary_finite (s : bool) (m : positive) (e : Z) :
  valid_binary (S754_finite s m e) = true ->
  -1074 <= e <= 971 /\ Z.pos (digits2_pos m) <= 53 /\
  (-1074 < e -> Z.pos (digits2_pos m) = 53).
Proof.
  unfold valid_binary, SpecFloat.valid_binary, bounded, canonical_mantissa.
  rewrite fexp_eq. intros H.
  apply andb_prop in H as [Hc He].
  apply Z.eqb_eq in Hc. apply Z.leb_le in He.
  change (emax - prec) with 971 in He. lia.
Qed.

Lemma binary_round_pos (sx : bool) (m : positive) (e : Z) :
  -1074 <= e ->
  (exists m' e', binary_round prec emax sx m e = S754_finite sx m' e') \/
  binary_round prec emax sx m e = S754_infinity sx.
Proof.
  intros He. unfold binary_round.
  pose proof (shl_align_spec m e (fexp prec emax (Z.pos (digits2_pos m) + e)))
    as Hal.
  destruct (shl_align m e (fexp prec emax (Z.pos (digits2_pos m) + e)))
    as [mz ez].
  destruct Hal as [Hez _]. rewrite fexp_eq in Hez.
  apply binary_round_aux_pos. lia.
Qed.

(** The sum of two strictly positive binary64 numbers is strictly
    positive. *)
Lemma SFadd_positive (x y : spec_float) :
  valid_binary x = true -> valid_binary y = true ->
  SFpositive x = true -> SFpositive y = true ->
  SFpositive (SF64add x y) = true.
Proof.
  intros Vx Vy Px Py.
  destruct x as [sx|sx| |sx mx ex], y as [sy|sy| |sy my ey];
    try discriminate; destruct sx, sy; try discriminate; try reflexivity.
  apply valid_binary_finite in Vx as [Hex _], Vy as [Hey _].
  unfold SF64add, SFadd. cbn [cond_Zopp].
  rewrite <- Pos2Z.inj_add. cbn [binary_normalize].
  match goal with
  | |- context [binary_round _ _ _ ?m ?e] =>
    destruct (binary_round_pos false m e) as [(m' & e' & ->)| ->]
  end; [lia| |]; reflexivity.
Qed.

Lemma float_pos_add (x y : float) :
  float_pos x = true -> float_pos y = true -> float_pos (x + y) = true.
Proof.
  unfold float_pos. rewrite add_spec.
  apply SFadd_positive; apply Prim2SF_valid.
Qed.

(** [0 + y] is [y] for a strictly positive [y]. *)
Lemma float_zero_add (y : float) : float_pos y = true -> (0 + y)%float = y.
Proof.
  unfold float_pos. intros Py. apply Prim2SF_inj. rewrite add_spec.
  change (Prim2SF 0) with (S754_zero false).
  destruct (Prim2SF y) as [s|s| |s m e]; try discriminate; reflexivity.
Qed.

(** A strictly positive float is above zero and is not zero. *)
Lemma float_pos_nonzero (x : float) :
  float_pos x = true -> (0 <? x)%float = true /\ (x =? 0)%float = false.
Proof.
  unfold float_pos. rewrite FloatAxioms.ltb_spec, FloatAxioms.eqb_spec.
  change (Prim2SF 0) with (S754_zero false).
  destruct (Prim2SF x) as [s|s| |s m e]; try discriminate;
    destruct s; try discriminate; split; reflexivity.
Qed.

(** The left-to-right sum of a non-empty list of strictly positive floats
    is strictly positive. *)
Lemma float_pos_fold (ws : list float) (acc : float) :
  float_pos acc = true ->
  Forall (fun w => float_pos w = true) ws ->
  float_pos (fold_left (fun a w => (a + w)%float) ws acc) = true.
Proof.
  intros Hacc Hws. revert acc Hacc.
  induction Hws as [|w ws Hw _ IH]; intros acc Hacc; cbn [fold_left].
  - exact Hacc.
  - apply IH, float_pos_add; assumption.
Qed.

Lemma float_pos_sum (ws : list float) :
  ws <> [] -> Forall (fun w => float_pos w = true) ws ->
  float_pos (py_sum ws) = true.
Proof.
  intros Hne Hws. destruct Hws as [|w ws Hw Hws]; [congruence|].
  unfold py_sum. cbn [fold_left]. rewrite float_zero_add by exact Hw.
  apply float_pos_fold; assumption.
Qed.

(** Every engagement weight is one of four values, all strictly
    positive. *)
Lemma calculate_engagement_weight_values (tweet : Tweet) :
  calculate_engagement_weight tweet = 0.8%float \/
  calculate_engagement_weight tweet = 1.0%float \/
  calculate_engagement_weight tweet = 1.2%float \/
  calculate_engagement_weight tweet = 1.5%float.
Proof.
  unfold calculate_engagement_weight. cbv zeta. z_tests; auto.
Qed.

Lemma calculate_engagement_weight_pos (tweet : Tweet) :
  float_pos (calculate_engagement_weight tweet) = true.
Proof.
  destruct (calculate_engagement_weight_values tweet) as [-> | [-> | [-> | ->]]];
    vm_compute; reflexivity.
Qed.

(** ** Rounding does not cross a binary64 number *)

Lemma shr_1_bits (mrs : shr_record) :
  0 <= shr_m mrs ->
  shr_r (shr_1 mrs) = Z.odd (shr_m mrs) /\
  shr_s (shr_1 mrs) = shr_r mrs || shr_s mrs.
Proof.
  destruct mrs as [m r s]; cbn [shr_m shr_r shr_s shr_1].
  destruct m as [|[p|p|]|p]; intros Hm; try lia; split; reflexivity.
Qed.

(** Shifting an exact mantissa: the sticky bits are set only when a
    non-zero bit was shifted out. *)
Lemma iter_shr_inexact (n : nat) (m : Z) :
  0 <= m ->
  let mrs := Nat.iter n shr_1 (Build_shr_record m false false) in
  shr_r mrs || shr_s mrs = true -> m mod 2 ^ Z.of_nat n <> 0.
Proof.
  intros Hm. induction n as [|n IH]; cbv zeta in *.
  - cbn. discriminate.
  - rewrite Nat.iter_succ.
    set (mrs := Nat.iter n shr_1 _) in *.
    assert (shr_m mrs = m / 2 ^ Z.of_nat n) as Hmrs
      by (apply (iter_shr_m n (Build_shr_record m false false)); exact Hm).
    assert (0 <= shr_m mrs) as Hpos
      by (rewrite Hmrs; apply Z.div_pos; lia).
    destruct (shr_1_bits mrs Hpos) as [-> ->].
    rewrite Nat2Z.inj_succ, Z.pow_succ_r, Z.mul_comm by lia.
    rewrite Z.rem_mul_r by lia. rewrite <- Hmrs.
    pose proof (Z.mod_pos_bound m (2 ^ Z.of_nat n)) as Hb.
    assert (0 < 2 ^ Z.of_nat n) as Hp by (apply Z.pow_pos_nonneg; lia).
    specialize (Hb Hp).
    intros H. apply orb_prop in H as [Hodd|Hrs].
    + rewrite Zmod_odd, Hodd. lia.
    + specialize (IH Hrs). pose proof (Z.mod_pos_bound (shr_m mrs) 2).
      nia.
Qed.

Lemma round_nearest_even_up (mrs : shr_record) :
  round_nearest_even (shr_m mrs) (loc_of_shr_record mrs) <> shr_m mrs ->
  shr_r mrs || shr_s mrs = true.
Proof.
  destruct mrs as [m [] []]; cbn; congruence.
Qed.

(** [shr_fexp] on an exact mantissa. *)
Lemma shr_fexp_exact (m e : Z) :
  0 <= m ->
  let n := Z.max 0 (fexp prec emax (Zdigits2 m + e) - e) in
  let mrs := fst (shr_fexp prec emax m e loc_Exact) in
  snd (shr_fexp prec emax m e loc_Exact) = e + n /\
  shr_m mrs = m / 2 ^ n /\
  m / 2 ^ n <= round_nearest_even (shr_m mrs) (loc_of_shr_record mrs)
            <= m / 2 ^ n + 1 /\
  (round_nearest_even (shr_m mrs) (loc_of_shr_record mrs) <> m / 2 ^ n ->
   m mod 2 ^ n <> 0).
Proof.
  intros Hm n mrs.
  destruct (shr_fexp_spec m e loc_Exact Hm) as [He Hmrs].
  fold n in He, Hmrs. fold mrs in Hmrs.
  split; [exact He|]. split; [exact Hmrs|].
  split; [rewrite <- Hmrs; apply round_nearest_even_bounds|].
  rewrite <- Hmrs. intros Hup. apply round_nearest_even_up in Hup.
  subst mrs n. unfold shr_fexp, shr in *.
  destruct (fexp prec emax (Zdigits2 m + e) - e) as [|p|p]; cbn [fst] in Hup;
    try discriminate Hup.
  rewrite iter_pos_nat in Hup. cbn [shr_record_of_loc] in Hup.
  apply iter_shr_inexact in Hup; [|exact Hm].
  rewrite positive_nat_Z in Hup. rewrite Z.max_r by lia. exact Hup.
Qed.

Lemma pow2_pos (a : Z) : 0 <= a -> 0 < 2 ^ a.
Proof. intros. apply Z.pow_pos_nonneg; lia. Qed.

Lemma ival_shift (m e n : Z) :
  0 <= n -> 0 <= e + scale -> ival m (e + n) = ival (m * 2 ^ n) e.
Proof.
  intros Hn He. unfold ival.
  replace (e + n + scale) with (n + (e + scale)) by lia.
  rewrite Z.pow_add_r by lia. ring.
Qed.

Lemma ival_le_mono (m m' e : Z) :
  0 <= e + scale -> m <= m' -> ival m e <= ival m' e.
Proof.
  intros He Hm. unfold ival. apply Z.mul_le_mono_nonneg_r; [|exact Hm].
  apply Z.lt_le_incl, pow2_pos, He.
Qed.

Lemma ival_le_cancel (m m' e : Z) :
  0 <= e + scale -> ival m e <= ival m' e -> m <= m'.
Proof.
  intros He. unfold ival. pose proof (pow2_pos _ He). nia.
Qed.

Lemma ival_lt_cancel (m m' e : Z) :
  0 <= e + scale -> ival m e < ival m' e -> m < m'.
Proof.
  intros He. unfold ival. pose proof (pow2_pos _ He). nia.
Qed.

(** Truncating a mantissa does not increase the value. *)
Lemma ival_trunc (m e n : Z) :
  0 <= m -> 0 <= n -> 0 <= e + scale ->
  ival (m / 2 ^ n) (e + n) <= ival m e.
Proof.
  intros Hm Hn He. rewrite ival_shift by assumption.
  apply ival_le_mono; [exact He|].
  pose proof (pow2_pos n Hn). rewrite Z.mul_comm.
  apply Z.mul_div_le. assumption.
Qed.

(** A mantissa of at least 53 bits at a higher exponent is above any
    binary64 number of a lower exponent. *)
Lemma ival_exceeds (m e : Z) (mB : positive) (eB : Z) :
  2 ^ 52 <= m -> eB < e -> Z.pos (digits2_pos mB) <= 53 ->
  0 <= eB + scale ->
  ival (Z.pos mB) eB < ival m e.
Proof.
  intros Hm He Hd Hs.
  pose proof (digits2_pos_bounds mB) as [_ HmB].
  assert (Z.pos mB < 2 ^ 53) as HmB'.
  { eapply Z.lt_le_trans; [exact HmB|]. apply Z.pow_le_mono_r; lia. }
  replace e with (eB + (e - eB)) by lia.
  rewrite ival_shift by lia.
  unfold ival. pose proof (pow2_pos _ Hs) as Hp.
  assert (2 ^ 1 <= 2 ^ (e - eB)) as Hpe by (apply Z.pow_le_mono_r; lia).
  change (2 ^ 1) with 2 in Hpe. change (2 ^ 53) with (2 ^ 52 * 2) in HmB'.
  apply Z.mul_lt_mono_pos_r; [exact Hp|]. nia.
Qed.

(** After the shift, a mantissa above the least exponent has at least
    53 bits. *)
Lemma shifted_mantissa_normal (M : positive) (E : Z) :
  let e1 := fexp prec emax (Z.pos (digits2_pos M) + E) in
  E <= e1 -> -1074 < e1 -> 2 ^ 52 <= Z.pos M / 2 ^ (e1 - E).
Proof.
  cbv zeta. rewrite fexp_eq. intros Hnorm He1.
  pose proof (digits2_pos_bounds M) as [Hlo _].
  set (d := Z.pos (digits2_pos M)) in *.
  rewrite Z.max_l in * by lia.
  replace (d + E - 53 - E) with (d - 53) by lia.
  apply Z.div_le_lower_bound; [apply pow2_pos; lia|].
  rewrite <- Z.pow_add_r by lia.
  replace (d - 53 + 52) with (d - 1) by lia. exact Hlo.
Qed.

(** The first rounding step stays below a binary64 number that is not
    below the exact value. *)
Lemma round_step_le (M : positive) (E m2 : Z) (mB : positive) (eB : Z) :
  let e1 := fexp prec emax (Z.pos (digits2_pos M) + E) in
  let m1 := Z.pos M / 2 ^ (e1 - E) in
  - scale <= E -> E <= e1 ->
  -1074 <= eB -> Z.pos (digits2_pos mB) <= 53 ->
  ival (Z.pos M) E <= ival (Z.pos mB) eB ->
  m1 <= m2 <= m1 + 1 ->
  (m2 <> m1 -> Z.pos M mod 2 ^ (e1 - E) <> 0) ->
  ival m2 e1 <= ival (Z.pos mB) eB /\ (-1074 < e1 -> 2 ^ 52 <= m2).
Proof.
  intros e1 m1 HE Hnorm HeB HdB Hle Hm2 Hup.
  assert (-1074 <= e1) as He1 by (subst e1; rewrite fexp_eq; lia).
  assert (0 <= E + scale) as HEs by lia.
  assert (0 <= eB + scale) as HeBs by (unfold scale; lia).
  assert (-1074 < e1 -> 2 ^ 52 <= m1) as Hnormal
    by (apply shifted_mantissa_normal; exact Hnorm).
  split; [|intros H; specialize (Hnormal H); lia].
  assert (ival m1 e1 <= ival (Z.pos M) E) as Htrunc.
  { replace e1 with (E + (e1 - E)) by lia.
    apply ival_trunc; lia. }
  destruct (Z.eq_dec m2 m1) as [->|Hne]; [lia|].
  assert (m2 = m1 + 1) as -> by lia.
  specialize (Hup Hne).
  assert (ival m1 e1 < ival (Z.pos M) E) as Hstrict.
  { replace e1 with (E + (e1 - E)) by lia.
    rewrite ival_shift by lia.
    unfold ival. apply Z.mul_lt_mono_pos_r; [apply pow2_pos, HEs|].
    pose proof (Z.div_mod (Z.pos M) (2 ^ (e1 - E))) as Hdm.
    pose proof (pow2_pos (e1 - E)) as Hp.
    pose proof (Z.mod_pos_bound (Z.pos M) (2 ^ (e1 - E))) as Hb.
    fold m1 in Hdm. specialize (Hdm ltac:(lia)). specialize (Hb ltac:(lia)).
    lia. }
  destruct (Z.le_gt_cases e1 eB) as [Hcase|Hcase].
  - replace eB with (e1 + (eB - e1)) in * by lia.
    rewrite ival_shift in * by lia.
    assert (m1 < Z.pos mB * 2 ^ (eB - e1)) as Hlt.
    { apply (ival_lt_cancel _ _ e1); lia. }
    apply ival_le_mono; lia.
  - exfalso.
    assert (ival (Z.pos mB) eB < ival m1 e1) as Hex.
    { apply ival_exceeds; lia. }
    lia.
Qed.

(** The second step, which renormalises after a carry, does not increase
    the value. *)
Lemma renorm_step_le (m2 e1 : Z) :
  0 <= m2 -> -1074 <= e1 -> (-1074 < e1 -> 2 ^ 52 <= m2) ->
  let n2 := Z.max 0 (fexp prec emax (Zdigits2 m2 + e1) - e1) in
  ival (m2 / 2 ^ n2) (e1 + n2) <= ival m2 e1 /\
  0 <= m2 / 2 ^ n2 /\
  (-1074 < e1 + n2 -> 2 ^ 52 <= m2 / 2 ^ n2).
Proof.
  intros Hm2 He1 Hnormal n2.
  assert (0 <= n2) as Hn2 by (subst n2; lia).
  split; [apply ival_trunc; unfold scale; lia|].
  split; [apply Z.div_pos; [exact Hm2|apply pow2_pos, Hn2]|].
  intros He2.
  destruct (Z.eq_dec n2 0) as [Hz|Hnz].
  - rewrite Hz in *. rewrite Z.pow_0_r, Z.div_1_r. apply Hnormal. lia.
  - destruct m2 as [|p2|p2]; [|clear Hm2|lia].
    + subst n2. cbn [Zdigits2] in *. rewrite fexp_eq in *. lia.
    + subst n2. cbn [Zdigits2] in *.
      assert (e1 <= fexp prec emax (Z.pos (digits2_pos p2) + e1)) as Hnorm
        by lia.
      rewrite Z.max_r in * by lia.
      replace (e1 + (fexp prec emax (Z.pos (digits2_pos p2) + e1) - e1))
        with (fexp prec emax (Z.pos (digits2_pos p2) + e1)) in He2 by lia.
      apply shifted_mantissa_normal; assumption.
Qed.

(** Rounding an exact value that is at most a binary64 number [B] gives
    zero or a finite number whose value is at most that of [B]. *)
Lemma binary_round_aux_le (M : positive) (E : Z) (mB : positive) (eB : Z) :
  - scale <= E ->
  E <= fexp prec emax (Z.pos (digits2_pos M) + E) ->
  valid_binary (S754_finite false mB eB) = true ->
  ival (Z.pos M) E <= ival (Z.pos mB) eB ->
  binary_round_aux prec emax false (Z.pos M) E loc_Exact = S754_zero false \/
  exists mR eR,
    binary_round_aux prec emax false (Z.pos M) E loc_Exact
    = S754_finite false mR eR /\
    ival (Z.pos mR) eR <= ival (Z.pos mB) eB.
Proof.
  intros HE Hnorm HB Hle.
  apply valid_binary_finite in HB as (HeB & HdB & _).
  unfold binary_round_aux.
  destruct (shr_fexp_exact (Z.pos M) E) as (He1 & Hm1 & Hr & Hup); [lia|].
  cbn [Zdigits2] in *. rewrite Z.max_r in * by lia.
  replace (E + (fexp prec emax (Z.pos (digits2_pos M) + E) - E))
    with (fexp prec emax (Z.pos (digits2_pos M) + E)) in He1 by lia.
  destruct (shr_fexp prec emax (Z.pos M) E loc_Exact) as [mrs1 e1].
  cbn [fst snd] in *. subst e1.
  set (m2 := round_nearest_even (shr_m mrs1) (loc_of_shr_record mrs1)) in *.
  destruct (round_step_le M E m2 mB eB) as [Hm2le Hm2n]; try assumption; try lia.
  set (e1 := fexp prec emax (Z.pos (digits2_pos M) + E)) in *.
  assert (-1074 <= e1) as He1 by (subst e1; rewrite fexp_eq; lia).
  assert (0 <= m2) as Hm2pos.
  { pose proof (pow2_pos (e1 - E)).
    assert (0 <= Z.pos M / 2 ^ (e1 - E)) by (apply Z.div_pos; lia). lia. }
  destruct (renorm_step_le m2 e1 Hm2pos He1 Hm2n) as (Htr & Hm3pos & Hm3n).
  destruct (shr_fexp_exact m2 e1 Hm2pos) as (He2 & Hm3 & _ & _).
  destruct (shr_fexp prec emax m2 e1 loc_Exact) as [mrs2 e2].
  cbn [fst snd] in *. subst e2. rewrite Hm3.
  set (n2 := Z.max 0 (fexp prec emax (Zdigits2 m2 + e1) - e1)) in *.
  destruct (m2 / 2 ^ n2) as [|m3|m3] eqn:Hq; [left; reflexivity| |lia].
  right. change (emax - prec) with 971.
  destruct (Z.leb_spec (e1 + n2) 971) as [Hfin|Hover].
  - exists m3, (e1 + n2). split; [reflexivity|]. lia.
  - exfalso.
    assert (ival (Z.pos mB) eB < ival (Z.pos m3) (e1 + n2)) as Hex.
    { apply ival_exceeds; unfold scale; lia. }
    lia.
Qed.

(** *** Signs *)

Lemma binary_round_aux_sign (sx : bool) (mx ex : Z) (lx : location) :
  0 <= mx -> SFsign_is sx (binary_round_aux prec emax sx mx ex lx) = true.
Proof.
  intros Hmx. unfold binary_round_aux.
  destruct (shr_fexp_spec mx ex lx Hmx) as [_ Hm1].
  destruct (shr_fexp prec emax mx ex lx) as [mrs1 e1]. cbn [fst snd] in *.
  pose proof (round_nearest_even_bounds (shr_m mrs1) (loc_of_shr_record mrs1))
    as [Hr _].
  set (m2 := round_nearest_even _ _) in *.
  assert (0 <= m2) as Hm2.
  { assert (0 <= mx / 2 ^ Z.max 0 (fexp prec emax (Zdigits2 mx + ex) - ex))
      by (apply Z.div_pos; [lia|apply pow2_pos; lia]).
    lia. }
  destruct (shr_fexp_spec m2 e1 loc_Exact Hm2) as [_ Hm3].
  destruct (shr_fexp prec emax m2 e1 loc_Exact) as [mrs2 e2].
  cbn [fst snd] in *.
  assert (0 <= shr_m mrs2) as Hm3pos
    by (rewrite Hm3; apply Z.div_pos; [lia|apply pow2_pos; lia]).
  destruct (shr_m mrs2) as [|m3|m3]; [| |lia]; cbn [SFsign_is].
  - apply eqb_reflx.
  - destruct (e2 <=? emax - prec); apply eqb_reflx.
Qed.

Lemma binary_round_sign (sx : bool) (m : positive) (e : Z) :
  SFsign_is sx (binary_round prec emax sx m e) = true.
Proof.
  unfold binary_round. destruct (shl_align m e _) as [mz ez].
  apply binary_round_aux_sign. lia.
Qed.

Lemma binary_normalize_sign (m e : Z) :
  0 <= m -> SFsign_is false (binary_normalize prec emax m e false) = true.
Proof.
  destruct m as [|p|p]; intros Hm; [reflexivity| |lia].
  apply binary_round_sign.
Qed.

(** *** Order and value of binary64 numbers *)

Lemma valid_binary_normal (s : bool) (m : positive) (e : Z) :
  valid_binary (S754_finite s m e) = true -> -1074 < e -> 2 ^ 52 <= Z.pos m.
Proof.
  intros Hv He. apply valid_binary_finite in Hv as (_ & _ & Hd).
  specialize (Hd He). pose proof (digits2_pos_bounds m) as [Hlo _].
  rewrite Hd in Hlo. exact Hlo.
Qed.

Lemma SFleb_of_ival (m1 : positive) (e1 : Z) (m2 : positive) (e2 : Z) :
  valid_binary (S754_finite false m1 e1) = true ->
  valid_binary (S754_finite false m2 e2) = true ->
  ival (Z.pos m1) e1 <= ival (Z.pos m2) e2 ->
  SFleb (S754_finite false m1 e1) (S754_finite false m2 e2) = true.
Proof.
  intros V1 V2 Hle.
  pose proof (valid_binary_normal _ _ _ V1) as Hn1.
  apply valid_binary_finite in V1 as (He1 & _ & _).
  apply valid_binary_finite in V2 as (He2 & Hd2 & _).
  unfold SFleb, SFcompare.
  destruct (Z.compare_spec e1 e2) as [->|Hlt|Hgt]; [|reflexivity|].
  - apply ival_le_cancel in Hle; [|unfold scale; lia].
    rewrite Pos.compare_cont_spec, Pos2Z.inj_compare. cbn [Pos.switch_Eq].
    destruct (Z.compare_spec (Z.pos m1) (Z.pos m2)); try reflexivity; lia.
  - exfalso.
    assert (ival (Z.pos m2) e2 < ival (Z.pos m1) e1) as Hex
      by (apply ival_exceeds; unfold scale; lia).
    lia.
Qed.

Lemma ival_of_SFleb (m1 : positive) (e1 : Z) (m2 : positive) (e2 : Z) :
  valid_binary (S754_finite false m1 e1) = true ->
  valid_binary (S754_finite false m2 e2) = true ->
  SFleb (S754_finite false m1 e1) (S754_finite false m2 e2) = true ->
  ival (Z.pos m1) e1 <= ival (Z.pos m2) e2.
Proof.
  intros V1 V2.
  pose proof (valid_binary_normal _ _ _ V2) as Hn2.
  apply valid_binary_finite in V1 as (He1 & Hd1 & _).
  apply valid_binary_finite in V2 as (He2 & _ & _).
  unfold SFleb, SFcompare.
  destruct (Z.compare_spec e1 e2) as [->|Hlt|Hgt]; [| |discriminate].
  - rewrite Pos.compare_cont_spec, Pos2Z.inj_compare. cbn [Pos.switch_Eq].
    destruct (Z.compare_spec (Z.pos m1) (Z.pos m2)); try discriminate;
      intros _; apply ival_le_mono; unfold scale; lia.
  - intros _. apply Z.lt_le_incl, ival_exceeds; unfold scale; lia.
Qed.

Lemma SFltb_SFleb (x y : spec_float) : SFltb x y = true -> SFleb x y = true.
Proof.
  unfold SFltb, SFleb. destruct (SFcompare x y) as [[]|]; congruence.
Qed.

(** *** Digits of a shifted mantissa *)

Lemma digits2_pos_unique (m : positive) (d : Z) :
  2 ^ (d - 1) <= Z.pos m < 2 ^ d -> Z.pos (digits2_pos m) = d.
Proof.
  intros [Hlo Hhi]. pose proof (digits2_pos_bounds m) as [Hlo' Hhi'].
  assert (0 < d).
  { destruct (Z.lt_trichotomy d 0) as [Hd|[->|Hd]]; [|cbn in Hhi; lia|lia].
    rewrite Z.pow_neg_r in Hhi; lia. }
  assert (d - 1 < Z.pos (digits2_pos m))
    by (apply (Z.pow_lt_mono_r_iff 2); lia).
  assert (Z.pos (digits2_pos m) - 1 < d)
    by (apply (Z.pow_lt_mono_r_iff 2); lia).
  lia.
Qed.

Lemma digits2_pos_mono (m m' : positive) :
  Z.pos m <= Z.pos m' -> Z.pos (digits2_pos m) <= Z.pos (digits2_pos m').
Proof.
  intros Hle. pose proof (digits2_pos_bounds m) as [Hlo _].
  pose proof (digits2_pos_bounds m') as [_ Hhi].
  assert (Z.pos (digits2_pos m) - 1 < Z.pos (digits2_pos m'))
    by (apply (Z.pow_lt_mono_r_iff 2); lia).
  lia.
Qed.

Lemma digits2_pos_shift (m mz : positive) (k : Z) :
  0 <= k -> Z.pos mz = Z.pos m * 2 ^ k ->
  Z.pos (digits2_pos mz) = Z.pos (digits2_pos m) + k.
Proof.
  intros Hk Hmz. apply digits2_pos_unique. rewrite Hmz.
  pose proof (digits2_pos_bounds m) as [Hlo Hhi].
  pose proof (pow2_pos k Hk) as Hp.
  replace (Z.pos (digits2_pos m) + k - 1)
    with (Z.pos (digits2_pos m) - 1 + k) by lia.
  rewrite !Z.pow_add_r by lia. nia.
Qed.

(** *** Upper bounds through the operations *)

Lemma binary_round_le (m : positive) (e : Z) (mB : positive) (eB : Z) :
  -1074 <= e ->
  valid_binary (S754_finite false mB eB) = true ->
  ival (Z.pos m) e <= ival (Z.pos mB) eB ->
  SFbelow mB eB (binary_round prec emax false m e).
Proof.
  intros He HB Hle. unfold binary_round, SFbelow.
  pose proof (shl_align_spec m e (fexp prec emax (Z.pos (digits2_pos m) + e)))
    as Hal.
  destruct (shl_align m e _) as [mz ez]. destruct Hal as [Hez Hmz].
  assert (-1074 <= ez) as Hez' by (rewrite fexp_eq in Hez; lia).
  assert (Z.pos (digits2_pos mz) + ez = Z.pos (digits2_pos m) + e) as Hd.
  { rewrite (digits2_pos_shift m mz (e - ez)) by (lia || exact Hmz). lia. }
  apply binary_round_aux_le.
  - unfold scale. lia.
  - rewrite Hd. lia.
  - exact HB.
  - rewrite Hmz, <- ival_shift by (unfold scale; lia).
    replace (ez + (e - ez)) with e by lia. exact Hle.
Qed.

Lemma ival_one : ival (Z.pos m_one) e_one = 2 ^ scale.
Proof.
  unfold ival, m_one, e_one.
  change (Z.pos 4503599627370496) with (2 ^ 52).
  rewrite <- Z.pow_add_r by (unfold scale; lia). f_equal.
Qed.

(** Multiplying a number of value at most 1 by a normal binary64 number
    [B] gives at most [B]. *)
Lemma SFmul_below (x : spec_float) (mB : positive) (eB : Z) :
  valid_binary x = true ->
  valid_binary (S754_finite false mB eB) = true ->
  Z.pos (digits2_pos mB) = 53 ->
  SFbelow m_one e_one x ->
  SFbelow mB eB (SF64mul x (S754_finite false mB eB)).
Proof.
  intros Vx VB HdB [->|(m & e & -> & Hx)]; [left; reflexivity|].
  cbn [SF64mul SFmul xorb].
  pose proof VB as VB'.
  apply valid_binary_finite in Vx as (He & _ & _).
  apply valid_binary_finite in VB' as (HeB & _ & _).
  apply binary_round_aux_le; [unfold scale; lia| |exact VB|].
  - rewrite fexp_eq.
    assert (Z.pos (digits2_pos mB) <= Z.pos (digits2_pos (m * mB)))
      by (apply digits2_pos_mono; nia).
    lia.
  - rewrite ival_one in Hx. unfold ival in *.
    assert (0 < 2 ^ scale) as HR by (apply pow2_pos; unfold scale; lia).
    assert (0 < 2 ^ (eB + scale)) as HQ by (apply pow2_pos; unfold scale; lia).
    assert (2 ^ (e + eB + scale) * 2 ^ scale
            = 2 ^ (e + scale) * 2 ^ (eB + scale)) as Hpow.
    { rewrite <- !Z.pow_add_r by (unfold scale; lia). f_equal. lia. }
    apply (Z.mul_le_mono_pos_r _ _ (2 ^ scale) HR).
    rewrite Pos2Z.inj_mul.
    set (P := 2 ^ (e + scale)) in *. set (Q := 2 ^ (eB + scale)) in *.
    set (R := 2 ^ scale) in *. set (T := 2 ^ (e + eB + scale)) in *.
    assert (Z.pos m * Z.pos mB * T * R = Z.pos mB * Q * (Z.pos m * P)) as ->.
    { transitivity (Z.pos m * Z.pos mB * (T * R)); [ring|].
      rewrite Hpow. ring. }
    apply Z.mul_le_mono_nonneg_l; [|exact Hx].
    apply Z.mul_nonneg_nonneg; lia.
Qed.

Lemma ival_nonneg (m : positive) (e : Z) : 0 <= ival (Z.pos m) e.
Proof.
  unfold ival. apply Z.mul_nonneg_nonneg; [lia|]. apply Z.pow_nonneg. lia.
Qed.

(** The mantissa that [shl_align] returns for a lower exponent has the
    same value. *)
Lemma shl_align_ival (m : positive) (e ez : Z) :
  -1074 <= ez <= e ->
  ival (Z.pos (fst (shl_align m e ez))) ez = ival (Z.pos m) e.
Proof.
  intros He. pose proof (shl_align_spec m e ez) as Hal.
  destruct (shl_align m e ez) as [a ea]. destruct Hal as [Hea Ha].
  cbn [fst]. rewrite Ha, Z.min_r in * by lia. subst ea.
  rewrite <- ival_shift by (unfold scale; lia). f_equal. lia.
Qed.

Lemma valid_one : valid_binary (S754_finite false m_one e_one) = true.
Proof. reflexivity. Qed.

(** The sum of two numbers bounded by [B1] and [B2], with
    [B1 + B2 <= 1], is at most 1. *)
Lemma SFadd_below (p q : spec_float)
    (m1 : positive) (e1 : Z) (m2 : positive) (e2 : Z) :
  valid_binary p = true -> valid_binary q = true ->
  SFbelow m1 e1 p -> SFbelow m2 e2 q ->
  ival (Z.pos m1) e1 + ival (Z.pos m2) e2 <= ival (Z.pos m_one) e_one ->
  SFbelow m_one e_one (SF64add p q).
Proof.
  intros Vp Vq [->|(mp & ep & -> & Hp)] [->|(mq & eq & -> & Hq)] Hsum.
  - left. reflexivity.
  - right. exists mq, eq. split; [reflexivity|].
    pose proof (ival_nonneg m1 e1). lia.
  - right. exists mp, ep. split; [reflexivity|].
    pose proof (ival_nonneg m2 e2). lia.
  - apply valid_binary_finite in Vp as (Hep & _ & _).
    apply valid_binary_finite in Vq as (Heq & _ & _).
    unfold SF64add, SFadd. cbn [cond_Zopp].
    rewrite <- Pos2Z.inj_add. cbn [binary_normalize].
    apply binary_round_le; [lia|apply valid_one|].
    rewrite Pos2Z.inj_add. unfold ival at 1.
    rewrite Z.mul_add_distr_r. fold (ival (Z.pos (fst (shl_align mp ep (Z.min ep eq)))) (Z.min ep eq)).
    fold (ival (Z.pos (fst (shl_align mq eq (Z.min ep eq)))) (Z.min ep eq)).
    rewrite !shl_align_ival by lia. lia.
Qed.

(** Subtracting a number that is not negative from 1 gives a number that
    is not above zero, or one that is at most 1. *)
Lemma SFsub_one_below (s : spec_float) :
  valid_binary s = true ->
  SFltb s (S754_zero false) = false ->
  let y := SF64sub (S754_finite false m_one e_one) s in
  SFltb (S754_zero false) y = false \/ SFbelow m_one e_one y.
Proof.
  intros Vs Hs y. subst y.
  destruct s as [sz|[]| |[] ms es]; try discriminate Hs.
  - right. right. exists m_one, e_one. split; [reflexivity|lia].
  - left. reflexivity.
  - left. reflexivity.
  - apply valid_binary_finite in Vs as (Hes & _ & _).
    unfold SF64sub, SFsub. cbn [cond_Zopp].
    assert (-1074 <= Z.min e_one es <= e_one) as Hez by (unfold e_one; lia).
    pose proof (shl_align_ival m_one e_one (Z.min e_one es) Hez) as Ha.
    set (a := fst (shl_align m_one e_one (Z.min e_one es))) in *.
    set (b := fst (shl_align ms es (Z.min e_one es))) in *.
    destruct (Z.pos a - Z.pos b) as [|d|d] eqn:Hd; cbn [binary_normalize].
    + left. reflexivity.
    + right. apply binary_round_le; [lia|apply valid_one|].
      rewrite <- Ha. apply ival_le_mono; [unfold scale|]; lia.
    + left. pose proof (binary_round_sign true d (Z.min e_one es)) as Hsign.
      destruct (binary_round prec emax true d (Z.min e_one es))
        as [[]|[]| |[] mr er]; try discriminate Hsign; reflexivity.
Qed.

(** Dividing a number that is not negative by a positive finite number
    gives a number that is not negative. *)
Lemma SFdiv_sign (x : spec_float) (my : positive) (ey : Z) :
  SFsign_is false x = true ->
  SFsign_is false (SF64div x (S754_finite false my ey)) = true.
Proof.
  destruct x as [[]|[]| |[] mx ex]; try discriminate; intros _;
    try reflexivity.
  unfold SF64div, SFdiv, SFdiv_core_binary. cbn [xorb].
  set (s := ex - ey - _).
  set (m' := match s with Z.pos _ => Z.shiftl (Z.pos mx) s | 0 => Z.pos mx
             | Z.neg _ => 0 end).
  assert (0 <= m') as Hm'.
  { subst m'. destruct s; try lia. apply Z.shiftl_nonneg. lia. }
  pose proof (Z.div_pos m' (Z.pos my) Hm' ltac:(lia)) as Hq.
  unfold Z.div in Hq.
  destruct (Z.div_eucl m' (Z.pos my)) as [q r].
  apply binary_round_aux_sign. exact Hq.
Qed.

(** *** The same facts on primitive floats *)

Lemma SFsign_not_negative (x : spec_float) :
  SFsign_is false x = true -> SFltb x (S754_zero false) = false.
Proof. destruct x as [[]|[]| |[] m e]; try discriminate; reflexivity. Qed.

(** Twice a float that is not below zero is not below zero. *)
Lemma double_not_negative (sigma : float) :
  (sigma <? 0)%float = false ->
  SFltb (Prim2SF (sigma * 2)) (S754_zero false) = false.
Proof.
  rewrite ltb_spec, mul_spec. change (Prim2SF 0) with (S754_zero false).
  change (Prim2SF 2) with (S754_finite false 4503599627370496 (-51)).
  destruct (Prim2SF sigma) as [sz|[]| |[] m e]; try discriminate; intros _;
    try reflexivity.
  cbn [SF64mul SFmul xorb]. apply SFsign_not_negative.
  apply binary_round_aux_sign. lia.
Qed.

(** [max(0, 1 - 2 * sigma)] is at most 1 when [sigma] is not negative. *)
Lemma py_max0_below (sigma : float) :
  (sigma <? 0)%float = false ->
  float_below m_one e_one (py_max0 (1 - sigma * 2)).
Proof.
  intros Hsigma. unfold float_below, py_max0.
  destruct (0 <? 1 - sigma * 2)%float eqn:Hy; [|left; reflexivity].
  rewrite ltb_spec, sub_spec in Hy. rewrite sub_spec.
  change (Prim2SF 0) with (S754_zero false) in Hy.
  change (Prim2SF 1) with (S754_finite false m_one e_one) in *.
  destruct (SFsub_one_below (Prim2SF (sigma * 2)))
    as [Hneg|Hbelow];
    [apply Prim2SF_valid|apply double_not_negative, Hsigma| |exact Hbelow].
  cbv zeta in Hneg. congruence.
Qed.

Lemma float_of_int_sign (n : Z) :
  0 <= n -> SFsign_is false (Prim2SF (float_of_int n)) = true.
Proof.
  destruct n as [|p|p]; intros Hn; [reflexivity| |lia].
  unfold float_of_int. rewrite of_uint63_spec.
  apply binary_normalize_sign. apply Uint63.to_Z_bounded.
Qed.

(** [min(1, n / 100)] is at most 1 and not negative for a count [n]. *)
Lemma py_min1_below (n : Z) :
  0 <= n -> float_below m_one e_one (py_min1 (float_of_int n / 100)).
Proof.
  intros Hn. unfold float_below, py_min1.
  destruct (float_of_int n / 100 <? 1)%float eqn:Hy;
    [|right; exists m_one, e_one; split; [reflexivity|lia]].
  rewrite ltb_spec in Hy.
  change (Prim2SF 1) with (S754_finite false m_one e_one) in Hy.
  pose proof (Prim2SF_valid (float_of_int n / 100)) as Vy.
  pose proof (SFdiv_sign _ 7036874417766400 (-46) (float_of_int_sign n Hn))
    as Hsign.
  change (S754_finite false 7036874417766400 (-46)) with (Prim2SF 100)
    in Hsign.
  rewrite <- div_spec in Hsign.
  destruct (Prim2SF (float_of_int n / 100)) as [[]|[]| |[] m e];
    try discriminate Hsign; try discriminate Hy.
  - left. reflexivity.
  - right. exists m, e. split; [reflexivity|].
    apply ival_of_SFleb; [exact Vy|apply valid_one|]. apply SFltb_SFleb, Hy.
Qed.

Lemma float_mul_below (c B : float) (mB : positive) (eB : Z) :
  Prim2SF B = S754_finite false mB eB ->
  Z.pos (digits2_pos mB) = 53 ->
  float_below m_one e_one c -> float_below mB eB (c * B).
Proof.
  intros HB Hd Hc. unfold float_below. rewrite mul_spec, HB.
  apply SFmul_below; [apply Prim2SF_valid| |exact Hd|exact Hc].
  rewrite <- HB. apply Prim2SF_valid.
Qed.

Lemma float_add_below (p q : float)
    (m1 : positive) (e1 : Z) (m2 : positive) (e2 : Z) :
  float_below m1 e1 p -> float_below m2 e2 q ->
  ival (Z.pos m1) e1 + ival (Z.pos m2) e2 <= ival (Z.pos m_one) e_one ->
  float_below m_one e_one (p + q).
Proof.
  intros Hp Hq Hsum. unfold float_below. rewrite add_spec.
  apply (SFadd_below _ _ m1 e1 m2 e2); try apply Prim2SF_valid; assumption.
Qed.

(** The weighted combination of two floats of the unit interval is in
    the unit interval: [0.7 + 0.3 <= 1] holds for the binary64 constants. *)
Lemma combination_below (c v : float) :
  float_below m_one e_one c -> float_below m_one e_one v ->
  float_below m_one e_one (c * 0.7 + v * 0.3).
Proof.
  intros Hc Hv.
  apply (float_add_below _ _ 6305039478318694 (-53) 5404319552844595 (-54)).
  - apply float_mul_below; [reflexivity|reflexivity|exact Hc].
  - apply float_mul_below; [reflexivity|reflexivity|exact Hv].
  - apply Z.leb_le. vm_compute. reflexivity.
Qed.

(** *** Rounding to three decimals *)

Lemma div_half_even_bounds (n d : Z) :
  0 <= n -> 0 < d -> n <= 1000 * d -> 0 <= div_half_even n d <= 1000.
Proof.
  intros Hn Hd Hle. unfold div_half_even.
  pose proof (Z.div_mod n d ltac:(lia)) as Hdm.
  pose proof (Z.mod_pos_bound n d Hd) as Hr.
  assert (0 <= n / d) as Hq by (apply Z.div_pos; lia).
  assert (n / d <= 1000) as Hq'.
  { apply Z.div_le_upper_bound; lia. }
  destruct (Z.compare_spec (2 * (n mod d)) d) as [Heq|Hlt|Hgt];
    [destruct (Z.even (n / d))| |]; nia.
Qed.

(** Rounding a float of the unit interval to three decimals gives the
    float nearest to some [k / 1000] with [0 <= k <= 1000]. *)
Lemma py_round3_unit (x : float) :
  float_below m_one e_one x ->
  exists k, 0 <= k <= 1000 /\ py_round3 x = float_of_thousandths k.
Proof.
  intros Hx. unfold py_round3. pose proof (Prim2SF_valid x) as Vx.
  destruct Hx as [Hz|(m & e & Hx & Hle)].
  - exists 0. split; [lia|]. rewrite Hz. apply Prim2SF_inj. exact Hz.
  - rewrite Hx in *. pose proof (valid_binary_normal _ _ _ Vx) as Hnormal.
    apply valid_binary_finite in Vx as (He & Hd & _).
    destruct (Z.leb_spec (-3) e) as [Hbig|Hsmall].
    { exfalso.
      assert (Z.pos (digits2_pos m_one) = 53) as Hd1 by reflexivity.
      assert (ival (Z.pos m_one) e_one < ival (Z.pos m) e) as Hex.
      { apply ival_exceeds; unfold e_one, scale; lia. }
      lia. }
    assert (Z.pos m <= 2 ^ (- e)) as Hm.
    { rewrite ival_one in Hle. unfold ival in Hle.
      replace scale with (- e + (e + scale)) in Hle at 2 by lia.
      rewrite (Z.pow_add_r 2 (- e) (e + scale)) in Hle by (unfold scale; lia).
      pose proof (pow2_pos (e + scale) ltac:(unfold scale; lia)). nia. }
    pose proof (div_half_even_bounds (Z.pos m * 1000) (2 ^ (- e))
                  ltac:(lia) (pow2_pos (- e) ltac:(lia)) ltac:(lia)) as Hk.
    destruct (div_half_even (Z.pos m * 1000) (2 ^ (- e))) as [|k|k] eqn:Hdiv.
    + exists 0. split; [lia|reflexivity].
    + exists (Z.pos k). split; [lia|reflexivity].
    + lia.
Qed.

Lemma float_of_thousandths_unit (k : Z) :
  0 <= k <= 1000 ->
  (0 <=? float_of_thousandths k)%float = true /\
  (float_of_thousandths k <=? 1)%float = true.
Proof.
  intros Hk.
  assert (forallb (fun i =>
                     let f := float_of_thousandths (Z.of_nat i) in
                     (0 <=? f)%float && (f <=? 1)%float)
                  (List.seq 0 1001) = true) as Hall
    by (vm_compute; reflexivity).
  rewrite forallb_forall in Hall.
  specialize (Hall (Z.to_nat k)). rewrite Z2Nat.id in Hall by lia.
  apply andb_prop, Hall, in_seq. lia.
Qed.

(** The square root of the library is never below zero. *)
Lemma sqrt_not_negative (v : float) : (sqrt v <? 0)%float = false.
Proof.
  rewrite ltb_spec, sqrt_spec. change (Prim2SF 0) with (S754_zero false).
  destruct (Prim2SF v) as [[]|[]| |[] m e]; try reflexivity.
  unfold SF64sqrt, SFsqrt, SFsqrt_core_binary.
  set (m' := match _ with Z.pos _ => _ | 0 => _ | Z.neg _ => _ end).
  pose proof (Z.sqrt_nonneg m') as Hs. rewrite <- Z.sqrtrem_sqrt in Hs.
  destruct (Z.sqrtrem m') as [q r]. cbn [fst] in Hs.
  apply SFsign_not_negative, binary_round_aux_sign. exact Hs.
Qed.

(** ** Multiplication commutes *)

Lemma SFmul_comm (x y : spec_float) : SF64mul x y = SF64mul y x.
Proof.
  destruct x as [sx|sx| |sx mx ex], y as [sy|sy| |sy my ey];
    cbn [SF64mul SFmul]; rewrite ?(xorb_comm sx sy); try reflexivity.
  rewrite (Pos.mul_comm mx my), (Z.add_comm ex ey). reflexivity.
Qed.

Lemma float_mul_comm (x y : float) : (x * y = y * x)%float.
Proof. apply Prim2SF_inj. rewrite !mul_spec. apply SFmul_comm. Qed.

(** ** The pipeline in closed form *)

Section AnalyzerProperties.

Context {env : Collaborators}.

(** [analyze_text_sentiment] absorbs a failure of the scorer. *)
Lemma analyze_text_sentiment_total (text : string) :
  analyze_text_sentiment text = inr (text_sentiment text).
Proof.
  unfold analyze_text_sentiment, text_sentiment.
  destruct (polarity_scores (preprocess_tweet text)); reflexivity.
Qed.

Lemma time_window_step_closed (cutoff_time : datetime)
    (recent_tweets : list Tweet) (tweet : Tweet) :
  time_window_step cutoff_time recent_tweets tweet
  = inr (if in_window cutoff_time tweet then recent_tweets ++ [tweet]
         else recent_tweets).
Proof.
  unfold time_window_step, in_window.
  destruct (fromisoformat (replace_Z (created_at tweet))) as [e|tweet_time];
    cbn; [reflexivity|].
  destruct (cutoff_time <? tweet_time); reflexivity.
Qed.

(** The loop over the tweets keeps, in order, those in the window. *)
Lemma time_window_loop (cutoff_time : datetime) (tweets acc : list Tweet) :
  for_loop (time_window_step cutoff_time) tweets acc
  = inr (acc ++ List.filter (in_window cutoff_time) tweets).
Proof.
  revert acc. induction tweets as [|tweet tweets IH]; intros acc;
    cbn [for_loop List.filter].
  - rewrite app_nil_r. reflexivity.
  - rewrite time_window_step_closed. cbn.
    destruct (in_window cutoff_time tweet); rewrite IH.
    + rewrite <- app_assoc. reflexivity.
    + reflexivity.
Qed.

Lemma sample_step_closed (symbol : string)
    (sentiment_scores : list Sample.t) (total : float) (tweet : Tweet) :
  sample_step symbol (sentiment_scores, total) tweet
  = inr (if is_crypto_related (text tweet) symbol
         then (sentiment_scores ++ [weighted_sample tweet],
               (total + calculate_engagement_weight tweet)%float)
         else (sentiment_scores, total)).
Proof.
  unfold sample_step.
  destruct (is_crypto_related (text tweet) symbol); [|reflexivity].
  rewrite analyze_text_sentiment_total. reflexivity.
Qed.

(** The loop over the recent tweets appends the weighted samples of the
    relevant ones and adds their weights, from left to right. *)
Lemma sample_loop (symbol : string) (recent_tweets : list Tweet)
    (sentiment_scores : list Sample.t) (total : float) :
  let relevant :=
    List.filter (fun tweet => is_crypto_related (text tweet) symbol)
                recent_tweets in
  for_loop (sample_step symbol) recent_tweets (sentiment_scores, total)
  = inr (sentiment_scores ++ map weighted_sample relevant,
         fold_left (fun a w => (a + w)%float)
                   (map Sample.weight (map weighted_sample relevant)) total).
Proof.
  revert sentiment_scores total.
  induction recent_tweets as [|tweet tweets IH]; intros ss total;
    cbn [for_loop List.filter map fold_left].
  - rewrite app_nil_r. reflexivity.
  - rewrite sample_step_closed.
    destruct (is_crypto_related (text tweet) symbol); cbn; rewrite IH.
    + cbn [map fold_left]. rewrite <- app_assoc. reflexivity.
    + reflexivity.
Qed.

Lemma is_empty_true {A} (l : list A) : is_empty l = true <-> l = [].
Proof. destruct l; cbn; split; congruence. Qed.

Lemma is_empty_false {A} (l : list A) : is_empty l = false <-> l <> [].
Proof. destruct l; cbn; split; congruence. Qed.

Lemma len_zero {A} (l : list A) : len l = 0 <-> l = [].
Proof. unfold len. destruct l; cbn; split; try congruence; lia. Qed.

(** The total weight of a non-empty list of samples whose weights come
    from [calculate_engagement_weight] is strictly positive. *)
Lemma weighted_samples_total_pos (tweets : list Tweet) :
  tweets <> [] ->
  float_pos (py_sum (map Sample.weight (map weighted_sample tweets))) = true.
Proof.
  intros Hne. apply float_pos_sum.
  - destruct tweets; [congruence|discriminate].
  - rewrite map_map. apply Forall_map, Forall_forall. intros tweet _.
    apply calculate_engagement_weight_pos.
Qed.

(** Dividing by a strictly positive float does not raise. *)
Lemma py_div_pos (x y : float) :
  float_pos y = true -> py_div x y = inr (x / y)%float.
Proof.
  intros Hy. unfold py_div.
  destruct (float_pos_nonzero y Hy) as [_ ->]. reflexivity.
Qed.

(** For a non-empty list the confidence is returned, and it is the
    rounded combination of consistency and volume. *)
Lemma calculate_confidence_closed (samples : list Sample.t) (n : Z) :
  samples <> [] ->
  calculate_confidence samples n
  = inr (py_round3
           (py_max0
              (1 - population_std_dev (map Sample.compound samples) * 2) * 0.7
            + py_min1 (float_of_int n / 100) * 0.3)).
Proof.
  intros Hne. unfold calculate_confidence, population_std_dev, py_div_int.
  destruct samples as [|s samples]; [congruence|].
  cbn [is_empty].
  assert ((len (map Sample.compound (s :: samples)) =? 0) = false) as ->.
  { apply Z.eqb_neq. unfold len. cbn. lia. }
  reflexivity.
Qed.

Lemma calculate_confidence_formula (samples : list Sample.t) :
  samples <> [] ->
  calculate_confidence samples (len samples)
  = inr (confidence_formula samples).
Proof.
  intros Hne. rewrite calculate_confidence_closed by exact Hne.
  unfold confidence_formula. cbv zeta.
  rewrite (float_mul_comm 0.7), (float_mul_comm 0.3), (float_mul_comm 2).
  reflexivity.
Qed.

(** The analysis always returns, and returns the expected result. *)
Lemma analyze_symbol_sentiment_closed (symbol : string) (hours_back : Z) :
  analyze_symbol_sentiment symbol hours_back
  = inr (expected_result symbol hours_back).
Proof.
  unfold analyze_symbol_sentiment, analyze_symbol_sentiment_body,
    expected_result.
  assert (forall cutoff_time,
            window_cutoff hours_back = inr cutoff_time ->
            weighted_samples symbol hours_back
            = map weighted_sample
                (List.filter
                   (fun tweet => is_crypto_related (text tweet) symbol)
                   (List.filter (in_window cutoff_time) (messages symbol))))
    as Hs.
  { intros cutoff_time Hc. unfold weighted_samples, qualifying.
    rewrite Hc. reflexivity. }
  unfold messages in Hs.
  destruct (fetch_twitter_data symbol 200) as [e|tweets]; [reflexivity|].
  cbn [mbind M_bind bind].
  destruct (is_empty tweets) eqn:Ht; [reflexivity|].
  unfold window_cutoff in *.
  destruct (timedelta hours_back) as [e|delta]; [reflexivity|].
  cbn [mbind M_bind bind] in *.
  destruct (datetime_sub now delta) as [e|cutoff_time]; [reflexivity|].
  cbn [mbind M_bind bind].
  specialize (Hs cutoff_time eq_refl).
  rewrite time_window_loop. cbn [mbind M_bind bind app].
  set (recent := List.filter _ tweets) in *.
  destruct (is_empty recent) eqn:Hr.
  { apply is_empty_true in Hr. rewrite Hs, Hr. reflexivity. }
  rewrite sample_loop. cbv zeta. cbn [mbind M_bind bind app].
  set (relevant := List.filter _ recent) in *.
  unfold full_result. rewrite Hs.
  destruct (is_empty (map weighted_sample relevant)) eqn:Hq; [reflexivity|].
  assert (relevant <> []) as Hne.
  { intros Hrel. rewrite Hrel in Hq. discriminate Hq. }
  apply is_empty_false in Hq.
  unfold weighted_average.
  change (fold_left _ ?ws 0%float) with (py_sum ws).
  rewrite !py_div_pos by (apply weighted_samples_total_pos; exact Hne).
  cbn [mbind M_bind bind].
  rewrite calculate_confidence_formula by exact Hq.
  reflexivity.
Qed.

(** ** The aggregate scores *)

(** The four aggregate scores of a full result are the weighted means of
    the weighted samples. *)
Lemma full_result_scores (symbol : string) (hours_back : Z) :
  let samples := weighted_samples symbol hours_back in
  let scores := sentiment_scores (full_result symbol hours_back) in
  Scores.compound scores = weighted_mean Sample.compound samples /\
  Scores.positive scores = weighted_mean Sample.positive samples /\
  Scores.negative scores = weighted_mean Sample.negative samples /\
  Scores.neutral scores = weighted_mean Sample.neutral samples.
Proof. repeat split. Qed.

(** ** The result of an analysis, by cases *)

Lemma qualifying_fetch_failed (symbol : string) (hours_back : Z) (e : exn) :
  fetch_twitter_data symbol 200 = inl e -> qualifying symbol hours_back = [].
Proof.
  intros He. unfold qualifying, messages. rewrite He.
  destruct (window_cutoff hours_back); reflexivity.
Qed.

Lemma qualifying_fetch_empty (symbol : string) (hours_back : Z) :
  fetch_twitter_data symbol 200 = inr [] -> qualifying symbol hours_back = [].
Proof.
  intros He. unfold qualifying, messages. rewrite He.
  destruct (window_cutoff hours_back); reflexivity.
Qed.

Lemma qualifying_cutoff_failed (symbol : string) (hours_back : Z) (e : exn) :
  window_cutoff hours_back = inl e -> qualifying symbol hours_back = [].
Proof. intros He. unfold qualifying. rewrite He. reflexivity. Qed.

(** With no qualifying message the expected result is the zero-data
    result; it is annotated when the fetch fails and when the start of the
    window cannot be computed for a fetch that is not empty, and not
    annotated otherwise. *)
Lemma expected_result_zero (symbol : string) (hours_back : Z) :
  qualifying symbol hours_back = [] ->
  exists annotation,
    expected_result symbol hours_back
    = get_neutral_sentiment_result symbol annotation /\
    (forall e, fetch_twitter_data symbol 200 = inl e ->
               annotation = Some (exn_str e)) /\
    (forall tweets e,
       fetch_twitter_data symbol 200 = inr tweets -> tweets <> [] ->
       window_cutoff hours_back = inl e -> annotation = Some (exn_str e)) /\
    (forall tweets,
       fetch_twitter_data symbol 200 = inr tweets ->
       tweets = [] \/ (exists cutoff_time,
                         window_cutoff hours_back = inr cutoff_time) ->
       annotation = None).
Proof.
  intros Hq. unfold expected_result, weighted_samples. rewrite Hq.
  cbn [map is_empty].
  destruct (fetch_twitter_data symbol 200) as [e|tweets].
  { eexists. split; [reflexivity|].
    split; [intros e' He; congruence|]. split; discriminate. }
  destruct (is_empty tweets) eqn:Ht.
  { apply is_empty_true in Ht. subst tweets.
    eexists. split; [reflexivity|]. split; [discriminate|].
    split; [|reflexivity].
    intros tweets e He Hne. injection He as <-. contradiction. }
  assert (tweets <> []) as Hne.
  { intros ->. discriminate Ht. }
  destruct (window_cutoff hours_back) as [e|cutoff_time].
  - eexists. split; [reflexivity|]. split; [discriminate|].
    split; [intros tweets' e' _ _ He; congruence|].
    intros tweets' He [->|[c Hc]]; [|discriminate Hc].
    injection He as ->. contradiction.
  - eexists. split; [reflexivity|]. split; [discriminate|].
    split; [discriminate|reflexivity].
Qed.

(** With a qualifying message it is the full result: the fetch returned
    and the start of the window was computed. *)
Lemma expected_result_full (symbol : string) (hours_back : Z) :
  qualifying symbol hours_back <> [] ->
  expected_result symbol hours_back = full_result symbol hours_back.
Proof.
  intros Hq. unfold expected_result, weighted_samples.
  destruct (fetch_twitter_data symbol 200) as [e|tweets] eqn:Hf.
  { exfalso. apply Hq, (qualifying_fetch_failed _ _ e Hf). }
  destruct (is_empty tweets) eqn:Ht.
  { apply is_empty_true in Ht. subst tweets.
    exfalso. apply Hq, qualifying_fetch_empty, Hf. }
  destruct (window_cutoff hours_back) as [e|cutoff_time] eqn:Hc.
  { exfalso. apply Hq, (qualifying_cutoff_failed _ _ e Hc). }
  destruct (qualifying symbol hours_back); [congruence|reflexivity].
Qed.

(** The sample count of the expected result is the number of qualifying
    messages. *)
Lemma expected_result_tweet_count (symbol : string) (hours_back : Z) :
  tweet_count (expected_result symbol hours_back)
  = len (qualifying symbol hours_back).
Proof.
  destruct (qualifying symbol hours_back) as [|q qs] eqn:Hq.
  - destruct (expected_result_zero symbol hours_back Hq) as (a & -> & _).
    reflexivity.
  - rewrite expected_result_full by congruence.
    unfold full_result, weighted_samples, len. cbn [tweet_count].
    rewrite Hq, !length_map. reflexivity.
Qed.

(** ** Zero-data results *)

(** C5. The analysis returns a result whose sample count is 0 exactly
    when no message passes both the time filter and the relevance filter,
    as is the case when the filters do not run: the fetch failed, or the
    start of the window could not be computed. A result with sample count
    0 has compound 0, positive 0, negative 0, neutral 1, signal NEUTRAL
    and confidence 0. *)
Theorem zero_sample_count_iff (symbol : string) (hours_back : Z) :
  exists r,
    analyze_symbol_sentiment symbol hours_back = inr r /\
    (tweet_count r = 0 <-> qualifying symbol hours_back = []) /\
    (tweet_count r = 0 ->
     Scores.compound (sentiment_scores r) = 0%float /\
     Scores.positive (sentiment_scores r) = 0%float /\
     Scores.negative (sentiment_scores r) = 0%float /\
     Scores.neutral (sentiment_scores r) = 1%float /\
     trading_signal r = NEUTRAL /\
     confidence r = 0%float).
Proof.
  exists (expected_result symbol hours_back).
  split; [apply analyze_symbol_sentiment_closed|].
  rewrite expected_result_tweet_count.
  split; [apply len_zero|].
  intros Hq. apply len_zero in Hq.
  destruct (expected_result_zero symbol hours_back Hq) as (a & -> & _).
  repeat split.
Qed.

(** ** The time window fails open *)

(** C7. A message whose timestamp cannot be parsed is kept by the time
    filter, and when it is relevant its weighted sample is among the
    samples that are aggregated. *)
Theorem unparsable_timestamp_retained
    (cutoff_time : datetime) (tweets : list Tweet) (tweet : Tweet) (e : exn)
    (Hin : In tweet tweets)
    (Hparse : fromisoformat (replace_Z (created_at tweet)) = inl e) :
  exists recent_tweets,
    for_loop (time_window_step cutoff_time) tweets [] = inr recent_tweets /\
    In tweet recent_tweets /\
    forall symbol,
      is_crypto_related (text tweet) symbol = true ->
      exists sentiment_scores total,
        for_loop (sample_step symbol) recent_tweets ([], 0%float)
        = inr (sentiment_scores, total) /\
        In (weighted_sample tweet) sentiment_scores.
Proof.
  exists (List.filter (in_window cutoff_time) tweets).
  assert (In tweet (List.filter (in_window cutoff_time) tweets)) as Hrecent.
  { apply filter_In. split; [exact Hin|].
    unfold in_window. rewrite Hparse. reflexivity. }
  split; [apply time_window_loop|].
  split; [exact Hrecent|].
  intros symbol Hrel. eexists _, _.
  split; [apply sample_loop|].
  cbn [app]. apply in_map, filter_In. split; assumption.
Qed.

(** ** No exception reaches the caller *)

Lemma analyze_step_closed (results0 : gmap string Result) (symbol : string) :
  analyze_step results0 symbol
  = inr (<[symbol := expected_result symbol 1]> results0).
Proof.
  unfold analyze_step. rewrite analyze_symbol_sentiment_closed. reflexivity.
Qed.

(** The loop of the batch: every symbol of the list gets the result of its
    own analysis, the other slots are those of the initial map. *)
Lemma analyze_loop_closed (symbols : list string)
    (results0 : gmap string Result) :
  exists results,
    for_loop analyze_step symbols results0 = inr results /\
    forall s,
      (In s symbols -> results !! s = Some (expected_result s 1)) /\
      (~ In s symbols -> results !! s = results0 !! s).
Proof.
  revert results0.
  induction symbols as [|symbol symbols IH]; intros results0;
    cbn [for_loop].
  - exists results0. split; [reflexivity|]. intros s. split; [intros []|auto].
  - rewrite analyze_step_closed. cbn [mbind M_bind bind].
    destruct (IH (<[symbol := expected_result symbol 1]> results0))
      as (results & Hloop & Hres).
    exists results. split; [exact Hloop|].
    intros s. destruct (Hres s) as [Hin Hout].
    destruct (in_dec string_dec s symbols) as [Hs|Hs].
    + split; [intros _; auto|].
      intros Hnot. exfalso. apply Hnot. right. exact Hs.
    + split.
      * intros [->|Hs']; [|contradiction].
        rewrite Hout by exact Hs. apply lookup_insert_eq.
      * intros Hnot. rewrite Hout by exact Hs.
        apply lookup_insert_ne. intros ->. apply Hnot. left. reflexivity.
Qed.

(** The start of the window is computed exactly when the days of the
    timedelta are at most 999999999 in magnitude and the date is one of
    the years 1 to 9999. *)
Lemma window_cutoff_inr (hours_back : Z) (cutoff_time : datetime) :
  window_cutoff hours_back = inr cutoff_time <->
  cutoff_time = now - timedelta_hours hours_back /\
  -999999999 <= hours_back / 24 <= 999999999 /\
  datetime_min <= cutoff_time <= datetime_max.
Proof.
  unfold window_cutoff, timedelta, datetime_sub, raise, ret. cbv zeta.
  destruct (Z.ltb_spec (hours_back / 24) (-2147483648));
    destruct (Z.ltb_spec 2147483647 (hours_back / 24));
    destruct (Z.ltb_spec (hours_back / 24) (-999999999));
    destruct (Z.ltb_spec 999999999 (hours_back / 24));
    cbn [orb mbind M_bind bind];
    try (split; [discriminate|lia]).
  destruct (Z.ltb_spec (now - timedelta_hours hours_back) datetime_min);
    destruct (Z.ltb_spec datetime_max (now - timedelta_hours hours_back));
    cbn [orb]; (split; [try discriminate|try lia]).
  - intros [= <-]. lia.
  - intros (-> & _). reflexivity.
Qed.

(** The start of a window of zero to a million hours is computed: the
    clock reads a date from 1970 on. *)
Lemma window_cutoff_computed (hours_back : Z) :
  0 <= hours_back <= 1000000 ->
  window_cutoff hours_back = inr (now - timedelta_hours hours_back).
Proof.
  intros Hh. unfold window_cutoff, timedelta.
  pose proof now_valid as Hnow.
  apply andb_prop in Hnow as [Hlo Hhi].
  apply Z.leb_le in Hlo. apply Z.leb_le in Hhi.
  assert (0 <= hours_back / 24 <= 1000000) as Hd.
  { split; [apply Z.div_pos; lia|].
    apply Z.div_le_upper_bound; lia. }
  cbv zeta.
  assert ((hours_back / 24 <? -2147483648) = false) as ->
    by (apply Z.ltb_ge; lia).
  assert ((2147483647 <? hours_back / 24) = false) as ->
    by (apply Z.ltb_ge; lia).
  assert ((hours_back / 24 <? -999999999) = false) as ->
    by (apply Z.ltb_ge; lia).
  assert ((999999999 <? hours_back / 24) = false) as ->
    by (apply Z.ltb_ge; lia).
  cbn [orb mbind M_bind bind ret]. unfold datetime_sub. cbv zeta.
  unfold timedelta_hours, datetime_min, datetime_max in *.
  assert ((now - hours_back * 3600000000 <? -62135596800000000) = false)
    as -> by (apply Z.ltb_ge; lia).
  assert ((253402300799999999 <? now - hours_back * 3600000000) = false)
    as -> by (apply Z.ltb_ge; lia).
  reflexivity.
Qed.

(** C9, as the code has it. The analysis of a symbol always returns a
    result. When the body raises, as it does when the fetch fails and
    when the start of the window cannot be computed for a fetch that is
    not empty, the result is the zero-data result annotated with the
    error; when the fetch succeeds, the start of the window is computed
    (as it is for zero to a million hours) or the fetch is empty, and no
    message passes both filters, it is the zero-data result without
    annotation. A timestamp that does not parse and a failure of the
    scorer are absorbed where they happen: the message is kept by the
    time filter, the text gets the neutral scores, and as soon as one
    message qualifies the analysis ends with the full result, whose sample
    count is above zero. The batch always returns too, and the slot of
    each symbol holds the result of the analysis of that symbol alone, so
    a failure for one symbol leaves the others as they are and puts the
    annotated zero-data result in its own slot. *)
Theorem analysis_never_raises (symbol : string) (hours_back : Z)
    (symbols : list string) :
  (exists r,
     analyze_symbol_sentiment symbol hours_back = inr r /\
     (forall e,
        analyze_symbol_sentiment_body symbol hours_back = inl e ->
        r = get_neutral_sentiment_result symbol (Some (exn_str e))) /\
     (forall e,
        fetch_twitter_data symbol 200 = inl e ->
        r = get_neutral_sentiment_result symbol (Some (exn_str e))) /\
     (forall tweets e,
        fetch_twitter_data symbol 200 = inr tweets -> tweets <> [] ->
        window_cutoff hours_back = inl e ->
        analyze_symbol_sentiment_body symbol hours_back = inl e /\
        r = get_neutral_sentiment_result symbol (Some (exn_str e))) /\
     (0 <= hours_back <= 1000000 ->
      window_cutoff hours_back = inr (now - timedelta_hours hours_back)) /\
     (forall tweets,
        fetch_twitter_data symbol 200 = inr tweets ->
        tweets = [] \/ (exists cutoff_time,
                          window_cutoff hours_back = inr cutoff_time) ->
        qualifying symbol hours_back = [] ->
        r = get_neutral_sentiment_result symbol None) /\
     (qualifying symbol hours_back <> [] ->
      r = full_result symbol hours_back /\ 0 < tweet_count r)) /\
  (forall cutoff_time recent_tweets tweet e,
     fromisoformat (replace_Z (created_at tweet)) = inl e ->
     time_window_step cutoff_time recent_tweets tweet
     = inr (recent_tweets ++ [tweet])) /\
  (forall text e,
     polarity_scores (preprocess_tweet text) = inl e ->
     analyze_text_sentiment text
     = inr {| Sentiment.compound := 0.0;
              Sentiment.positive := 0.0;
              Sentiment.negative := 0.0;
              Sentiment.neutral := 1.0;
              Sentiment.processed_text := text |}) /\
  (exists b,
     analyze_multiple_symbols symbols = inr b /\
     symbols_analyzed b = len symbols /\
     forall s,
       (In s symbols ->
        exists r,
          analyze_symbol_sentiment s 1 = inr r /\
          results b !! s = Some r /\
          forall e,
            analyze_symbol_sentiment_body s 1 = inl e ->
            r = get_neutral_sentiment_result s (Some (exn_str e))) /\
       (~ In s symbols -> results b !! s = None)).
Proof.
  assert (forall s h e,
            analyze_symbol_sentiment_body s h = inl e ->
            expected_result s h
            = get_neutral_sentiment_result s (Some (exn_str e))) as Hraise.
  { intros s h e Hbody.
    pose proof (analyze_symbol_sentiment_closed s h) as Hclosed.
    unfold analyze_symbol_sentiment in Hclosed. rewrite Hbody in Hclosed.
    cbn [try_except] in Hclosed. unfold ret in Hclosed.
    injection Hclosed as <-. reflexivity. }
  split; [|split; [|split]].
  - exists (expected_result symbol hours_back).
    split; [apply analyze_symbol_sentiment_closed|].
    split; [apply Hraise|].
    split.
    { intros e He. unfold expected_result. rewrite He. reflexivity. }
    split.
    { intros tweets e Hf Hne Hc.
      assert (analyze_symbol_sentiment_body symbol hours_back = inl e)
        as Hbody.
      { unfold analyze_symbol_sentiment_body. rewrite Hf.
        cbn [mbind M_bind bind].
        destruct tweets as [|tweet tweets]; [congruence|].
        cbn [is_empty]. unfold window_cutoff in Hc.
        destruct (timedelta hours_back) as [e'|delta];
          cbn [mbind M_bind bind] in *; [congruence|].
        rewrite Hc. reflexivity. }
      split; [exact Hbody|apply Hraise, Hbody]. }
    split; [apply window_cutoff_computed|].
    split.
    + intros tweets Hf Hc Hq.
      destruct (expected_result_zero symbol hours_back Hq)
        as (a & -> & _ & _ & Hnone).
      rewrite (Hnone tweets Hf Hc). reflexivity.
    + intros Hq. rewrite (expected_result_full symbol hours_back Hq).
      split; [reflexivity|].
      rewrite <- (expected_result_full symbol hours_back Hq).
      rewrite expected_result_tweet_count.
      destruct (qualifying symbol hours_back); [congruence|].
      unfold len. cbn [length]. lia.
  - intros cutoff_time recent_tweets tweet e Hparse.
    unfold time_window_step. rewrite Hparse. reflexivity.
  - intros text e Hscore.
    unfold analyze_text_sentiment. cbv zeta. rewrite Hscore. reflexivity.
  - destruct (analyze_loop_closed symbols ∅) as (res & Hloop & Hres).
    unfold analyze_multiple_symbols. rewrite Hloop.
    eexists. split; [reflexivity|]. split; [reflexivity|].
    intros s. destruct (Hres s) as [Hin Hout]. cbn [results]. split.
    + intros Hs. exists (expected_result s 1).
      split; [apply analyze_symbol_sentiment_closed|].
      split; [auto|apply Hraise].
    + intros Hs. rewrite Hout by exact Hs. apply lookup_empty.
Qed.

(** ** The weights *)

(** C10. Every engagement weight is 0.8, 1.0, 1.2 or 1.5, each of which
    occurs; none is 0.5 and all are at least 0.8. When the scoring loop
    ends with at least one sample, its total weight is above zero, and
    dividing by it does not raise. *)
Theorem engagement_weight_domain (tweet : Tweet) :
  (calculate_engagement_weight tweet = 0.8%float \/
   calculate_engagement_weight tweet = 1.0%float \/
   calculate_engagement_weight tweet = 1.2%float \/
   calculate_engagement_weight tweet = 1.5%float) /\
  calculate_engagement_weight tweet <> 0.5%float /\
  (0.8 <=? calculate_engagement_weight tweet)%float = true /\
  (calculate_engagement_weight tweet_c = 0.8%float /\
   calculate_engagement_weight tweet_a = 1.0%float /\
   calculate_engagement_weight tweet_b = 1.2%float /\
   calculate_engagement_weight
     {| id := ""; text := ""; created_at := "";
        retweet_count := 20; like_count := 0; reply_count := 0 |}
   = 1.5%float) /\
  (forall symbol recent_tweets sentiment_scores total,
     for_loop (sample_step symbol) recent_tweets ([], 0%float)
     = inr (sentiment_scores, total) ->
     sentiment_scores <> [] ->
     (0 <? total)%float = true /\
     forall x, py_div x total = inr (x / total)%float).
Proof.
  pose proof (calculate_engagement_weight_values tweet) as Hv.
  split; [exact Hv|].
  split.
  { destruct Hv as [-> | [-> | [-> | ->]]]; float_neq. }
  split.
  { destruct Hv as [-> | [-> | [-> | ->]]]; vm_compute; reflexivity. }
  split; [repeat split|].
  intros symbol recent ss total Hloop Hne.
  rewrite sample_loop in Hloop. cbv zeta in Hloop. cbn [app] in Hloop.
  injection Hloop as <- <-.
  set (relevant := List.filter _ recent) in *.
  assert (float_pos (py_sum (map Sample.weight (map weighted_sample relevant)))
          = true) as Hpos.
  { apply weighted_samples_total_pos. intros Hrel. apply Hne.
    rewrite Hrel. reflexivity. }
  split; [apply float_pos_nonzero, Hpos|].
  intros x. apply py_div_pos, Hpos.
Qed.

(** ** The confidence *)

(** C8. For a non-empty list of samples, with [n] their number, the
    confidence is returned and equals
    [round(0.7 * max(0, 1 - 2 * sigma) + 0.3 * min(1, n / 100), 3)], where
    [sigma] is the population standard deviation of the compound values.
    It is between 0 and 1, and it is the float nearest to [k / 1000] for
    an integer [k]: it has three decimals. The power function is assumed
    to return a root that is not negative, as the C library's does. *)
Theorem confidence_in_unit_interval (samples : list Sample.t)
    (Hne : samples <> [])
    (Hroot : forall v, (float_pow v 0.5 <? 0)%float = false) :
  exists c k,
    calculate_confidence samples (len samples) = inr c /\
    c = confidence_formula samples /\
    (0 <=? c)%float = true /\ (c <=? 1)%float = true /\
    0 <= k <= 1000 /\ c = float_of_thousandths k.
Proof.
  pose proof (calculate_confidence_formula samples Hne) as Hformula.
  pose proof (calculate_confidence_closed samples (len samples) Hne) as Hclosed.
  rewrite Hformula in Hclosed.
  assert (confidence_formula samples
          = py_round3
              (py_max0
                 (1 - population_std_dev (map Sample.compound samples) * 2)
               * 0.7
               + py_min1 (float_of_int (len samples) / 100) * 0.3)) as Heq.
  { unfold ret in Hclosed.
    apply (f_equal (fun m : M float => match m with
                                       | inr x => x
                                       | inl _ => 0%float
                                       end)) in Hclosed.
    exact Hclosed. }
  assert (float_below m_one e_one
            (py_max0
               (1 - population_std_dev (map Sample.compound samples) * 2)
             * 0.7
             + py_min1 (float_of_int (len samples) / 100) * 0.3)) as Hunit.
  { apply combination_below.
    - apply py_max0_below. unfold population_std_dev. apply Hroot.
    - apply py_min1_below. unfold len. lia. }
  destruct (py_round3_unit _ Hunit) as (k & Hk & Hround).
  rewrite <- Heq in Hround.
  exists (confidence_formula samples), k.
  split; [exact Hformula|]. split; [reflexivity|].
  destruct (float_of_thousandths_unit k Hk) as [Hlo Hhi].
  rewrite Hround. auto.
Qed.

End AnalyzerProperties.

(** ** The aggregator *)

(** C4, as the code has it. For a non-empty list of samples with strictly
    positive weights the aggregator returns, for each score, the
    binary64 quotient of the sum of the products [value * weight], as
    the built-in [sum] of the interpreter computes it, by the running
    total of the weights: no division by zero is raised. The four scores
    of a result with samples are these quotients over the weighted
    samples, the sum being one of the two summations of CPython. The
    result is the weighted mean only up to rounding: two samples with
    positive score 0.4 and the weights 1.0 and 1.2 aggregate to
    0.39999999999999997 under both summations. *)
Theorem weighted_average_binary64 :
  (forall builtin_sum f samples,
     samples <> [] ->
     Forall (fun s => float_pos (Sample.weight s) = true) samples ->
     weighted_average_with builtin_sum f samples
       (py_sum (map Sample.weight samples))
     = inr (builtin_sum (map (fun s => f s * Sample.weight s) samples)
            / py_sum (map Sample.weight samples))%float) /\
  (forall (env : Collaborators) symbol hours_back,
     let samples := weighted_samples symbol hours_back in
     let total := py_sum (map Sample.weight samples) in
     samples <> [] ->
     exists r builtin_sum,
       analyze_symbol_sentiment symbol hours_back = inr r /\
       (builtin_sum = py_sum \/ builtin_sum = py_sum_compensated) /\
       weighted_average_with builtin_sum Sample.compound samples total
       = inr (Scores.compound (sentiment_scores r)) /\
       weighted_average_with builtin_sum Sample.positive samples total
       = inr (Scores.positive (sentiment_scores r)) /\
       weighted_average_with builtin_sum Sample.negative samples total
       = inr (Scores.negative (sentiment_scores r)) /\
       weighted_average_with builtin_sum Sample.neutral samples total
       = inr (Scores.neutral (sentiment_scores r))) /\
  (forall builtin_sum,
     builtin_sum = py_sum \/ builtin_sum = py_sum_compensated ->
     weighted_average_with builtin_sum Sample.positive equal_samples
       (0 + 1.0 + 1.2)
     = inr 0.39999999999999997%float).
Proof.
  split; [|split].
  - intros builtin_sum f samples Hne Hw. unfold weighted_average_with.
    apply py_div_pos, float_pos_sum.
    + destruct samples; [congruence|discriminate].
    + apply Forall_map. exact Hw.
  - intros env symbol hours_back samples total Hne.
    assert (qualifying symbol hours_back <> []) as Hq.
    { intros Hq. apply Hne. subst samples. unfold weighted_samples.
      rewrite Hq. reflexivity. }
    exists (full_result symbol hours_back), py_sum.
    split.
    { rewrite analyze_symbol_sentiment_closed, expected_result_full
        by exact Hq. reflexivity. }
    split; [left; reflexivity|].
    assert (float_pos total = true) as Hpos.
    { subst total samples. unfold weighted_samples.
      apply weighted_samples_total_pos, Hq. }
    unfold weighted_average_with.
    rewrite !(py_div_pos _ total Hpos).
    repeat split.
  - intros builtin_sum [-> | ->]; vm_compute; reflexivity.
Qed.

(** C4 as it is stated fails. In the concrete environment the two
    samples of ["BTC"] have the same positive score 0.4, whose weighted
    mean is 0.4 whatever the weights; with the weights 1.0 and 1.2 that
    [calculate_engagement_weight] gives them the analysis returns
    0.39999999999999997, whether the sum is taken from left to right or
    with the compensated summation of recent interpreters. *)
Lemma equal_scores_not_their_mean :
  @weighted_samples test_env "BTC" 1 = equal_samples /\
  Forall (fun s => Sample.positive s = 0.4%float) equal_samples /\
  map Sample.weight equal_samples
  = map calculate_engagement_weight [tweet_a; tweet_b] /\
  (exists r,
     @analyze_symbol_sentiment test_env "BTC" 1 = inr r /\
     Scores.positive (sentiment_scores r) = 0.39999999999999997%float /\
     Scores.positive (sentiment_scores r) <> 0.4%float) /\
  (py_sum_compensated
     (map (fun s => Sample.positive s * Sample.weight s) equal_samples)
   / (0 + 1.0 + 1.2))%float
  <> 0.4%float.
Proof.
  split; [vm_compute; reflexivity|].
  split; [repeat constructor|].
  split; [vm_compute; reflexivity|].
  split.
  - eexists. split; [vm_compute; reflexivity|].
    split; [reflexivity|]. cbn [sentiment_scores Scores.positive]. float_neq.
  - float_neq.
Qed.

(** The aggregator lines on two samples with compounds 0.2 and 0.6 and
    the weights 1.0 and 3.0, a weight that [calculate_engagement_weight]
    does not give: the quotient is 0.49999999999999994 under both
    summations, not 0.5. *)
Example weighted_average_example_not_half :
  (forall builtin_sum,
     builtin_sum = py_sum \/ builtin_sum = py_sum_compensated ->
     weighted_average_with builtin_sum Sample.compound example_samples
       (0 + 1.0 + 3.0)
     = inr 0.49999999999999994%float) /\
  0.49999999999999994%float <> 0.5%float.
Proof.
  split; [intros builtin_sum [-> | ->]; vm_compute; reflexivity|].
  float_neq.
Qed.

(** ** The theorems at the concrete environment *)

Lemma unparsable_timestamp_retained_witness :
  exists recent_tweets,
    for_loop (@time_window_step test_env 1704108600000000)
             [tweet_a; tweet_b; tweet_c] []
    = inr recent_tweets /\
    In tweet_b recent_tweets /\
    forall symbol,
      is_crypto_related (text tweet_b) symbol = true ->
      exists sentiment_scores total,
        for_loop (@sample_step test_env symbol) recent_tweets ([], 0%float)
        = inr (sentiment_scores, total) /\
        In (@weighted_sample test_env tweet_b) sentiment_scores.
Proof.
  apply (@unparsable_timestamp_retained test_env 1704108600000000
           [tweet_a; tweet_b; tweet_c] tweet_b
           (Other "Invalid isoformat string")).
  - right. left. reflexivity.
  - reflexivity.
Defined.

(** The analysis of ["BTC"] in the concrete environment keeps the two
    relevant tweets, the one with the unparsable timestamp included. Both
    have positive score 0.4; with the weights 1.0 and 1.2 their binary64
    weighted mean is 0.39999999999999997. *)
Example analyze_btc :
  exists r,
    @analyze_symbol_sentiment test_env "BTC" 1 = inr r /\
    tweet_count r = 2 /\
    Scores.positive (sentiment_scores r) = 0.39999999999999997%float /\
    trading_signal r = BUY /\
    confidence r = 0.706%float /\
    error r = None.
Proof. eexists. split; [vm_compute; reflexivity|]. repeat split. Qed.

(** A window of a hundred million hours starts before the year 1: the
    subtraction raises, no message qualifies and the result is the
    zero-data result annotated with the error. The largest window whose
    start is a date is of 17733252 hours here. *)
Example window_out_of_range :
  @window_cutoff test_env 100000000
  = inl (Other "date value out of range") /\
  @window_cutoff test_env (-100000000)
  = inl (Other "date value out of range") /\
  @window_cutoff test_env 24000000000
  = inl (Other "days=1000000000; must have magnitude <= 999999999") /\
  @window_cutoff test_env 17733253
  = inl (Other "date value out of range") /\
  @window_cutoff test_env 17733252 = inr (-62135595000000000) /\
  @window_cutoff test_env 1 = inr 1704108600000000 /\
  @qualifying test_env "BTC" 100000000 = [] /\
  @analyze_symbol_sentiment test_env "BTC" 100000000
  = inr (@get_neutral_sentiment_result test_env "BTC"
           (Some "date value out of range"%string)) /\
  @analyze_symbol_sentiment test_env "btc" 100000000
  = inr (@get_neutral_sentiment_result test_env "btc"
           (Some "date value out of range"%string)).
Proof. repeat split; vm_compute; reflexivity. Qed.

(** The fetch of ["DOWN"] fails; the batch goes on and annotates the slot
    of ["DOWN"]. *)
Example analyze_batch :
  exists b,
    @analyze_multiple_symbols test_env ["DOWN"; "BTC"] = inr b /\
    (error <$> results b !! "DOWN") = Some (Some (Some "connection refused")) /\
    (tweet_count <$> results b !! "DOWN") = Some 0 /\
    (tweet_count <$> results b !! "BTC") = Some 2.
Proof. eexists. split; [vm_compute; reflexivity|]. repeat split. Qed.

(** The classifier maps the score 0 to SELL, while the zero-data result
    carries the score 0 together with NEUTRAL: the zero-data result is
    built without calling the classifier. *)
Example zero_score_signal :
  generate_trading_signal 0 = SELL /\
  forall (env : Collaborators) symbol annotation,
    Scores.adjusted_compound
      (sentiment_scores (get_neutral_sentiment_result symbol annotation))
    = 0%float /\
    trading_signal (get_neutral_sentiment_result symbol annotation) = NEUTRAL.
Proof. split; [vm_compute; reflexivity|]. intros. split; reflexivity. Qed.

(** C9 as it is stated fails: a timestamp that does not parse and a
    failing scorer are failing conditions that do not end in the zero-data
    result. With the only tweet's timestamp unparsable the analysis counts
    one sample and signals BUY; with the scorer failing on every text it
    counts two samples, signals SELL and reports confidence 0.706. *)
Lemma absorbed_failure_not_zero_data :
  (@fromisoformat garbled_env (replace_Z (created_at tweet_b))
   = inl (Other "Invalid isoformat string") /\
   exists r,
     @analyze_symbol_sentiment garbled_env "BTC" 1 = inr r /\
     tweet_count r = 1 /\
     trading_signal r = BUY /\
     forall annotation,
       r <> @get_neutral_sentiment_result garbled_env "BTC" annotation) /\
  (@polarity_scores scorer_down_env (preprocess_tweet (text tweet_a))
   = inl (Other "scorer down") /\
   exists r,
     @analyze_symbol_sentiment scorer_down_env "BTC" 1 = inr r /\
     tweet_count r = 2 /\
     trading_signal r = SELL /\
     confidence r = 0.706%float /\
     forall annotation,
       r <> @get_neutral_sentiment_result scorer_down_env "BTC" annotation).
Proof.
  split.
  - split; [reflexivity|].
    eexists. split; [vm_compute; reflexivity|].
    split; [reflexivity|]. split; [reflexivity|].
    intros annotation H. apply (f_equal tweet_count) in H.
    cbn in H. discriminate H.
  - split; [reflexivity|].
    eexists. split; [vm_compute; reflexivity|].
    split; [reflexivity|]. split; [reflexivity|]. split; [reflexivity|].
    intros annotation H. apply (f_equal tweet_count) in H.
    cbn in H. discriminate H.
Qed.

(** ** Text normalisation *)

Lemma is_space_not_word (c : ascii) : is_space c = true -> is_word c = false.
Proof.
  destruct c as [[] [] [] [] [] [] [] []]; cbv; congruence.
Qed.

Lemma lit_nonspace_at_run (lit l : list ascii) :
  forallb (fun c => negb (is_space c)) lit = true ->
  lit_nonspace_at lit (run l) = lit_nonspace_at lit l.
Proof.
  unfold lit_nonspace_at. revert l.
  induction lit as [|a lit IH]; intros l Hlit; cbn [match_lit].
  - destruct l as [|c l']; cbn [run]; [reflexivity|].
    destruct (is_space c) eqn:Hc; cbn; rewrite ?Hc; reflexivity.
  - cbn [forallb] in Hlit. apply andb_prop in Hlit as [Ha Hlit].
    destruct l as [|c l']; cbn [run]; [reflexivity|].
    destruct (is_space c) eqn:Hc.
    + destruct (Ascii.eqb_spec a c) as [->|_]; [|reflexivity].
      rewrite Hc in Ha. discriminate Ha.
    + cbn [match_lit]. destruct (Ascii.eqb a c); [apply IH, Hlit|reflexivity].
Qed.

Lemma url_at_run (l : list ascii) : url_at (run l) = url_at l.
Proof. unfold url_at. rewrite !lit_nonspace_at_run by reflexivity. reflexivity. Qed.

Lemma lit_nonspace_at_app (lit p k : list ascii) :
  lit_nonspace_at lit p = true -> lit_nonspace_at lit (p ++ k) = true.
Proof.
  unfold lit_nonspace_at. revert p.
  induction lit as [|a lit IH]; intros p; cbn [match_lit].
  - destruct p as [|c p']; [discriminate|]. cbn. auto.
  - destruct p as [|c p']; [discriminate|]. cbn [app].
    destruct (Ascii.eqb a c); [apply IH|discriminate].
Qed.

Lemma url_at_app (p k : list ascii) :
  url_at p = true -> url_at (p ++ k) = true.
Proof.
  unfold url_at. intros H.
  apply orb_prop in H as [H|H]; [apply orb_prop in H as [H|H]|];
    apply lit_nonspace_at_app with (k := k) in H; rewrite H;
    rewrite ?orb_true_r; reflexivity.
Qed.

Lemma url_at_space (c : ascii) (l : list ascii) :
  is_space c = true -> url_at (c :: l) = false.
Proof.
  intros Hc. rewrite <- url_at_run. cbn [run]. rewrite Hc. reflexivity.
Qed.

Lemma url_at_cons_run (c : ascii) (l : list ascii) :
  is_space c = false -> url_at (c :: run l) = url_at (c :: l).
Proof.
  intros Hc. rewrite <- (url_at_run (c :: l)). cbn [run]. rewrite Hc.
  reflexivity.
Qed.

(** *** Removing URLs *)

Lemma run_sub_url (l : list ascii) :
  (exists k, run l = run (sub_url false l) ++ k) /\
  run (sub_url true l) = [].
Proof.
  induction l as [|c l' [[k Hk] Ht]]; cbn [sub_url run].
  - split; [exists []|]; reflexivity.
  - destruct (is_space c) eqn:Hc; cbn [run]; rewrite ?Hc.
    + split; [exists []|]; reflexivity.
    + split; [|exact Ht].
      destruct (url_at (c :: l')).
      * rewrite Ht. eexists. reflexivity.
      * cbn [run]. rewrite Hc, Hk. eexists. reflexivity.
Qed.

Lemma no_url_sub_url (in_match : bool) (l : list ascii) :
  no_url (sub_url in_match l) = true.
Proof.
  revert in_match. induction l as [|c l' IH]; intros m; cbn [sub_url].
  - reflexivity.
  - destruct (is_space c) eqn:Hc.
    + cbn [no_url]. rewrite url_at_space, IH by exact Hc. reflexivity.
    + destruct m; [apply IH|].
      destruct (url_at (c :: l')) eqn:Hu; [apply IH|].
      cbn [no_url]. rewrite IH, andb_true_r.
      destruct (url_at (c :: sub_url false l')) eqn:Hu'; [|reflexivity].
      rewrite <- url_at_cons_run in Hu' by exact Hc.
      destruct (run_sub_url l') as [[k Hk] _].
      apply url_at_app with (k := k) in Hu'. cbn [app] in Hu'.
      rewrite <- Hk, url_at_cons_run in Hu' by exact Hc. congruence.
Qed.

Lemma sub_url_fix (l : list ascii) : no_url l = true -> sub_url false l = l.
Proof.
  induction l as [|c l' IH]; cbn [sub_url no_url]; [reflexivity|].
  intros H. apply andb_prop in H as [Hu Hl].
  apply negb_true_iff in Hu. rewrite Hu, IH by exact Hl.
  destruct (is_space c); reflexivity.
Qed.

(** *** Removing mentions *)

Lemma head_sub_mention (l : list ascii) :
  head_is_word (sub_mention true l) = false /\
  (head_is_word l = false -> head_is_word (sub_mention false l) = false).
Proof.
  induction l as [|c l' [IHt IHf]]; cbn [sub_mention head_is_word].
  - split; reflexivity.
  - destruct (is_word c) eqn:Hw; cbn [andb].
    + split; [exact IHt|discriminate].
    + destruct (Ascii.eqb c "@" && head_is_word l'); cbn [head_is_word];
        rewrite ?Hw; split; auto.
Qed.

Lemma sub_mention_emit (in_match : bool) (c : ascii) (l' : list ascii) :
  in_match && is_word c = false ->
  Ascii.eqb c "@" && head_is_word l' = false ->
  sub_mention in_match (c :: l') = c :: sub_mention false l' /\
  mention_at (c :: sub_mention false l') = false.
Proof.
  intros Hm Hat. cbn [sub_mention mention_at]. rewrite Hm, Hat.
  split; [reflexivity|].
  destruct (Ascii.eqb c "@"); [|reflexivity].
  cbn [andb] in *. apply head_sub_mention, Hat.
Qed.

Lemma no_mention_sub_mention (in_match : bool) (l : list ascii) :
  no_mention (sub_mention in_match l) = true.
Proof.
  revert in_match. induction l as [|c l' IH]; intros m; [reflexivity|].
  destruct (m && is_word c) eqn:Hm.
  { cbn [sub_mention]. rewrite Hm. apply IH. }
  destruct (Ascii.eqb c "@" && head_is_word l') eqn:Hat.
  { cbn [sub_mention]. rewrite Hm, Hat. apply IH. }
  destruct (sub_mention_emit m c l' Hm Hat) as [-> Hno].
  cbn [no_mention]. rewrite Hno, IH. reflexivity.
Qed.

Lemma sub_mention_fix (l : list ascii) :
  no_mention l = true -> sub_mention false l = l.
Proof.
  induction l as [|c l' IH]; cbn [sub_mention no_mention mention_at andb];
    [reflexivity|].
  intros H. apply andb_prop in H as [Hm Hl].
  apply negb_true_iff in Hm. rewrite Hm, IH by exact Hl. reflexivity.
Qed.

(** A literal made of word characters that matches after the mentions are
    removed matched before. *)
Lemma lit_nonspace_at_sub_mention (lit l : list ascii) :
  forallb is_word lit = true ->
  lit_nonspace_at lit (sub_mention false l) = true ->
  lit_nonspace_at lit l = true.
Proof.
  unfold lit_nonspace_at. revert l.
  induction lit as [|a lit IH]; intros l Hlit; cbn [match_lit].
  - destruct l as [|c l']; [discriminate|].
    destruct (is_space c) eqn:Hc; [|reflexivity].
    cbn [sub_mention andb].
    replace (Ascii.eqb c "@") with false; [cbn; rewrite Hc; auto|].
    symmetry. apply Ascii.eqb_neq. intros ->. discriminate Hc.
  - cbn [forallb] in Hlit. apply andb_prop in Hlit as [Ha Hlit].
    destruct l as [|c l']; [discriminate|].
    destruct (Ascii.eqb c "@" && head_is_word l') eqn:Hat.
    + cbn [sub_mention andb]. rewrite Hat.
      pose proof (proj1 (head_sub_mention l')) as Hhead.
      destruct (sub_mention true l') as [|d out]; [discriminate|].
      cbn [head_is_word] in Hhead.
      destruct (Ascii.eqb_spec a d) as [->|_]; [|discriminate].
      congruence.
    + destruct (sub_mention_emit false c l' eq_refl Hat) as [-> _].
      destruct (Ascii.eqb a c); [apply IH, Hlit|discriminate].
Qed.

Lemma url_at_sub_mention (l : list ascii) :
  url_at (sub_mention false l) = true -> url_at l = true.
Proof.
  unfold url_at. intros H.
  apply orb_prop in H as [H|H]; [apply orb_prop in H as [H|H]|];
    apply lit_nonspace_at_sub_mention in H; try reflexivity; rewrite H;
    rewrite ?orb_true_r; reflexivity.
Qed.

Lemma no_url_sub_mention (in_match : bool) (l : list ascii) :
  no_url l = true -> no_url (sub_mention in_match l) = true.
Proof.
  revert in_match. induction l as [|c l' IH]; intros m; [reflexivity|].
  cbn [no_url]. intros H. apply andb_prop in H as [Hu Hl].
  apply negb_true_iff in Hu.
  destruct (m && is_word c) eqn:Hm.
  { cbn [sub_mention]. rewrite Hm. apply IH, Hl. }
  destruct (Ascii.eqb c "@" && head_is_word l') eqn:Hat.
  { cbn [sub_mention]. rewrite Hm, Hat. apply IH, Hl. }
  destruct (sub_mention_emit m c l' Hm Hat) as [-> _].
  cbn [no_url]. rewrite IH, andb_true_r by exact Hl.
  destruct (url_at (c :: sub_mention false l')) eqn:Hu'; [|reflexivity].
  destruct (sub_mention_emit false c l' eq_refl Hat) as [Heq _].
  rewrite <- Heq in Hu'. apply url_at_sub_mention in Hu'. congruence.
Qed.

(** *** Collapsing whitespace *)

Lemma run_sub_spaces (l : list ascii) : run (sub_spaces false l) = run l.
Proof.
  induction l as [|c l' IH]; cbn [sub_spaces run]; [reflexivity|].
  destruct (is_space c) eqn:Hc; cbn [run]; [reflexivity|].
  rewrite Hc, IH. reflexivity.
Qed.

Lemma head_is_word_sub_spaces (l : list ascii) :
  head_is_word (sub_spaces false l) = head_is_word l.
Proof.
  destruct l as [|c l']; cbn [sub_spaces head_is_word]; [reflexivity|].
  destruct (is_space c) eqn:Hc; cbn [head_is_word]; [|reflexivity].
  rewrite (is_space_not_word c Hc). reflexivity.
Qed.

Lemma no_url_sub_spaces (in_match : bool) (l : list ascii) :
  no_url l = true -> no_url (sub_spaces in_match l) = true.
Proof.
  revert in_match. induction l as [|c l' IH]; intros m; [reflexivity|].
  cbn [no_url sub_spaces]. intros H. apply andb_prop in H as [Hu Hl].
  destruct (is_space c) eqn:Hc.
  - destruct m; [apply IH, Hl|].
    cbn [no_url]. rewrite url_at_space, IH by (reflexivity || exact Hl).
    reflexivity.
  - cbn [no_url]. rewrite IH, andb_true_r by exact Hl.
    rewrite <- url_at_cons_run, run_sub_spaces, url_at_cons_run by exact Hc.
    exact Hu.
Qed.

Lemma no_mention_sub_spaces (in_match : bool) (l : list ascii) :
  no_mention l = true -> no_mention (sub_spaces in_match l) = true.
Proof.
  revert in_match. induction l as [|c l' IH]; intros m; [reflexivity|].
  cbn [no_mention sub_spaces]. intros H. apply andb_prop in H as [Hm Hl].
  destruct (is_space c) eqn:Hc.
  - destruct m; [apply IH, Hl|].
    cbn [no_mention mention_at]. rewrite IH by exact Hl. reflexivity.
  - cbn [no_mention mention_at] in *.
    rewrite head_is_word_sub_spaces, Hm, IH by exact Hl. reflexivity.
Qed.

Lemma collapsed_sub_spaces (in_match : bool) (l : list ascii) :
  collapsed in_match (sub_spaces in_match l) = true.
Proof.
  revert in_match. induction l as [|c l' IH]; intros m; cbn [sub_spaces].
  - reflexivity.
  - destruct (is_space c) eqn:Hc.
    + destruct m; [apply IH|]. cbn. apply IH.
    + cbn [collapsed]. rewrite Hc. apply IH.
Qed.

Lemma sub_spaces_fix (after_space : bool) (l : list ascii) :
  collapsed after_space l = true -> sub_spaces after_space l = l.
Proof.
  revert after_space.
  induction l as [|c l' IH]; intros m; cbn [sub_spaces collapsed];
    [reflexivity|].
  destruct (is_space c) eqn:Hc; intros H.
  - apply andb_prop in H as [H Hl]. apply andb_prop in H as [Heq Hm].
    apply Ascii.eqb_eq in Heq. apply negb_true_iff in Hm. subst.
    rewrite IH by exact Hl. reflexivity.
  - rewrite IH by exact H. reflexivity.
Qed.

Lemma collapsed_weaken (l : list ascii) :
  collapsed true l = true -> collapsed false l = true.
Proof.
  destruct l as [|c l']; cbn [collapsed]; [reflexivity|].
  destruct (is_space c); [|auto].
  rewrite andb_false_r. discriminate.
Qed.

(** *** Stripping *)

Lemma no_url_lstrip (l : list ascii) :
  no_url l = true -> no_url (lstrip l) = true.
Proof.
  induction l as [|c l' IH]; [reflexivity|].
  cbn [lstrip]. destruct (is_space c); [|auto].
  cbn [no_url]. intros H. apply andb_prop in H as [_ Hl]. apply IH, Hl.
Qed.

Lemma no_mention_lstrip (l : list ascii) :
  no_mention l = true -> no_mention (lstrip l) = true.
Proof.
  induction l as [|c l' IH]; [reflexivity|].
  cbn [lstrip]. destruct (is_space c); [|auto].
  cbn [no_mention]. intros H. apply andb_prop in H as [_ Hl]. apply IH, Hl.
Qed.

Lemma collapsed_lstrip (after_space : bool) (l : list ascii) :
  collapsed after_space l = true -> collapsed true (lstrip l) = true.
Proof.
  revert after_space. induction l as [|c l' IH]; intros m; [reflexivity|].
  cbn [lstrip collapsed]. destruct (is_space c) eqn:Hc; intros H.
  - apply andb_prop in H as [_ Hl]. apply (IH true), Hl.
  - cbn [collapsed]. rewrite Hc. exact H.
Qed.

Lemma lstrip_fix (l : list ascii) : collapsed true l = true -> lstrip l = l.
Proof.
  destruct l as [|c l']; cbn [collapsed lstrip]; [reflexivity|].
  destruct (is_space c); [|reflexivity].
  rewrite andb_false_r. discriminate.
Qed.

Lemma rstrip_app (l : list ascii) : exists s, l = rstrip l ++ s.
Proof.
  induction l as [|c l' [s Hs]]; cbn [rstrip].
  - exists []. reflexivity.
  - destruct (rstrip l') as [|d r].
    + destruct (is_space c); eexists; cbn [app]; rewrite Hs at 1;
        reflexivity.
    + exists s. cbn [app]. rewrite Hs at 1. reflexivity.
Qed.

Lemma rstrip_idem (l : list ascii) : rstrip (rstrip l) = rstrip l.
Proof.
  induction l as [|c l' IH]; cbn [rstrip]; [reflexivity|].
  destruct (rstrip l') as [|d r] eqn:Hr.
  - destruct (is_space c) eqn:Hc; cbn [rstrip]; rewrite ?Hc; reflexivity.
  - change (rstrip (c :: d :: r))
      with (match rstrip (d :: r) with
            | [] => if is_space c then [] else [c]
            | x => c :: x
            end).
    rewrite IH. reflexivity.
Qed.

Lemma no_url_rstrip (l : list ascii) :
  no_url l = true -> no_url (rstrip l) = true.
Proof.
  induction l as [|c l' IH]; [reflexivity|].
  cbn [no_url rstrip]. intros H. apply andb_prop in H as [Hu Hl].
  specialize (IH Hl). destruct (rstrip_app l') as [s Hs].
  assert (forall r, l' = r ++ s -> url_at (c :: r) = false) as Hcr.
  { intros r Hr. destruct (url_at (c :: r)) eqn:Hu'; [|reflexivity].
    apply url_at_app with (k := s) in Hu'. cbn [app] in Hu'.
    rewrite <- Hr in Hu'. rewrite Hu' in Hu. discriminate Hu. }
  destruct (rstrip l') as [|d r].
  - destruct (is_space c); [reflexivity|].
    cbn [no_url]. rewrite (Hcr [] Hs). reflexivity.
  - cbn [no_url] in *. rewrite (Hcr (d :: r) Hs). exact IH.
Qed.

Lemma no_mention_rstrip (l : list ascii) :
  no_mention l = true -> no_mention (rstrip l) = true.
Proof.
  induction l as [|c l' IH]; [reflexivity|].
  cbn [no_mention rstrip]. intros H. apply andb_prop in H as [Hm Hl].
  specialize (IH Hl). destruct (rstrip_app l') as [s Hs].
  destruct (rstrip l') as [|d r].
  - destruct (is_space c); [reflexivity|].
    cbn. rewrite andb_false_r. reflexivity.
  - cbn [no_mention] in *. rewrite IH, andb_true_r.
    rewrite Hs in Hm. exact Hm.
Qed.

Lemma collapsed_rstrip (after_space : bool) (l : list ascii) :
  collapsed after_space l = true -> collapsed after_space (rstrip l) = true.
Proof.
  revert after_space. induction l as [|c l' IH]; intros m; [reflexivity|].
  cbn [collapsed rstrip]. destruct (is_space c) eqn:Hc; intros H.
  - apply andb_prop in H as [H Hl]. specialize (IH true Hl).
    destruct (rstrip l') as [|d r]; [reflexivity|].
    cbn [collapsed] in *. rewrite Hc, H, IH. reflexivity.
  - specialize (IH false H).
    destruct (rstrip l') as [|d r]; cbn [collapsed] in *; rewrite Hc;
      [reflexivity|exact IH].
Qed.

(** *** Lowercasing *)

Lemma lower_fix (l : list ascii) : no_upper l = true -> lower l = l.
Proof.
  unfold lower, no_upper.
  induction l as [|c l' IH]; cbn [map forallb]; [reflexivity|].
  intros H. apply andb_prop in H as [Hc Hl]. apply negb_true_iff in Hc.
  unfold to_lower at 1. rewrite Hc, IH by exact Hl. reflexivity.
Qed.

Lemma no_upper_sub_url (in_match : bool) (l : list ascii) :
  no_upper l = true -> no_upper (sub_url in_match l) = true.
Proof.
  unfold no_upper. revert in_match.
  induction l as [|c l' IH]; intros m; [reflexivity|].
  cbn [forallb sub_url]. intros H. apply andb_prop in H as [Hc Hl].
  destruct (is_space c); [|destruct m; [|destruct (url_at (c :: l'))]];
    cbn [forallb]; rewrite ?Hc; cbn [andb]; apply IH, Hl.
Qed.

Lemma no_upper_sub_mention (in_match : bool) (l : list ascii) :
  no_upper l = true -> no_upper (sub_mention in_match l) = true.
Proof.
  unfold no_upper. revert in_match.
  induction l as [|c l' IH]; intros m; [reflexivity|].
  cbn [forallb sub_mention]. intros H. apply andb_prop in H as [Hc Hl].
  destruct (m && is_word c); [|destruct (Ascii.eqb c "@" && head_is_word l')];
    cbn [forallb]; rewrite ?Hc; cbn [andb]; apply IH, Hl.
Qed.

Lemma no_upper_sub_spaces (in_match : bool) (l : list ascii) :
  no_upper l = true -> no_upper (sub_spaces in_match l) = true.
Proof.
  unfold no_upper. revert in_match.
  induction l as [|c l' IH]; intros m; [reflexivity|].
  cbn [forallb sub_spaces]. intros H. apply andb_prop in H as [Hc Hl].
  destruct (is_space c); [destruct m|]; cbn [forallb]; rewrite ?Hc;
    cbn [andb negb is_upper]; apply IH, Hl.
Qed.

Lemma no_upper_lstrip (l : list ascii) :
  no_upper l = true -> no_upper (lstrip l) = true.
Proof.
  unfold no_upper. induction l as [|c l' IH]; [reflexivity|].
  cbn [lstrip]. destruct (is_space c); [|auto].
  cbn [forallb]. intros H. apply andb_prop in H as [_ Hl]. auto.
Qed.

Lemma no_upper_rstrip (l : list ascii) :
  no_upper l = true -> no_upper (rstrip l) = true.
Proof.
  unfold no_upper. intros H. destruct (rstrip_app l) as [s Hs].
  rewrite Hs, forallb_app in H. apply andb_prop in H as [H _]. exact H.
Qed.

(** *** Preprocessing twice *)

(** What the stages before the lowercasing establish. *)
Lemma preprocess_stages (l : list ascii) :
  let z := strip (sub_spaces false (sub_mention false (sub_url false l))) in
  no_url z = true /\ no_mention z = true /\ collapsed true z = true /\
  rstrip z = z /\ (no_upper l = true -> no_upper z = true).
Proof.
  cbv zeta. unfold strip. repeat split.
  - apply no_url_rstrip, no_url_lstrip, no_url_sub_spaces, no_url_sub_mention,
      no_url_sub_url.
  - apply no_mention_rstrip, no_mention_lstrip, no_mention_sub_spaces,
      no_mention_sub_mention.
  - apply collapsed_rstrip, (collapsed_lstrip false), collapsed_sub_spaces.
  - apply rstrip_idem.
  - intros H.
    apply no_upper_rstrip, no_upper_lstrip, no_upper_sub_spaces,
      no_upper_sub_mention, no_upper_sub_url, H.
Qed.

(** A text on which every stage has nothing to do is left as it is. *)
Lemma preprocess_fix (z : list ascii) :
  no_url z = true -> no_mention z = true -> collapsed true z = true ->
  rstrip z = z -> no_upper z = true -> preprocess z = z.
Proof.
  intros Hu Hm Hc Hr Hup. unfold preprocess, strip.
  rewrite sub_url_fix, sub_mention_fix by assumption.
  rewrite sub_spaces_fix by (apply collapsed_weaken, Hc).
  rewrite lstrip_fix, Hr by exact Hc.
  apply lower_fix, Hup.
Qed.

Lemma preprocess_idempotent (l : list ascii) :
  no_upper l = true -> preprocess (preprocess l) = preprocess l.
Proof.
  intros Hup.
  destruct (preprocess_stages l) as (Hu & Hm & Hc & Hr & Hz).
  cbv zeta in *. specialize (Hz Hup).
  unfold preprocess at 2 3. rewrite lower_fix by exact Hz.
  apply preprocess_fix; assumption.
Qed.

(** Preprocessing a text that has no uppercase letter gives a text that
    preprocessing leaves unchanged. *)
Theorem preprocess_tweet_idempotent (x : string)
    (Hx : no_upper (list_ascii_of_string x) = true) :
  preprocess_tweet (preprocess_tweet x) = preprocess_tweet x.
Proof.
  unfold preprocess_tweet.
  rewrite list_ascii_of_string_of_list_ascii.
  f_equal. apply preprocess_idempotent, Hx.
Qed.

Lemma preprocess_tweet_idempotent_witness :
  preprocess_tweet
    (preprocess_tweet "buy  $btc now https://t.co/x1 @whale www.moon.io ")
  = preprocess_tweet "buy  $btc now https://t.co/x1 @whale www.moon.io ".
Proof.
  apply (preprocess_tweet_idempotent
           "buy  $btc now https://t.co/x1 @whale www.moon.io ").
  vm_compute. reflexivity.
Defined.

(** C6. Preprocessing is not idempotent on every text: the pattern that
    removes URLs matches lowercase letters only and the text is lowercased
    last, so a URL written in uppercase is not removed by the first pass,
    which lowercases it, and is removed by the second. *)
Lemma preprocess_tweet_not_idempotent :
  preprocess_tweet "HTTP://X.COM" = "http://x.com"%string /\
  preprocess_tweet (preprocess_tweet "HTTP://X.COM") = ""%string /\
  preprocess_tweet (preprocess_tweet "HTTP://X.COM")
  <> preprocess_tweet "HTTP://X.COM".
Proof.
  split; [vm_compute; reflexivity|].
  split; [vm_compute; reflexivity|].
  vm_compute. discriminate.
Qed.

(** The stages on a sample text. *)
Example preprocess_tweet_sample :
  preprocess_tweet
    "Check   HTTP://X.COM  https://t.co/abc @bob hello www.x.y @@al!ce  World "
  = "check http://x.com hello @!ce world"%string.
Proof. vm_compute. reflexivity. Qed.

Lemma confidence_in_unit_interval_witness :
  exists c k,
    @calculate_confidence test_env example_samples (len example_samples)
    = inr c /\
    c = @confidence_formula test_env example_samples /\
    (0 <=? c)%float = true /\ (c <=? 1)%float = true /\
    0 <= k <= 1000 /\ c = float_of_thousandths k.
Proof.
  apply (@confidence_in_unit_interval test_env example_samples).
  - discriminate.
  - intros v. apply sqrt_not_negative.
Defined.

(** The confidence of the two samples of the aggregation example: the
    deviation is 0.2, the consistency 0.6, the volume 0.02. *)
Example confidence_example :
  @calculate_confidence test_env example_samples 2 = inr 0.426%float.
Proof. vm_compute. reflexivity. Qed.

(** * Further properties *)

(** ** Keyword matching: [is_crypto_related] *)

Lemma match_lit_spec (lit l r : list ascii) :
  match_lit lit l = Some r <-> l = lit ++ r.
Proof.
  revert l. induction lit as [|a lit IH]; intros l; cbn.
  - split; congruence.
  - destruct l as [|c l]; [split; discriminate|].
    destruct (Ascii.eqb_spec a c) as [->|Hne].
    + rewrite IH. split; [intros ->; reflexivity|congruence].
    + split; [discriminate|]. intros H. injection H as H _. congruence.
Qed.

(** [needle in hay] holds exactly when [hay] has [needle] as a run of
    consecutive characters. *)
Lemma is_substring_spec (needle hay : list ascii) :
  is_substring needle hay = true <->
  exists pre post, hay = pre ++ needle ++ post.
Proof.
  induction hay as [|c hay IH]; cbn.
  - destruct (match_lit needle []) as [r|] eqn:Hm.
    + apply match_lit_spec in Hm. split; [|reflexivity].
      intros _. exists [], r. exact Hm.
    + split; [discriminate|]. intros (pre & post & H).
      destruct pre; [|discriminate].
      assert (match_lit needle [] = Some post) as Hs
        by (apply match_lit_spec; exact H).
      congruence.
  - destruct (match_lit needle (c :: hay)) as [r|] eqn:Hm.
    + apply match_lit_spec in Hm. split; [|reflexivity].
      intros _. exists [], r. exact Hm.
    + rewrite IH. split.
      * intros (pre & post & ->). exists (c :: pre), post. reflexivity.
      * intros (pre & post & H). destruct pre as [|c' pre].
        -- assert (match_lit needle (c :: hay) = Some post) as Hs
             by (apply match_lit_spec; exact H).
           congruence.
        -- injection H as _ ->. eauto.
Qed.

Lemma is_substring_trans (a b hay : list ascii) :
  is_substring a b = true -> is_substring b hay = true ->
  is_substring a hay = true.
Proof.
  rewrite !is_substring_spec.
  intros (p1 & q1 & ->) (p2 & q2 & ->).
  exists (p2 ++ p1), (q1 ++ q2). rewrite <- !app_assoc. reflexivity.
Qed.

Lemma is_substring_context (needle pre hay post : list ascii) :
  is_substring needle hay = true ->
  is_substring needle (pre ++ hay ++ post) = true.
Proof.
  rewrite !is_substring_spec.
  intros (p & q & ->). exists (pre ++ p), (q ++ post).
  rewrite <- !app_assoc. reflexivity.
Qed.

Lemma list_ascii_of_string_app (a b : string) :
  list_ascii_of_string (a +:+ b)
  = list_ascii_of_string a ++ list_ascii_of_string b.
Proof.
  induction a as [|c a IH]; [reflexivity|].
  change (c :: list_ascii_of_string (a +:+ b)
          = c :: (list_ascii_of_string a ++ list_ascii_of_string b)).
  f_equal. exact IH.
Qed.

Lemma lower_app (a b : list ascii) : lower (a ++ b) = lower a ++ lower b.
Proof. apply map_app. Qed.

Lemma to_lower_idem (c : ascii) : to_lower (to_lower c) = to_lower c.
Proof.
  destruct c as [[] [] [] [] [] [] [] []]; vm_compute; reflexivity.
Qed.

Lemma lower_idem (l : list ascii) : lower (lower l) = lower l.
Proof.
  unfold lower. rewrite map_map. apply map_ext. intros c. apply to_lower_idem.
Qed.

Lemma existsb_mono {A} (f g : A -> bool) (l : list A) :
  (forall x, f x = true -> g x = true) ->
  existsb f l = true -> existsb g l = true.
Proof.
  intros H. rewrite !existsb_exists. intros (x & Hin & Hx). eauto.
Qed.

(** A symbol that is not a key of [crypto_symbols] has no keyword. *)
Lemma is_crypto_related_unknown (text symbol : string) :
  symbol <> "BTC"%string -> symbol <> "ETH"%string ->
  symbol <> "USDC"%string -> symbol <> "USDT"%string ->
  is_crypto_related text symbol = false.
Proof.
  intros Hbtc Heth Husdc Husdt.
  unfold is_crypto_related, crypto_symbols. cbn [list_to_map foldr uncurry].
  rewrite !lookup_insert_ne by (intros E; symmetry in E; contradiction).
  rewrite lookup_empty. reflexivity.
Qed.

Lemma contains_longer (short long : string) (text_lower : list ascii) :
  contains short (list_ascii_of_string long) = true ->
  contains long text_lower = true -> contains short text_lower = true.
Proof. apply is_substring_trans. Qed.

Lemma crypto_symbols_lookup :
  crypto_symbols !! "BTC"%string
  = Some ["bitcoin"; "btc"; "$btc"; "#bitcoin"; "#btc"]%string /\
  crypto_symbols !! "ETH"%string
  = Some ["ethereum"; "eth"; "$eth"; "#ethereum"; "#eth"]%string /\
  crypto_symbols !! "USDC"%string
  = Some ["usdc"; "$usdc"; "#usdc"; "usd coin"]%string /\
  crypto_symbols !! "USDT"%string
  = Some ["usdt"; "$usdt"; "#usdt"; "tether"]%string.
Proof. repeat split; vm_compute; reflexivity. Qed.

(** The keyword test of each symbol, as a disjunction. *)
Lemma is_crypto_related_unfold (text : string) :
  let t := lower (list_ascii_of_string text) in
  is_crypto_related text "BTC"
  = contains "bitcoin" t || (contains "btc" t || (contains "$btc" t
      || (contains "#bitcoin" t || contains "#btc" t))) /\
  is_crypto_related text "ETH"
  = contains "ethereum" t || (contains "eth" t || (contains "$eth" t
      || (contains "#ethereum" t || contains "#eth" t))) /\
  is_crypto_related text "USDC"
  = contains "usdc" t || (contains "$usdc" t || (contains "#usdc" t
      || contains "usd coin" t)) /\
  is_crypto_related text "USDT"
  = contains "usdt" t || (contains "$usdt" t || (contains "#usdt" t
      || contains "tether" t)).
Proof.
  destruct crypto_symbols_lookup as (Hbtc & Heth & Husdc & Husdt).
  intros t. unfold is_crypto_related. fold t.
  rewrite Hbtc, Heth, Husdc, Husdt. unfold default.
  cbn [from_option Datatypes.id existsb]. rewrite !orb_false_r.
  repeat split.
Qed.

(** X2. For each of the four symbols the keyword test is decided by one
    or two keywords, the others contain one of these: BTC by "bitcoin" or
    "btc", ETH by "eth" alone, USDC by "usdc" or "usd coin", USDT by
    "usdt" or "tether"; the test is made on the lowercased raw text. *)
Theorem is_crypto_related_keywords (text : string) :
  let text_lower := lower (list_ascii_of_string text) in
  is_crypto_related text "BTC"
  = contains "bitcoin" text_lower || contains "btc" text_lower /\
  is_crypto_related text "ETH" = contains "eth" text_lower /\
  is_crypto_related text "USDC"
  = contains "usdc" text_lower || contains "usd coin" text_lower /\
  is_crypto_related text "USDT"
  = contains "usdt" text_lower || contains "tether" text_lower.
Proof.
  intros t.
  destruct (is_crypto_related_unfold text) as (-> & -> & -> & ->). fold t.
  assert (contains "$btc" t = true -> contains "btc" t = true) as H1
    by (apply contains_longer; vm_compute; reflexivity).
  assert (contains "#btc" t = true -> contains "btc" t = true) as H2
    by (apply contains_longer; vm_compute; reflexivity).
  assert (contains "#bitcoin" t = true -> contains "bitcoin" t = true) as H3
    by (apply contains_longer; vm_compute; reflexivity).
  assert (contains "ethereum" t = true -> contains "eth" t = true) as H4
    by (apply contains_longer; vm_compute; reflexivity).
  assert (contains "$eth" t = true -> contains "eth" t = true) as H5
    by (apply contains_longer; vm_compute; reflexivity).
  assert (contains "#ethereum" t = true -> contains "eth" t = true) as H6
    by (apply contains_longer; vm_compute; reflexivity).
  assert (contains "#eth" t = true -> contains "eth" t = true) as H7
    by (apply contains_longer; vm_compute; reflexivity).
  assert (contains "$usdc" t = true -> contains "usdc" t = true) as H8
    by (apply contains_longer; vm_compute; reflexivity).
  assert (contains "#usdc" t = true -> contains "usdc" t = true) as H9
    by (apply contains_longer; vm_compute; reflexivity).
  assert (contains "$usdt" t = true -> contains "usdt" t = true) as H10
    by (apply contains_longer; vm_compute; reflexivity).
  assert (contains "#usdt" t = true -> contains "usdt" t = true) as H11
    by (apply contains_longer; vm_compute; reflexivity).
  repeat split.
  - destruct (contains "bitcoin" t), (contains "btc" t), (contains "$btc" t),
      (contains "#bitcoin" t), (contains "#btc" t); try reflexivity;
      try (discriminate (H1 eq_refl)); try (discriminate (H2 eq_refl));
      discriminate (H3 eq_refl).
  - destruct (contains "ethereum" t), (contains "eth" t), (contains "$eth" t),
      (contains "#ethereum" t), (contains "#eth" t); try reflexivity;
      try (discriminate (H4 eq_refl)); try (discriminate (H5 eq_refl));
      try (discriminate (H6 eq_refl)); discriminate (H7 eq_refl).
  - destruct (contains "usdc" t), (contains "$usdc" t), (contains "#usdc" t),
      (contains "usd coin" t); try reflexivity;
      try (discriminate (H8 eq_refl)); discriminate (H9 eq_refl).
  - destruct (contains "usdt" t), (contains "$usdt" t), (contains "#usdt" t),
      (contains "tether" t); try reflexivity;
      try (discriminate (H10 eq_refl)); discriminate (H11 eq_refl).
Qed.

(** X3. A text that mentions "tether", in any case, is related to USDT
    and also to ETH: "tether" contains the keyword "eth". *)
Theorem tether_is_eth_related (text : string)
    (Htether : contains "tether" (lower (list_ascii_of_string text)) = true) :
  is_crypto_related text "USDT" = true /\ is_crypto_related text "ETH" = true.
Proof.
  destruct (is_crypto_related_unfold text) as (_ & Heth & _ & Husdt).
  cbv zeta in *. rewrite Heth, Husdt, Htether.
  split; [rewrite !orb_true_r; reflexivity|].
  assert (contains "eth" (lower (list_ascii_of_string text)) = true) as ->.
  { apply (contains_longer "eth" "tether"); [vm_compute; reflexivity|].
    exact Htether. }
  rewrite orb_true_r. reflexivity.
Qed.

Lemma tether_is_eth_related_witness :
  is_crypto_related "Tether prints again" "USDT" = true /\
  is_crypto_related "Tether prints again" "ETH" = true.
Proof.
  apply (tether_is_eth_related "Tether prints again").
  vm_compute. reflexivity.
Defined.

(** X4. A related text stays related inside any longer text, and
    lowercasing a text does not change whether it is related: a keyword
    counts wherever it stands, inside a word, a URL or a mention, in any
    case. *)
Theorem is_crypto_related_context (text symbol : string) :
  (forall pre post,
     is_crypto_related text symbol = true ->
     is_crypto_related (pre +:+ text +:+ post) symbol = true) /\
  is_crypto_related (str_lower text) symbol = is_crypto_related text symbol.
Proof.
  unfold is_crypto_related, str_lower. split.
  - intros pre post. apply existsb_mono. intros k Hk.
    rewrite !list_ascii_of_string_app, !lower_app.
    apply is_substring_context, Hk.
  - rewrite list_ascii_of_string_of_list_ascii, lower_idem. reflexivity.
Qed.

(** A keyword inside a URL, or in uppercase inside a mention, counts. *)
Example is_crypto_related_cases :
  is_crypto_related "see https://x.io/btc-chart" "BTC" = true /\
  is_crypto_related "thanks @BITCOIN_fan" "BTC" = true /\
  is_crypto_related "we are in this together" "ETH" = true /\
  is_crypto_related "BTC" "btc" = false.
Proof. repeat split; vm_compute; reflexivity. Qed.

(** ** The shape of preprocessed text: [preprocess_tweet] *)

Lemma to_lower_classes (c : ascii) :
  is_space (to_lower c) = is_space c /\
  is_word (to_lower c) = is_word c /\
  Ascii.eqb (to_lower c) "@" = Ascii.eqb c "@" /\
  Ascii.eqb (to_lower c) " " = Ascii.eqb c " " /\
  is_upper (to_lower c) = false.
Proof.
  destruct c as [[] [] [] [] [] [] [] []]; vm_compute; repeat split.
Qed.

Lemma no_upper_lower (l : list ascii) : no_upper (lower l) = true.
Proof.
  unfold no_upper, lower. induction l as [|c l IH]; [reflexivity|].
  cbn [map forallb]. destruct (to_lower_classes c) as (_ & _ & _ & _ & ->).
  exact IH.
Qed.

Lemma head_is_word_lower (l : list ascii) :
  head_is_word (lower l) = head_is_word l.
Proof. destruct l as [|c l]; [reflexivity|]. apply to_lower_classes. Qed.

Lemma no_mention_lower (l : list ascii) : no_mention (lower l) = no_mention l.
Proof.
  induction l as [|c l IH]; [reflexivity|].
  change (lower (c :: l)) with (to_lower c :: lower l).
  cbn [no_mention mention_at]. rewrite IH, head_is_word_lower.
  destruct (to_lower_classes c) as (_ & _ & -> & _). reflexivity.
Qed.

Lemma collapsed_lower (after_space : bool) (l : list ascii) :
  collapsed after_space (lower l) = collapsed after_space l.
Proof.
  revert after_space. induction l as [|c l IH]; intros b; [reflexivity|].
  change (lower (c :: l)) with (to_lower c :: lower l).
  cbn [collapsed]. rewrite !IH.
  destruct (to_lower_classes c) as (-> & _ & _ & -> & _). reflexivity.
Qed.

Lemma rstrip_lower (l : list ascii) : rstrip (lower l) = lower (rstrip l).
Proof.
  induction l as [|c l IH]; [reflexivity|].
  change (lower (c :: l)) with (to_lower c :: lower l).
  cbn [rstrip]. rewrite IH.
  destruct (to_lower_classes c) as (Hs & _).
  destruct (rstrip l) as [|d r]; cbn [lower map].
  - rewrite Hs. destruct (is_space c); reflexivity.
  - reflexivity.
Qed.

(** In a collapsed text every whitespace character is a blank. *)
Lemma collapsed_blank (after_space : bool) (l : list ascii) (c : ascii) :
  collapsed after_space l = true -> In c l -> is_space c = true ->
  c = " "%char.
Proof.
  revert after_space. induction l as [|d l IH]; intros b; [intros _ []|].
  cbn [collapsed]. destruct (is_space d) eqn:Hd; intros H [->|Hin] Hc.
  - apply andb_prop in H as [H _]. apply andb_prop in H as [H _].
    apply Ascii.eqb_eq in H. exact H.
  - apply andb_prop in H as [_ H]. apply (IH true); assumption.
  - congruence.
  - apply (IH false); assumption.
Qed.

Lemma length_sub_url (in_match : bool) (l : list ascii) :
  (length (sub_url in_match l) <= length l)%nat.
Proof.
  revert in_match. induction l as [|c l IH]; intros b; [reflexivity|].
  cbn [sub_url]. pose proof (IH true). pose proof (IH false).
  destruct (is_space c); [cbn [length]; lia|].
  destruct b; [cbn [length]; lia|].
  destruct (url_at (c :: l)); cbn [length]; lia.
Qed.

Lemma length_sub_mention (in_match : bool) (l : list ascii) :
  (length (sub_mention in_match l) <= length l)%nat.
Proof.
  revert in_match. induction l as [|c l IH]; intros b; [reflexivity|].
  cbn [sub_mention]. pose proof (IH true). pose proof (IH false).
  destruct (b && is_word c); [cbn [length]; lia|].
  destruct (Ascii.eqb c "@" && head_is_word l); cbn [length]; lia.
Qed.

Lemma length_sub_spaces (in_match : bool) (l : list ascii) :
  (length (sub_spaces in_match l) <= length l)%nat.
Proof.
  revert in_match. induction l as [|c l IH]; intros b; [reflexivity|].
  cbn [sub_spaces]. pose proof (IH true). pose proof (IH false).
  destruct (is_space c); [destruct b|]; cbn [length]; lia.
Qed.

Lemma length_lstrip (l : list ascii) : (length (lstrip l) <= length l)%nat.
Proof.
  induction l as [|c l IH]; [reflexivity|].
  cbn [lstrip]. destruct (is_space c); cbn [length]; lia.
Qed.

Lemma length_rstrip (l : list ascii) : (length (rstrip l) <= length l)%nat.
Proof.
  destruct (rstrip_app l) as [s Hs]. rewrite Hs at 2.
  rewrite length_app. lia.
Qed.

Lemma length_preprocess (l : list ascii) :
  (length (preprocess l) <= length l)%nat.
Proof.
  unfold preprocess, strip, lower. rewrite length_map.
  pose proof (length_rstrip (lstrip (sub_spaces false
                (sub_mention false (sub_url false l))))).
  pose proof (length_lstrip (sub_spaces false
                (sub_mention false (sub_url false l)))).
  pose proof (length_sub_spaces false (sub_mention false (sub_url false l))).
  pose proof (length_sub_mention false (sub_url false l)).
  pose proof (length_sub_url false l).
  lia.
Qed.

(** Preprocessing keeps a text ASCII. *)
Lemma isascii_sub_url (in_match : bool) (l : list ascii) :
  isascii l = true -> isascii (sub_url in_match l) = true.
Proof.
  unfold isascii. revert in_match.
  induction l as [|c l IH]; intros b; [reflexivity|].
  cbn [forallb sub_url]. intros H. apply andb_prop in H as [Hc Hl].
  destruct (is_space c); [cbn [forallb]; rewrite Hc; apply IH, Hl|].
  destruct b; [apply IH, Hl|].
  destruct (url_at (c :: l)); [apply IH, Hl|].
  cbn [forallb]. rewrite Hc. apply IH, Hl.
Qed.

Lemma isascii_sub_mention (in_match : bool) (l : list ascii) :
  isascii l = true -> isascii (sub_mention in_match l) = true.
Proof.
  unfold isascii. revert in_match.
  induction l as [|c l IH]; intros b; [reflexivity|].
  cbn [forallb sub_mention]. intros H. apply andb_prop in H as [Hc Hl].
  destruct (b && is_word c); [apply IH, Hl|].
  destruct (Ascii.eqb c "@" && head_is_word l); [apply IH, Hl|].
  cbn [forallb]. rewrite Hc. apply IH, Hl.
Qed.

Lemma isascii_sub_spaces (in_match : bool) (l : list ascii) :
  isascii l = true -> isascii (sub_spaces in_match l) = true.
Proof.
  unfold isascii. revert in_match.
  induction l as [|c l IH]; intros b; [reflexivity|].
  cbn [forallb sub_spaces]. intros H. apply andb_prop in H as [Hc Hl].
  destruct (is_space c).
  - destruct b; [apply IH, Hl|]. cbn [forallb]. rewrite IH by exact Hl.
    reflexivity.
  - cbn [forallb]. rewrite Hc. apply IH, Hl.
Qed.

Lemma isascii_lstrip (l : list ascii) :
  isascii l = true -> isascii (lstrip l) = true.
Proof.
  unfold isascii. induction l as [|c l IH]; [reflexivity|].
  cbn [lstrip]. destruct (is_space c); [|auto].
  cbn [forallb]. intros H. apply andb_prop in H as [_ Hl]. apply IH, Hl.
Qed.

Lemma isascii_rstrip (l : list ascii) :
  isascii l = true -> isascii (rstrip l) = true.
Proof.
  unfold isascii. intros H. destruct (rstrip_app l) as [t Ht].
  rewrite Ht in H. rewrite forallb_app in H.
  apply andb_prop in H as [H _]. exact H.
Qed.

Lemma isascii_lower (l : list ascii) :
  isascii l = true -> isascii (lower l) = true.
Proof.
  unfold isascii, lower. induction l as [|c l IH]; [reflexivity|].
  cbn [forallb map]. intros H. apply andb_prop in H as [Hc Hl].
  rewrite IH by exact Hl. rewrite andb_true_r.
  revert Hc. destruct c as [[] [] [] [] [] [] [] []]; vm_compute; congruence.
Qed.

Lemma isascii_preprocess (l : list ascii) :
  isascii l = true -> isascii (preprocess l) = true.
Proof.
  intros H. unfold preprocess, strip.
  apply isascii_lower, isascii_rstrip, isascii_lstrip, isascii_sub_spaces,
    isascii_sub_mention, isascii_sub_url, H.
Qed.

(** What holds of every preprocessed text. *)
Lemma preprocess_shape (l : list ascii) :
  let out := preprocess l in
  no_upper out = true /\ no_mention out = true /\
  collapsed true out = true /\ rstrip out = out /\
  (no_upper l = true -> no_url out = true).
Proof.
  destruct (preprocess_stages l) as (Hu & Hm & Hc & Hr & Hz).
  cbv zeta in *. unfold preprocess.
  set (z := strip _) in *.
  split; [apply no_upper_lower|].
  split; [rewrite no_mention_lower; exact Hm|].
  split; [rewrite collapsed_lower; exact Hc|].
  split; [rewrite rstrip_lower, Hr; reflexivity|].
  intros Hup. rewrite lower_fix by (apply Hz, Hup). exact Hu.
Qed.

(** X5. For every ASCII text, the preprocessed text has no uppercase
    letter and no mention, its only whitespace is single blanks between
    other characters (none at either end), it is ASCII and it is not
    longer than the text; when the text has no uppercase letter it has no
    URL either. *)
Theorem preprocess_tweet_output (text : string)
    (Hascii : isascii (list_ascii_of_string text) = true) :
  let out := list_ascii_of_string (preprocess_tweet text) in
  no_upper out = true /\
  no_mention out = true /\
  collapsed true out = true /\
  strip out = out /\
  (forall c, In c out -> is_space c = true -> c = " "%char) /\
  isascii out = true /\
  (length out <= length (list_ascii_of_string text))%nat /\
  (no_upper (list_ascii_of_string text) = true -> no_url out = true).
Proof.
  cbv zeta. unfold preprocess_tweet.
  rewrite list_ascii_of_string_of_list_ascii.
  destruct (preprocess_shape (list_ascii_of_string text))
    as (Hup & Hm & Hc & Hr & Hu).
  cbv zeta in *.
  split; [exact Hup|]. split; [exact Hm|]. split; [exact Hc|].
  split; [unfold strip; rewrite lstrip_fix by exact Hc; exact Hr|].
  split; [intros c; apply (collapsed_blank true), Hc|].
  split; [apply isascii_preprocess, Hascii|].
  split; [apply length_preprocess|exact Hu].
Qed.

Lemma preprocess_tweet_output_witness :
  let text := "Check  @bob www.x.io BTC "%string in
  let out := list_ascii_of_string (preprocess_tweet text) in
  preprocess_tweet text = "check btc"%string /\
  no_upper out = true /\
  no_mention out = true /\
  collapsed true out = true /\
  strip out = out /\
  (forall c, In c out -> is_space c = true -> c = " "%char) /\
  isascii out = true /\
  (length out <= length (list_ascii_of_string text))%nat /\
  (no_upper (list_ascii_of_string text) = true -> no_url out = true).
Proof.
  split; [vm_compute; reflexivity|].
  apply (preprocess_tweet_output "Check  @bob www.x.io BTC ").
  vm_compute. reflexivity.
Defined.

(** X6. The ASCII texts that preprocessing returns unchanged are exactly
    those with no URL, no mention, no uppercase letter and no whitespace
    other than single blanks between other characters. *)
Theorem preprocess_tweet_fixed_points (text : string)
    (Hascii : isascii (list_ascii_of_string text) = true) :
  let l := list_ascii_of_string text in
  preprocess_tweet text = text <->
  no_url l = true /\ no_mention l = true /\ collapsed true l = true /\
  rstrip l = l /\ no_upper l = true.
Proof.
  cbv zeta. split.
  - intros Hfix.
    assert (preprocess (list_ascii_of_string text) = list_ascii_of_string text)
      as Hl.
    { apply (f_equal list_ascii_of_string) in Hfix.
      unfold preprocess_tweet in Hfix.
      rewrite list_ascii_of_string_of_list_ascii in Hfix. exact Hfix. }
    destruct (preprocess_shape (list_ascii_of_string text))
      as (Hup & Hm & Hc & Hr & Hu).
    cbv zeta in *. rewrite Hl in *. auto.
  - intros (Hu & Hm & Hc & Hr & Hup). unfold preprocess_tweet.
    rewrite preprocess_fix by assumption.
    apply string_of_list_ascii_of_string.
Qed.

Lemma preprocess_tweet_fixed_points_witness :
  (preprocess_tweet "btc to the moon" = "btc to the moon"%string <->
   no_url (list_ascii_of_string "btc to the moon") = true /\
   no_mention (list_ascii_of_string "btc to the moon") = true /\
   collapsed true (list_ascii_of_string "btc to the moon") = true /\
   rstrip (list_ascii_of_string "btc to the moon")
   = list_ascii_of_string "btc to the moon" /\
   no_upper (list_ascii_of_string "btc to the moon") = true) /\
  preprocess_tweet "btc to the moon" = "btc to the moon"%string /\
  preprocess_tweet "BTC to the moon" <> "BTC to the moon"%string.
Proof.
  split; [|split; [vm_compute; reflexivity|vm_compute; discriminate]].
  apply (preprocess_tweet_fixed_points "btc to the moon").
  vm_compute. reflexivity.
Defined.

(** ** The engagement weight does not grow with the engagement *)

(** X7. Among tweets with some engagement the weight grows with the
    engagement score, but a tweet with no engagement at all weighs more
    (1.0) than a tweet with a score from 1 to 9 (0.8). *)
Theorem engagement_weight_order (tweet1 tweet2 : Tweet) :
  (0 < engagement_score tweet1 <= engagement_score tweet2 ->
   (calculate_engagement_weight tweet1 <=? calculate_engagement_weight tweet2)%float
   = true) /\
  (engagement_score tweet1 = 0 -> 0 < engagement_score tweet2 < 10 ->
   (calculate_engagement_weight tweet2 <? calculate_engagement_weight tweet1)%float
   = true).
Proof.
  unfold calculate_engagement_weight. cbv zeta.
  split; intros H; [|intros H'];
    z_tests; try lia; vm_compute; reflexivity.
Qed.

(** ** Exact operations on binary64 numbers *)

(** Rounding a binary64 number written with [k] more bits gives it back. *)
Lemma binary_round_aux_exact (s : bool) (m : positive) (e k : Z) :
  valid_binary (S754_finite s m e) = true -> 0 <= k ->
  binary_round_aux prec emax s (Z.pos m * 2 ^ k) (e - k) loc_Exact
  = S754_finite s m e.
Proof.
  intros Hv Hk.
  assert (fexp prec emax (Z.pos (digits2_pos m) + e) = e) as Hcan.
  { unfold valid_binary, SpecFloat.valid_binary, bounded, canonical_mantissa
      in Hv.
    apply andb_prop in Hv as [Hc _]. apply Z.eqb_eq in Hc. exact Hc. }
  apply valid_binary_finite in Hv as (He & _ & _).
  pose proof (pow2_pos k Hk) as Hp.
  assert (exists M : positive, Z.pos M = Z.pos m * 2 ^ k) as [M HM].
  { destruct (Z.pos m * 2 ^ k) as [|M|M] eqn:HM; [lia|eauto|lia]. }
  rewrite <- HM.
  pose proof (digits2_pos_shift m M k Hk HM) as Hd.
  unfold binary_round_aux.
  pose proof (shr_fexp_exact (Z.pos M) (e - k) ltac:(lia)) as H1.
  cbv zeta in H1. cbn [Zdigits2] in H1.
  replace (Z.pos (digits2_pos M) + (e - k))
    with (Z.pos (digits2_pos m) + e) in H1 by lia.
  rewrite Hcan in H1.
  replace (Z.max 0 (e - (e - k))) with k in H1 by lia.
  destruct (shr_fexp prec emax (Z.pos M) (e - k) loc_Exact) as [mrs1 e1].
  cbn [fst snd] in H1. destruct H1 as (He1 & Hm1 & _ & Hex).
  assert (Z.pos M / 2 ^ k = Z.pos m) as Hq.
  { rewrite HM. apply Z.div_mul. lia. }
  assert (round_nearest_even (shr_m mrs1) (loc_of_shr_record mrs1) = Z.pos m)
    as Hr.
  { rewrite Hq in Hex.
    destruct (Z.eq_dec (round_nearest_even (shr_m mrs1)
                          (loc_of_shr_record mrs1)) (Z.pos m)) as [E|E];
      [exact E|].
    exfalso. apply (Hex E). rewrite HM. apply Z.mod_mul. lia. }
  rewrite Hr.
  replace e1 with e by lia.
  pose proof (shr_fexp_spec (Z.pos m) e loc_Exact ltac:(lia)) as H2.
  cbv zeta in H2. cbn [Zdigits2] in H2. rewrite Hcan in H2.
  replace (Z.max 0 (e - e)) with 0 in H2 by lia.
  destruct (shr_fexp prec emax (Z.pos m) e loc_Exact) as [mrs2 e2].
  cbn [fst snd] in H2. destruct H2 as [He2 Hm2].
  rewrite Z.pow_0_r, Z.div_1_r in Hm2. rewrite Hm2.
  replace e2 with e by lia.
  change (emax - prec) with 971.
  destruct (Z.leb_spec e 971); [reflexivity|lia].
Qed.

(** Multiplying by [1.0] changes no float. *)
Lemma float_mul_one (x : float) : (x * 1)%float = x.
Proof.
  apply Prim2SF_inj. rewrite mul_spec.
  pose proof (Prim2SF_valid x) as Hv.
  change (Prim2SF 1) with (S754_finite false 4503599627370496 (-52)).
  destruct (Prim2SF x) as [s|s| |s m e]; try reflexivity.
  - cbn [SF64mul SFmul]. destruct s; reflexivity.
  - cbn [SF64mul SFmul]. destruct s; reflexivity.
  - unfold SF64mul, SFmul. rewrite xorb_false_r.
    change (Z.pos (m * 4503599627370496)) with (Z.pos m * 2 ^ 52).
    change (e + -52) with (e - 52).
    apply binary_round_aux_exact; [exact Hv|lia].
Qed.

(** A finite float is a zero or has a mantissa and an exponent. *)
Lemma is_finite_spec (x : float) :
  is_finite x = true ->
  (exists s, Prim2SF x = S754_zero s) \/
  (exists s m e, Prim2SF x = S754_finite s m e).
Proof.
  unfold is_finite, is_nan, is_infinity.
  rewrite !FloatAxioms.eqb_spec, abs_spec.
  change (Prim2SF infinity) with (S754_infinity false).
  destruct (Prim2SF x) as [s|s| |s m e].
  - intros _. left. eauto.
  - destruct s; vm_compute; discriminate.
  - vm_compute. discriminate.
  - intros _. right. eauto.
Qed.

(** Dividing by [1.0] changes no float. *)
Lemma float_div_one (x : float) : (x / 1)%float = x.
Proof.
  apply Prim2SF_inj. rewrite div_spec.
  pose proof (Prim2SF_valid x) as Hv.
  change (Prim2SF 1) with (S754_finite false 4503599627370496 (-52)).
  destruct (Prim2SF x) as [s|s| |s m e]; try reflexivity.
  - cbn [SF64div SFdiv]. destruct s; reflexivity.
  - cbn [SF64div SFdiv]. destruct s; reflexivity.
  - unfold SF64div, SFdiv, SFdiv_core_binary. rewrite xorb_false_r.
    assert (fexp prec emax (Z.pos (digits2_pos m) + e) = e) as Hcan.
    { unfold valid_binary, SpecFloat.valid_binary, bounded,
        canonical_mantissa in Hv.
      apply andb_prop in Hv as [Hc _]. apply Z.eqb_eq in Hc. exact Hc. }
    cbn [Zdigits2].
    change (Z.pos (digits2_pos 4503599627370496) + -52) with 1.
    set (e' := Z.min _ _).
    assert (e' <= e) as He'.
    { subst e'. rewrite fexp_eq in *. lia. }
    assert (e - -52 - e' = 52 + (e - e')) as Hs by lia.
    rewrite Hs.
    destruct (52 + (e - e')) as [|p|p] eqn:Hp; try lia.
    rewrite Z.shiftl_mul_pow2 by lia. rewrite <- Hp.
    rewrite Z.pow_add_r by lia.
    change (Z.pos 4503599627370496) with (2 ^ 52).
    set (a := Z.pos m * (2 ^ 52 * 2 ^ (e - e'))).
    assert (a = Z.pos m * 2 ^ (e - e') * 2 ^ 52) as Ha by (subst a; ring).
    assert (a / 2 ^ 52 = Z.pos m * 2 ^ (e - e')) as Hq.
    { rewrite Ha. apply Z.div_mul. apply Z.pow_nonzero; lia. }
    assert (a mod 2 ^ 52 = 0) as Hr.
    { rewrite Ha. apply Z.mod_mul. apply Z.pow_nonzero; lia. }
    unfold Z.div in Hq. unfold Z.modulo in Hr.
    destruct (Z.div_eucl a (2 ^ 52)) as [q r]. subst q r.
    change (new_location (2 ^ 52) 0) with loc_Exact.
    replace e' with (e - (e - e')) at 2 by lia.
    apply binary_round_aux_exact; [exact Hv|lia].
Qed.

(** [x - (0 + x)] is a zero for a finite [x]: [0 + x] is [x], or [+0]
    when [x] is [-0]. *)
Lemma float_sub_sum_self (x : float) :
  is_finite x = true ->
  (x - (0 + x))%float = 0%float \/ (x - (0 + x))%float = (-0)%float.
Proof.
  intros Hfin.
  assert (Prim2SF (x - (0 + x)) = S754_zero false \/
          Prim2SF (x - (0 + x)) = S754_zero true) as [H|H].
  { rewrite sub_spec, add_spec. change (Prim2SF 0) with (S754_zero false).
    destruct (is_finite_spec x Hfin) as [[s ->]|(s & m & e & ->)].
    - destruct s; [right|left]; reflexivity.
    - left. cbn [SF64add SFadd]. unfold SF64sub, SFsub. cbv zeta.
      rewrite Z.min_id. unfold shl_align. rewrite (Z.sub_diag e). cbn [fst].
      rewrite Z.sub_diag. reflexivity. }
  - left. apply Prim2SF_inj. exact H.
  - right. apply Prim2SF_inj. exact H.
Qed.

Lemma py_sum_zeros (xs : list float) :
  Forall (fun x => x = 0%float) xs -> py_sum xs = 0%float.
Proof.
  unfold py_sum. induction 1 as [|x xs -> _ IH]; [reflexivity|].
  cbn [fold_left]. exact IH.
Qed.

Lemma zero_div_pos (y : float) : float_pos y = true -> (0 / y)%float = 0%float.
Proof.
  unfold float_pos. intros Hy. apply Prim2SF_inj. rewrite div_spec.
  change (Prim2SF 0) with (S754_zero false).
  destruct (Prim2SF y) as [s|s| |s m e]; try discriminate;
    destruct s; try discriminate; reflexivity.
Qed.

Lemma zero_times_weight (tweet : Tweet) :
  (0 * calculate_engagement_weight tweet)%float = 0%float.
Proof.
  destruct (calculate_engagement_weight_values tweet) as [-> | [-> | [-> | ->]]];
    vm_compute; reflexivity.
Qed.

(** ** Halving a score *)

(** On positive finite numbers [<] is the negation of the converse [<=]. *)
Lemma SFltb_negb_SFleb (m1 : positive) (e1 : Z) (m2 : positive) (e2 : Z) :
  SFltb (S754_finite false m1 e1) (S754_finite false m2 e2)
  = negb (SFleb (S754_finite false m2 e2) (S754_finite false m1 e1)).
Proof.
  unfold SFltb, SFleb, SFcompare.
  rewrite (Z.compare_antisym e1 e2).
  destruct (e1 ?= e2); cbn [CompOpp]; try reflexivity.
  rewrite !Pos.compare_cont_spec. cbn [Pos.switch_Eq].
  rewrite (Pos.compare_antisym m1 m2).
  destruct (m1 ?= m2)%positive; reflexivity.
Qed.

Lemma SFltb_of_ival (m1 : positive) (e1 : Z) (m2 : positive) (e2 : Z) :
  valid_binary (S754_finite false m1 e1) = true ->
  valid_binary (S754_finite false m2 e2) = true ->
  ival (Z.pos m1) e1 < ival (Z.pos m2) e2 ->
  SFltb (S754_finite false m1 e1) (S754_finite false m2 e2) = true.
Proof.
  intros V1 V2 Hlt. rewrite SFltb_negb_SFleb.
  destruct (SFleb (S754_finite false m2 e2) (S754_finite false m1 e1)) eqn:H;
    [|reflexivity].
  apply ival_of_SFleb in H; [lia|assumption|assumption].
Qed.

Lemma ival_of_SFltb (m1 : positive) (e1 : Z) (m2 : positive) (e2 : Z) :
  valid_binary (S754_finite false m1 e1) = true ->
  valid_binary (S754_finite false m2 e2) = true ->
  SFltb (S754_finite false m1 e1) (S754_finite false m2 e2) = true ->
  ival (Z.pos m1) e1 < ival (Z.pos m2) e2.
Proof.
  intros V1 V2 H. rewrite SFltb_negb_SFleb in H. apply negb_true_iff in H.
  destruct (Z.lt_ge_cases (ival (Z.pos m1) e1) (ival (Z.pos m2) e2)) as [Hlt|Hge];
    [exact Hlt|].
  rewrite (SFleb_of_ival m2 e2 m1 e1) in H by assumption. discriminate H.
Qed.

(** The half of a normal positive number. *)
Lemma valid_binary_half (m : positive) (e : Z) :
  valid_binary (S754_finite false m e) = true -> -1074 < e ->
  valid_binary (S754_finite false m (e - 1)) = true.
Proof.
  intros Hv He. apply valid_binary_finite in Hv as (Hb & _ & Hd).
  specialize (Hd He).
  unfold valid_binary, SpecFloat.valid_binary, bounded, canonical_mantissa.
  rewrite fexp_eq, Hd. apply andb_true_intro. split.
  - apply Z.eqb_eq. lia.
  - apply Z.leb_le. change (emax - prec) with 971. lia.
Qed.

(** A number of the lowest binade is below every normal number whose
    exponent is above the least one. *)
Lemma ival_lowest_binade (m : positive) (ma : positive) (ea : Z) :
  valid_binary (S754_finite false m (-1074)) = true ->
  Z.pos (digits2_pos ma) = 53 -> -1073 <= ea ->
  ival (Z.pos m) (-1074) < ival (Z.pos ma) ea.
Proof.
  intros Hv Hd Hea. apply valid_binary_finite in Hv as (_ & Hdm & _).
  pose proof (digits2_pos_bounds m) as [_ Hhi].
  pose proof (digits2_pos_bounds ma) as [Hlo _]. rewrite Hd in Hlo.
  assert (Z.pos m < 2 ^ 53) as Hm.
  { eapply Z.lt_le_trans; [exact Hhi|]. apply Z.pow_le_mono_r; lia. }
  unfold ival, scale. change (-1074 + 2200) with 1126.
  assert (0 < 2 ^ 1126) as Hp1 by (apply pow2_pos; lia).
  replace (ea + 2200) with ((ea + 1073) + (1126 + 1)) by lia.
  rewrite (Z.pow_add_r 2 (ea + 1073)), (Z.pow_add_r 2 1126 1) by lia.
  change (2 ^ 1) with 2.
  assert (1 <= 2 ^ (ea + 1073)) as Hp2.
  { change 1 with (2 ^ 0) at 1. apply Z.pow_le_mono_r; lia. }
  change (53 - 1) with 52 in Hlo.
  assert (2 ^ 53 = 2 * 2 ^ 52) as E53 by reflexivity.
  rewrite E53 in Hm.
  set (P := 2 ^ 1126) in *. set (Q := 2 ^ (ea + 1073)) in *.
  set (T := 2 ^ 52) in *.
  assert (Z.pos m * P < 2 * T * P) as H1 by nia.
  assert (2 * T * P <= Z.pos ma * (Q * (P * 2))) as H2 by nia.
  lia.
Qed.

Lemma SFmul_half_ltb (X : spec_float) (ma : positive) (ea : Z) :
  valid_binary X = true ->
  valid_binary (SF64mul X (S754_finite false 4503599627370496 (-53))) = true ->
  valid_binary (S754_finite false ma ea) = true ->
  Z.pos (digits2_pos ma) = 53 -> -1073 <= ea ->
  let P := SF64mul X (S754_finite false 4503599627370496 (-53)) in
  SFltb (S754_finite false ma ea) P
  = SFltb (S754_finite false ma (ea + 1)) X /\
  SFltb P (S754_finite false ma ea)
  = SFltb X (S754_finite false ma (ea + 1)).
Proof.
  intros HX HP HA Hd Hea P. subst P.
  destruct X as [s|s| |s m e].
  - destruct s; split; reflexivity.
  - destruct s; split; reflexivity.
  - split; reflexivity.
  - unfold SF64mul, SFmul in *. rewrite xorb_false_r in *.
    change (Z.pos (m * 4503599627370496)) with (Z.pos m * 2 ^ 52) in *.
    destruct s.
    + (* a negative number: its half is negative, zero or infinite *)
      pose proof (binary_round_aux_sign true (Z.pos m * 2 ^ 52) (e + -53)
                    loc_Exact ltac:(lia)) as Hs.
      destruct (binary_round_aux prec emax true (Z.pos m * 2 ^ 52) (e + -53)
                  loc_Exact) as [[]|[]| |[] m' e'];
        try discriminate Hs; split; reflexivity.
    + destruct (Z.eq_dec e (-1074)) as [->|He].
      * (* the lowest binade: the half is below the number itself *)
        assert (exists M : positive, Z.pos M = Z.pos m * 2 ^ 52) as [M HM].
        { exists (m * 4503599627370496)%positive. reflexivity. }
        rewrite <- HM in *.
        pose proof (ival_lowest_binade m ma ea HX Hd Hea) as Hlow.
        assert (ival (Z.pos M) (-1074 + -53) <= ival (Z.pos m) (-1074)) as Hle.
        { rewrite HM. unfold ival, scale.
          replace (-1074 + 2200) with (-1074 + -53 + 2200 + 53) by lia.
          rewrite (Z.pow_add_r 2 (-1074 + -53 + 2200) 53) by lia.
          assert (0 < 2 ^ (-1074 + -53 + 2200)) by (apply pow2_pos; lia).
          assert (2 ^ 53 = 2 * 2 ^ 52) as -> by reflexivity.
          set (T := 2 ^ 52) in *. set (Q := 2 ^ _) in *.
          assert (0 < T) by (subst T; apply pow2_pos; lia).
          nia. }
        destruct (binary_round_aux_le M (-1074 + -53) m (-1074)) as [Hz|Hf].
        { unfold scale. lia. }
        { rewrite fexp_eq. lia. }
        { exact HX. }
        { exact Hle. }
        { rewrite Hz. split.
          - unfold SFltb, SFcompare.
            destruct (Z.compare_spec (ea + 1) (-1074)); try lia; try reflexivity.
          - unfold SFltb, SFcompare.
            destruct (Z.compare_spec (-1074) (ea + 1)); try lia; try reflexivity. }
        destruct Hf as (mR & eR & HR & HleR). rewrite HR in *.
        split.
        -- destruct (SFltb (S754_finite false ma ea) (S754_finite false mR eR))
             eqn:Hlt.
           ++ apply ival_of_SFltb in Hlt; [lia|assumption|assumption].
           ++ unfold SFltb, SFcompare.
              destruct (Z.compare_spec (ea + 1) (-1074)); try lia; try reflexivity.
        -- rewrite SFltb_of_ival by (assumption || lia).
           unfold SFltb, SFcompare.
           destruct (Z.compare_spec (-1074) (ea + 1)); try lia; try reflexivity.
      * (* a normal number: the half is exact *)
        assert (-1074 < e) as He'.
        { apply valid_binary_finite in HX. lia. }
        replace (e + -53) with (e - 1 - 52) in * by lia.
        rewrite binary_round_aux_exact
          by first [apply valid_binary_half; assumption | lia].
        unfold SFltb, SFcompare.
        replace (ea + 1 ?= e) with (ea ?= e - 1)
          by (rewrite <- (Z.add_compare_mono_l 1 ea (e - 1)); f_equal; lia).
        replace (e ?= ea + 1) with (e - 1 ?= ea)
          by (rewrite <- (Z.add_compare_mono_l 1 (e - 1) ea); f_equal; lia).
        split; reflexivity.
Qed.

(** Comparing the half of a score with the thresholds is comparing the
    score with the doubled thresholds. *)
Lemma float_half_thresholds (x : float) :
  (BUY_THRESHOLD <? x * 0.5)%float = (0.12 <? x)%float /\
  (x * 0.5 <? SELL_THRESHOLD)%float = (x <? 0.08)%float.
Proof.
  rewrite !ltb_spec, mul_spec.
  pose proof (Prim2SF_valid x) as HX.
  pose proof (Prim2SF_valid (x * 0.5)) as HP. rewrite mul_spec in HP.
  change (Prim2SF 0.5) with (S754_finite false 4503599627370496 (-53)) in *.
  change (Prim2SF BUY_THRESHOLD)
    with (S754_finite false 8646911284551352 (-57)).
  change (Prim2SF 0.12) with (S754_finite false 8646911284551352 (-57 + 1)).
  change (Prim2SF SELL_THRESHOLD)
    with (S754_finite false 5764607523034235 (-57)).
  change (Prim2SF 0.08) with (S754_finite false 5764607523034235 (-57 + 1)).
  split.
  - apply (SFmul_half_ltb (Prim2SF x) 8646911284551352 (-57));
      (assumption || reflexivity || lia).
  - apply (SFmul_half_ltb (Prim2SF x) 5764607523034235 (-57));
      (assumption || reflexivity || lia).
Qed.

(** The two tests of the classifier. *)
Lemma generate_trading_signal_tests (x : float) :
  (generate_trading_signal x = BUY <-> (BUY_THRESHOLD <? x)%float = true) /\
  (generate_trading_signal x = SELL <-> (x <? SELL_THRESHOLD)%float = true) /\
  (generate_trading_signal x = NEUTRAL <->
   (BUY_THRESHOLD <? x)%float = false /\ (x <? SELL_THRESHOLD)%float = false).
Proof.
  pose proof (ltb_sell_not_buy x) as Hexcl.
  unfold generate_trading_signal.
  destruct (BUY_THRESHOLD <? x)%float eqn:Hbuy,
           (x <? SELL_THRESHOLD)%float eqn:Hsell;
    try (specialize (Hexcl eq_refl); discriminate Hexcl);
    repeat split; intros; try reflexivity; try discriminate;
    try (destruct H; discriminate).
Qed.

(** ** Scores that are not negative *)

Lemma not_negative_spec (x : float) :
  (x <? 0)%float = false <-> SFnot_negative (Prim2SF x) = true.
Proof.
  rewrite ltb_spec. change (Prim2SF 0) with (S754_zero false).
  destruct (Prim2SF x) as [[]|[]| |[] m e]; cbn; split; congruence.
Qed.

Lemma SFsign_not_negative_of (x : spec_float) :
  SFsign_is false x = true -> SFnot_negative x = true.
Proof. destruct x as [[]|[]| |[] m e]; cbn; congruence. Qed.

Lemma SFmul_not_negative (x : spec_float) (mw : positive) (ew : Z) :
  SFnot_negative x = true ->
  SFnot_negative (SF64mul x (S754_finite false mw ew)) = true.
Proof.
  destruct x as [[]|[]| |[] m e]; try discriminate; intros _; try reflexivity.
  unfold SF64mul, SFmul. cbn [xorb].
  apply SFsign_not_negative_of, binary_round_aux_sign. lia.
Qed.

Lemma SFadd_not_negative (x y : spec_float) :
  SFnot_negative x = true -> SFnot_negative y = true ->
  SFnot_negative (SF64add x y) = true.
Proof.
  destruct x as [[]|[]| |[] mx ex]; try discriminate;
    destruct y as [[]|[]| |[] my ey]; try discriminate;
    intros _ _; try reflexivity.
  unfold SF64add, SFadd. cbn [cond_Zopp].
  apply SFsign_not_negative_of, binary_normalize_sign. lia.
Qed.

Lemma SFdiv_not_negative (x y : spec_float) :
  SFnot_negative x = true -> SFpositive y = true ->
  SFnot_negative (SF64div x y) = true.
Proof.
  destruct y as [sy|[]| |[] my ey]; try discriminate;
    destruct x as [[]|[]| |[] mx ex]; try discriminate;
    intros _ _; try reflexivity.
  apply SFsign_not_negative_of.
  apply (SFdiv_sign (S754_finite false mx ex)). reflexivity.
Qed.

Lemma py_sum_not_negative (xs : list float) :
  Forall (fun x => (x <? 0)%float = false) xs ->
  (py_sum xs <? 0)%float = false.
Proof.
  unfold py_sum. intros Hxs.
  assert ((0 <? 0)%float = false) as Hacc by reflexivity.
  revert Hacc. generalize 0%float at 1 3 as acc.
  induction Hxs as [|x xs Hx _ IH]; intros acc Hacc; cbn [fold_left].
  - exact Hacc.
  - apply IH. apply not_negative_spec. rewrite add_spec.
    apply SFadd_not_negative; apply not_negative_spec; assumption.
Qed.

(** ** Results of [analyze_symbol_sentiment] and [analyze_multiple_symbols] *)

Lemma length_filter_le {A} (p : A -> bool) (l : list A) :
  (length (List.filter p l) <= length l)%nat.
Proof.
  induction l as [|a l IH]; cbn; [lia|]. destruct (p a); cbn; lia.
Qed.

Section MoreAnalyzerProperties.

Context {env : Collaborators}.

Lemma qualifying_length (symbol : string) (hours_back : Z) :
  len (qualifying symbol hours_back) <= len (messages symbol).
Proof.
  unfold qualifying, len.
  destruct (window_cutoff hours_back) as [e|cutoff_time];
    [cbn [length]; lia|].
  pose proof (length_filter_le
                (fun tweet => is_crypto_related (text tweet) symbol)
                (List.filter (in_window cutoff_time) (messages symbol))).
  pose proof (length_filter_le (in_window cutoff_time) (messages symbol)).
  lia.
Qed.

(** With at most 200 messages the multiplier is 0.5 or 1.0. *)
Lemma expected_result_volume (symbol : string) (hours_back : Z) :
  len (messages symbol) <= 200 ->
  tweet_count (expected_result symbol hours_back) <= 200 /\
  (volume_multiplier (expected_result symbol hours_back) = 0.5%float \/
   volume_multiplier (expected_result symbol hours_back) = 1.0%float).
Proof.
  intros Hm.
  pose proof (expected_result_tweet_count symbol hours_back) as Hn.
  pose proof (qualifying_length symbol hours_back) as Hle.
  split; [lia|].
  destruct (qualifying symbol hours_back) as [|q qs] eqn:Hq.
  - destruct (expected_result_zero symbol hours_back Hq) as (a & -> & _).
    right. reflexivity.
  - assert (qualifying symbol hours_back <> []) as Hne by congruence.
    rewrite (expected_result_full symbol hours_back Hne) in *.
    unfold full_result in *. cbn [volume_multiplier tweet_count] in *.
    unfold get_volume_multiplier, HIGH_VOLUME_THRESHOLD,
      LOW_VOLUME_THRESHOLD, LOW_VOLUME_MULTIPLIER.
    destruct (Z.ltb_spec 500 (len (weighted_samples symbol hours_back)));
      [lia|].
    destruct (len (weighted_samples symbol hours_back) <? 100); auto.
Qed.

(** X1. For a symbol other than BTC, ETH, USDC and USDT (as written: the
    lookup is case-sensitive) no text is related, and the analysis returns
    the zero-data result whatever the fetch returns. The result carries no
    error text when the fetch returns and the window is of zero to a
    million hours, and more generally when the fetch returns nothing or
    the start of the window can be computed. *)
Theorem unknown_symbol_zero_data (symbol : string) (hours_back : Z)
    (Hbtc : symbol <> "BTC"%string) (Heth : symbol <> "ETH"%string)
    (Husdc : symbol <> "USDC"%string) (Husdt : symbol <> "USDT"%string) :
  (forall text, is_crypto_related text symbol = false) /\
  exists annotation,
    analyze_symbol_sentiment symbol hours_back
    = inr (get_neutral_sentiment_result symbol annotation) /\
    (forall tweets,
       fetch_twitter_data symbol 200 = inr tweets ->
       tweets = [] \/ (exists cutoff_time,
                         window_cutoff hours_back = inr cutoff_time) ->
       annotation = None) /\
    (forall tweets,
       fetch_twitter_data symbol 200 = inr tweets ->
       0 <= hours_back <= 1000000 ->
       annotation = None).
Proof.
  assert (forall text, is_crypto_related text symbol = false) as Hrel.
  { intros text. apply is_crypto_related_unknown; assumption. }
  split; [exact Hrel|].
  assert (qualifying symbol hours_back = []) as Hq.
  { unfold qualifying.
    destruct (window_cutoff hours_back) as [e|cutoff_time]; [reflexivity|].
    induction (List.filter _ (messages symbol)) as [|tweet l IH];
      [reflexivity|].
    cbn [List.filter]. rewrite Hrel. exact IH. }
  destruct (expected_result_zero symbol hours_back Hq)
    as (a & Hr & _ & _ & Hok).
  exists a. rewrite analyze_symbol_sentiment_closed, Hr.
  split; [reflexivity|]. split; [exact Hok|].
  intros tweets Hf Hh. apply (Hok tweets Hf). right.
  eexists. apply window_cutoff_computed, Hh.
Qed.

(** X8. In every result the field [raw_tweets_analyzed] equals the
    sample count, which is at most the number of fetched messages, and
    the thresholds are the class constants. With a sample count above
    zero the multiplier, the adjusted score and the signal are those of
    [get_volume_multiplier] and [generate_trading_signal] and the result
    has no key [error]; with sample count zero the result carries
    multiplier 1.0 and NEUTRAL, where these functions give 0.5 and SELL. *)
Theorem result_invariants (sym : string) (hours_back : Z) :
  exists r,
    analyze_symbol_sentiment sym hours_back = inr r /\
    symbol r = sym /\
    thresholds r = class_thresholds /\
    raw_tweets_analyzed r = tweet_count r /\
    0 <= tweet_count r <= len (messages sym) /\
    (0 < tweet_count r ->
     volume_multiplier r = get_volume_multiplier (tweet_count r) /\
     Scores.adjusted_compound (sentiment_scores r)
     = (Scores.compound (sentiment_scores r) * volume_multiplier r)%float /\
     trading_signal r
     = generate_trading_signal (Scores.adjusted_compound (sentiment_scores r)) /\
     error r = None) /\
    (tweet_count r = 0 ->
     volume_multiplier r = 1.0%float /\
     get_volume_multiplier (tweet_count r) = 0.5%float /\
     trading_signal r = NEUTRAL /\
     generate_trading_signal (Scores.adjusted_compound (sentiment_scores r))
     = SELL /\
     exists annotation, error r = Some annotation).
Proof.
  exists (expected_result sym hours_back).
  split; [apply analyze_symbol_sentiment_closed|].
  pose proof (expected_result_tweet_count sym hours_back) as Hn.
  pose proof (qualifying_length sym hours_back) as Hle.
  destruct (qualifying sym hours_back) as [|q qs] eqn:Hq.
  - destruct (expected_result_zero sym hours_back Hq) as (a & -> & _).
    cbn [symbol thresholds raw_tweets_analyzed tweet_count
         volume_multiplier trading_signal error sentiment_scores
         Scores.adjusted_compound Scores.compound
         get_neutral_sentiment_result].
    split; [reflexivity|]. split; [reflexivity|]. split; [reflexivity|].
    split; [unfold len in *; cbn in *; lia|].
    split; [intros Hcnt; lia|].
    intros _. split; [reflexivity|]. split; [reflexivity|].
    split; [reflexivity|]. split; [vm_compute; reflexivity|].
    exists a. reflexivity.
  - assert (qualifying sym hours_back <> []) as Hne by congruence.
    rewrite (expected_result_full sym hours_back Hne) in *.
    assert (0 < tweet_count (full_result sym hours_back)) as Hpos.
    { rewrite Hn. unfold len. cbn. lia. }
    split; [reflexivity|]. split; [reflexivity|]. split; [reflexivity|].
    split; [lia|].
    split; [intros _; repeat split|].
    intros Hcnt. rewrite Hcnt in Hpos. lia.
Qed.

(** X9. When the fetch returns no more than the 200 messages it was
    asked for, the sample count is at most 200 and the multiplier is 0.5
    or 1.0: the high-volume multiplier 1.5 is never applied. *)
Theorem volume_multiplier_capped (symbol : string) (hours_back : Z)
    (Hlimit : forall tweets,
        fetch_twitter_data symbol 200 = inr tweets -> len tweets <= 200) :
  exists r,
    analyze_symbol_sentiment symbol hours_back = inr r /\
    tweet_count r <= 200 /\
    (volume_multiplier r = 0.5%float \/ volume_multiplier r = 1.0%float) /\
    volume_multiplier r <> HIGH_VOLUME_MULTIPLIER.
Proof.
  exists (expected_result symbol hours_back).
  split; [apply analyze_symbol_sentiment_closed|].
  assert (len (messages symbol) <= 200) as Hm.
  { unfold messages. destruct (fetch_twitter_data symbol 200) as [e|tweets].
    - unfold len. cbn. lia.
    - apply Hlimit. reflexivity. }
  destruct (expected_result_volume symbol hours_back Hm) as [Hn Hv].
  split; [exact Hn|]. split; [exact Hv|].
  unfold HIGH_VOLUME_MULTIPLIER. destruct Hv as [-> | ->]; float_neq.
Qed.

Lemma in_window_mono (c1 c2 : datetime) (tweet : Tweet) :
  c2 <= c1 -> in_window c1 tweet = true -> in_window c2 tweet = true.
Proof.
  unfold in_window. intros Hc.
  destruct (fromisoformat (replace_Z (created_at tweet))) as [e|t]; [auto|].
  rewrite !Z.ltb_lt. lia.
Qed.

(** X10. For the same messages and the same reading of the clock, a
    wider window (up to a million hours either way, where the dates stay
    in range) keeps every sample of a narrower one: the qualifying
    messages are kept and the sample count does not decrease. *)
Theorem wider_window_keeps_samples (symbol : string) (h1 h2 : Z)
    (Hlo : -1000000 <= h1) (Hle : h1 <= h2) (Hhi : h2 <= 1000000) :
  exists r1 r2,
    analyze_symbol_sentiment symbol h1 = inr r1 /\
    analyze_symbol_sentiment symbol h2 = inr r2 /\
    tweet_count r1 <= tweet_count r2 /\
    forall tweet,
      In tweet (qualifying symbol h1) -> In tweet (qualifying symbol h2).
Proof.
  exists (expected_result symbol h1), (expected_result symbol h2).
  split; [apply analyze_symbol_sentiment_closed|].
  split; [apply analyze_symbol_sentiment_closed|].
  rewrite !expected_result_tweet_count.
  destruct (window_cutoff h1) as [e1|c1] eqn:H1.
  { rewrite (qualifying_cutoff_failed symbol h1 e1 H1).
    split; [unfold len; cbn [length]; lia|intros tweet []]. }
  apply window_cutoff_inr in H1 as (Hc1 & Hd1 & Hr1).
  pose proof now_valid as Hnow.
  apply andb_prop in Hnow as [Hnow _]. apply Z.leb_le in Hnow.
  assert (window_cutoff h2 = inr (now - timedelta_hours h2)) as H2.
  { apply window_cutoff_inr. split; [reflexivity|].
    unfold timedelta_hours, datetime_min, datetime_max in *.
    split; [|lia].
    split; [apply Z.div_le_lower_bound; lia|].
    apply Z.div_le_upper_bound; lia. }
  assert (window_cutoff h1 = inr c1) as H1.
  { apply window_cutoff_inr. auto. }
  assert (now - timedelta_hours h2 <= c1) as Hc.
  { subst c1. unfold timedelta_hours. lia. }
  unfold qualifying. rewrite H1, H2.
  set (c2 := now - timedelta_hours h2) in *.
  set (rel := fun tweet => is_crypto_related (text tweet) symbol).
  split.
  - unfold len. apply Nat2Z.inj_le.
    induction (messages symbol) as [|a l IH]; cbn [List.filter]; [lia|].
    destruct (in_window c1 a) eqn:Hw1.
    + rewrite (in_window_mono _ _ a Hc Hw1). cbn [List.filter].
      destruct (rel a); cbn [length]; lia.
    + destruct (in_window c2 a); [|exact IH].
      cbn [List.filter]. destruct (rel a); cbn [length]; lia.
  - intros tweet. rewrite !filter_In.
    intros [[Hin Hw] Hrel]. repeat split; try assumption.
    apply (in_window_mono _ _ tweet Hc Hw).
Qed.

(** X11. The time filter keeps, in their order, the tweets whose
    timestamp does not parse and those whose time is strictly later than
    the cutoff: a tweet dated exactly at the cutoff is dropped. *)
Theorem time_window_boundary (cutoff_time : datetime) (tweets : list Tweet) :
  exists recent_tweets,
    for_loop (time_window_step cutoff_time) tweets [] = inr recent_tweets /\
    recent_tweets = List.filter (in_window cutoff_time) tweets /\
    (forall tweet,
       In tweet recent_tweets <->
       In tweet tweets /\
       match fromisoformat (replace_Z (created_at tweet)) with
       | inr tweet_time => cutoff_time < tweet_time
       | inl _ => True
       end) /\
    (forall tweet,
       fromisoformat (replace_Z (created_at tweet)) = inr cutoff_time ->
       ~ In tweet recent_tweets).
Proof.
  eexists. split; [apply time_window_loop|]. cbn [app].
  split; [reflexivity|]. split.
  - intros tweet. rewrite filter_In. unfold in_window.
    destruct (fromisoformat (replace_Z (created_at tweet))) as [e|t].
    + tauto.
    + rewrite Z.ltb_lt. tauto.
  - intros tweet Hparse. rewrite filter_In. unfold in_window.
    rewrite Hparse, Z.ltb_irrefl. intros [_ H]. discriminate H.
Qed.

(** X12. When the scorer fails on every text and some message
    qualifies, the analysis does not report the failure: it returns a
    result without the key [error] whose compound, adjusted, positive and
    negative scores are 0 and whose signal is SELL. *)
Theorem scorer_outage_sells (symbol : string) (hours_back : Z)
    (Hdown : forall processed_text,
        exists e, polarity_scores processed_text = inl e)
    (Hq : qualifying symbol hours_back <> []) :
  exists r,
    analyze_symbol_sentiment symbol hours_back = inr r /\
    tweet_count r = len (qualifying symbol hours_back) /\
    Scores.compound (sentiment_scores r) = 0%float /\
    Scores.adjusted_compound (sentiment_scores r) = 0%float /\
    Scores.positive (sentiment_scores r) = 0%float /\
    Scores.negative (sentiment_scores r) = 0%float /\
    trading_signal r = SELL /\
    error r = None.
Proof.
  exists (expected_result symbol hours_back).
  split; [apply analyze_symbol_sentiment_closed|].
  split; [apply expected_result_tweet_count|].
  rewrite (expected_result_full symbol hours_back Hq).
  assert (forall tweet,
            Sample.compound (weighted_sample tweet) = 0%float /\
            Sample.positive (weighted_sample tweet) = 0%float /\
            Sample.negative (weighted_sample tweet) = 0%float) as Hzero.
  { intros tweet. unfold weighted_sample, text_sentiment.
    destruct (Hdown (preprocess_tweet (text tweet))) as (e & ->).
    repeat split. }
  assert (forall f,
            (forall tweet, f (weighted_sample tweet) = 0%float) ->
            weighted_mean f (weighted_samples symbol hours_back) = 0%float)
    as Hmean.
  { intros f Hf. unfold weighted_mean, weighted_samples.
    rewrite py_sum_zeros.
    - apply zero_div_pos, weighted_samples_total_pos, Hq.
    - rewrite map_map. apply Forall_map, Forall_forall. intros tweet _.
      cbn beta. rewrite Hf. unfold weighted_sample. cbn [Sample.weight].
      apply zero_times_weight. }
  unfold full_result. cbn [sentiment_scores trading_signal error
                             Scores.compound Scores.adjusted_compound
                             Scores.positive Scores.negative].
  rewrite !Hmean by (intros tweet; apply Hzero).
  assert ((0 * get_volume_multiplier (len (weighted_samples symbol hours_back)))%float
          = 0%float) as ->.
  { unfold get_volume_multiplier.
    destruct (_ <? _); [vm_compute; reflexivity|].
    destruct (_ <? _); vm_compute; reflexivity. }
  repeat split.
Qed.

(** X13. The batch has one slot per distinct symbol: a symbol has a slot
    exactly when it is in the list, so the number of slots is at most
    [symbols_analyzed], which counts repetitions, and equals it exactly
    when no symbol is repeated. *)
Theorem batch_slots (symbols : list string) :
  exists b,
    analyze_multiple_symbols symbols = inr b /\
    symbols_analyzed b = len symbols /\
    (forall s, is_Some (results b !! s) <-> In s symbols) /\
    Z.of_nat (size (results b)) <= symbols_analyzed b /\
    (Z.of_nat (size (results b)) = symbols_analyzed b <-> List.NoDup symbols).
Proof.
  destruct (analyze_loop_closed symbols ∅) as (res & Hloop & Hres).
  unfold analyze_multiple_symbols. rewrite Hloop.
  eexists. split; [reflexivity|]. split; [reflexivity|].
  cbn [results symbols_analyzed].
  assert (forall s, is_Some (res !! s) <-> In s symbols) as Hdom.
  { intros s. destruct (Hres s) as [Hin Hout]. split.
    - intros Hs. destruct (in_dec string_dec s symbols) as [H|H]; [exact H|].
      rewrite (Hout H), lookup_empty in Hs. destruct Hs; discriminate.
    - intros Hs. rewrite (Hin Hs). eauto. }
  split; [exact Hdom|].
  assert (dom res = (list_to_set (remove_dups symbols) : gset string)) as Hset.
  { apply set_eq. intros s.
    rewrite elem_of_dom, elem_of_list_to_set, elem_of_remove_dups, Hdom.
    symmetry. apply list_elem_of_In. }
  assert (size res = length (remove_dups symbols)) as Hsize.
  { rewrite <- size_dom, Hset. apply size_list_to_set, NoDup_remove_dups. }
  assert (forall l : list string,
            (length (remove_dups l) <= length l)%nat /\
            (length (remove_dups l) = length l <-> List.NoDup l)) as Hdup.
  { induction l as [|a l [IHle IHiff]]; cbn [remove_dups length].
    - split; [lia|]. split; [constructor|reflexivity].
    - destruct (decide_rel elem_of a l) as [Hin|Hin].
      + split; [lia|]. split; [lia|]. intros Hnd. inversion Hnd; subst.
        exfalso. apply list_elem_of_In in Hin. contradiction.
      + cbn [length]. split; [lia|].
        rewrite List.NoDup_cons_iff, <- IHiff, <- list_elem_of_In.
        split; [intros; split; [assumption|lia]|lia]. }
  rewrite Hsize. unfold len. destruct (Hdup symbols) as [Hle Hiff].
  split; [lia|]. rewrite <- Hiff. lia.
Qed.

(** X24. The slots of the batch do not depend on the order of the
    symbols nor on how often each is given: two lists with the same
    symbols give the same slots. *)
Theorem batch_order_irrelevant (symbols1 symbols2 : list string) :
  (forall s, In s symbols1 <-> In s symbols2) ->
  exists b1 b2,
    analyze_multiple_symbols symbols1 = inr b1 /\
    analyze_multiple_symbols symbols2 = inr b2 /\
    results b1 = results b2.
Proof.
  intros Hsame.
  destruct (analyze_loop_closed symbols1 ∅) as (res1 & Hloop1 & Hres1).
  destruct (analyze_loop_closed symbols2 ∅) as (res2 & Hloop2 & Hres2).
  unfold analyze_multiple_symbols. rewrite Hloop1, Hloop2.
  eexists _, _. split; [reflexivity|]. split; [reflexivity|].
  cbn [results]. apply map_eq. intros s.
  destruct (Hres1 s) as [Hin1 Hout1], (Hres2 s) as [Hin2 Hout2].
  destruct (in_dec string_dec s symbols1) as [H|H].
  - rewrite (Hin1 H), (Hin2 (proj1 (Hsame s) H)). reflexivity.
  - rewrite (Hout1 H). rewrite Hout2; [reflexivity|].
    intros H2. apply H, Hsame, H2.
Qed.

(** X14. With a sample count from 100 to 500 the multiplier is 1.0 and
    the adjusted score is the weighted compound itself, bit for bit: the
    signal is the one of the weighted compound. *)
Theorem mid_volume_keeps_compound (symbol : string) (hours_back : Z) :
  exists r,
    analyze_symbol_sentiment symbol hours_back = inr r /\
    (100 <= tweet_count r <= 500 ->
     volume_multiplier r = 1.0%float /\
     Scores.adjusted_compound (sentiment_scores r)
     = Scores.compound (sentiment_scores r) /\
     trading_signal r
     = generate_trading_signal (Scores.compound (sentiment_scores r))).
Proof.
  exists (expected_result symbol hours_back).
  split; [apply analyze_symbol_sentiment_closed|].
  rewrite expected_result_tweet_count. intros Hn.
  assert (qualifying symbol hours_back <> []) as Hq.
  { intros H. rewrite H in Hn. unfold len in Hn. cbn in Hn. lia. }
  pose proof (expected_result_tweet_count symbol hours_back) as Hcount.
  rewrite (expected_result_full symbol hours_back Hq) in *.
  unfold full_result in *.
  cbn [tweet_count volume_multiplier sentiment_scores trading_signal
       Scores.adjusted_compound Scores.compound] in *.
  assert (get_volume_multiplier (len (weighted_samples symbol hours_back))
          = 1.0%float) as ->.
  { rewrite Hcount. unfold get_volume_multiplier, HIGH_VOLUME_THRESHOLD,
      LOW_VOLUME_THRESHOLD.
    destruct (Z.ltb_spec 500 (len (qualifying symbol hours_back))); [lia|].
    destruct (Z.ltb_spec (len (qualifying symbol hours_back)) 100); [lia|].
    reflexivity. }
  rewrite float_mul_one. repeat split.
Qed.

(** The deviation of a single finite value is zero. *)
Lemma single_value_std_dev (x : float) :
  is_finite x = true ->
  float_pow 0 2 = 0%float -> float_pow (-0) 2 = 0%float ->
  float_pow 0 0.5 = 0%float ->
  population_std_dev [x] = 0%float.
Proof.
  intros Hfin Hsq Hsqm Hroot. unfold population_std_dev.
  assert (float_of_int (len [x]) = 1%float) as -> by (vm_compute; reflexivity).
  cbv zeta. rewrite !float_div_one. unfold py_sum. cbn [map fold_left].
  assert (float_pow (x - (0 + x)) 2 = 0%float) as ->.
  { destruct (float_sub_sum_self x Hfin) as [-> | ->]; assumption. }
  assert ((0 + 0)%float = 0%float) as -> by (vm_compute; reflexivity).
  exact Hroot.
Qed.

(** X15. When exactly one message qualifies and its compound score is
    finite, the confidence is 0.703 whatever the scores are (the power
    function is assumed to map a zero to zero, as the C library's does):
    the deviation of one value is zero, so the consistency is 1. *)
Theorem single_sample_confidence (symbol : string) (hours_back : Z)
    (tweet : Tweet)
    (Hsq : float_pow 0 2 = 0%float) (Hsqm : float_pow (-0) 2 = 0%float)
    (Hroot : float_pow 0 0.5 = 0%float)
    (Hone : qualifying symbol hours_back = [tweet])
    (Hfin : is_finite (Sample.compound (weighted_sample tweet)) = true) :
  calculate_confidence [weighted_sample tweet] 1 = inr 0.703%float /\
  exists r,
    analyze_symbol_sentiment symbol hours_back = inr r /\
    tweet_count r = 1 /\
    volume_multiplier r = 0.5%float /\
    confidence r = 0.703%float.
Proof.
  assert (confidence_formula [weighted_sample tweet] = 0.703%float) as Hc.
  { unfold confidence_formula. cbv zeta. cbn [map].
    rewrite (single_value_std_dev _ Hfin Hsq Hsqm Hroot).
    vm_compute. reflexivity. }
  split.
  - change 1 with (len [weighted_sample tweet]).
    rewrite calculate_confidence_formula by discriminate.
    rewrite Hc. reflexivity.
  - exists (expected_result symbol hours_back).
    split; [apply analyze_symbol_sentiment_closed|].
    rewrite expected_result_full by (rewrite Hone; discriminate).
    unfold full_result, weighted_samples. rewrite Hone. cbn [map].
    cbn [tweet_count volume_multiplier confidence].
    split; [reflexivity|]. split; [vm_compute; reflexivity|exact Hc].
Qed.

Lemma weighted_mean_not_negative
    (f : Sample.t -> float) (tweets : list Tweet) :
  tweets <> [] ->
  (forall tweet, (f (weighted_sample tweet) <? 0)%float = false) ->
  (weighted_mean f (map weighted_sample tweets) <? 0)%float = false.
Proof.
  intros Hne Hf. unfold weighted_mean.
  apply not_negative_spec. rewrite div_spec.
  apply SFdiv_not_negative.
  - apply not_negative_spec, py_sum_not_negative.
    rewrite map_map. apply Forall_map, Forall_forall. intros tweet _.
    cbn beta. apply not_negative_spec. rewrite mul_spec.
    unfold weighted_sample at 2. cbn [Sample.weight].
    pose proof (calculate_engagement_weight_pos tweet) as Hw.
    unfold float_pos in Hw.
    destruct (calculate_engagement_weight_values tweet) as [E|[E|[E|E]]];
      rewrite E; apply SFmul_not_negative, not_negative_spec, Hf.
  - apply (weighted_samples_total_pos tweets Hne).
Qed.

(** X22. With a sample count from 1 to 99 the multiplier is 0.5 and the
    thresholds on the weighted compound are doubled: the signal is BUY
    exactly when the weighted compound is above 0.12, SELL exactly when
    it is below 0.08, and NEUTRAL otherwise. *)
Theorem low_volume_thresholds (symbol : string) (hours_back : Z) :
  exists r,
    analyze_symbol_sentiment symbol hours_back = inr r /\
    (0 < tweet_count r < 100 ->
     volume_multiplier r = 0.5%float /\
     (trading_signal r = BUY <->
      (0.12 <? Scores.compound (sentiment_scores r))%float = true) /\
     (trading_signal r = SELL <->
      (Scores.compound (sentiment_scores r) <? 0.08)%float = true) /\
     (trading_signal r = NEUTRAL <->
      (0.12 <? Scores.compound (sentiment_scores r))%float = false /\
      (Scores.compound (sentiment_scores r) <? 0.08)%float = false)).
Proof.
  exists (expected_result symbol hours_back).
  split; [apply analyze_symbol_sentiment_closed|].
  rewrite expected_result_tweet_count. intros Hn.
  assert (qualifying symbol hours_back <> []) as Hq.
  { intros H. rewrite H in Hn. unfold len in Hn. cbn in Hn. lia. }
  pose proof (expected_result_tweet_count symbol hours_back) as Hcount.
  rewrite (expected_result_full symbol hours_back Hq) in *.
  unfold full_result in *.
  cbn [tweet_count volume_multiplier sentiment_scores trading_signal
       Scores.adjusted_compound Scores.compound] in *.
  assert (get_volume_multiplier (len (weighted_samples symbol hours_back))
          = 0.5%float) as ->.
  { rewrite Hcount. unfold get_volume_multiplier, HIGH_VOLUME_THRESHOLD,
      LOW_VOLUME_THRESHOLD.
    destruct (Z.ltb_spec 500 (len (qualifying symbol hours_back))); [lia|].
    destruct (Z.ltb_spec (len (qualifying symbol hours_back)) 100); [|lia].
    reflexivity. }
  split; [reflexivity|].
  set (x := weighted_mean Sample.compound (weighted_samples symbol hours_back)).
  destruct (generate_trading_signal_tests (x * 0.5)) as (Hbuy & Hsell & Hneu).
  destruct (float_half_thresholds x) as [<- <-].
  auto.
Qed.

(** X23. When the scorer never returns a negative positive, negative or
    neutral score, the aggregate positive, negative and neutral scores of
    every result are not below zero. *)
Theorem aggregate_scores_not_negative (symbol : string) (hours_back : Z)
    (Hscorer : forall processed_text scores,
        polarity_scores processed_text = inr scores ->
        (Vader.pos scores <? 0)%float = false /\
        (Vader.neg scores <? 0)%float = false /\
        (Vader.neu scores <? 0)%float = false) :
  exists r,
    analyze_symbol_sentiment symbol hours_back = inr r /\
    (Scores.positive (sentiment_scores r) <? 0)%float = false /\
    (Scores.negative (sentiment_scores r) <? 0)%float = false /\
    (Scores.neutral (sentiment_scores r) <? 0)%float = false.
Proof.
  exists (expected_result symbol hours_back).
  split; [apply analyze_symbol_sentiment_closed|].
  destruct (qualifying symbol hours_back) as [|q qs] eqn:Hq.
  { destruct (expected_result_zero symbol hours_back Hq) as (a & -> & _).
    repeat split. }
  assert (qualifying symbol hours_back <> []) as Hne by congruence.
  rewrite (expected_result_full symbol hours_back Hne).
  unfold full_result, weighted_samples.
  cbn [sentiment_scores Scores.positive Scores.negative Scores.neutral].
  assert (forall tweet,
            (Sample.positive (weighted_sample tweet) <? 0)%float = false /\
            (Sample.negative (weighted_sample tweet) <? 0)%float = false /\
            (Sample.neutral (weighted_sample tweet) <? 0)%float = false) as Hs.
  { intros tweet. unfold weighted_sample, text_sentiment.
    destruct (polarity_scores (preprocess_tweet (text tweet))) as [e|scores]
      eqn:Hp.
    - repeat split.
    - exact (Hscorer _ _ Hp). }
  repeat split; apply weighted_mean_not_negative; try exact Hne;
    intros tweet; apply Hs.
Qed.

End MoreAnalyzerProperties.

Lemma unknown_symbol_zero_data_witness :
  (forall text, is_crypto_related text "btc" = false) /\
  exists annotation,
    @analyze_symbol_sentiment test_env "btc" 1
    = inr (@get_neutral_sentiment_result test_env "btc" annotation) /\
    (forall tweets,
       @fetch_twitter_data test_env "btc" 200 = inr tweets ->
       tweets = [] \/ (exists cutoff_time,
                         @window_cutoff test_env 1 = inr cutoff_time) ->
       annotation = None) /\
    (forall tweets,
       @fetch_twitter_data test_env "btc" 200 = inr tweets ->
       0 <= 1 <= 1000000 ->
       annotation = None).
Proof.
  apply (@unknown_symbol_zero_data test_env "btc" 1); discriminate.
Defined.

Lemma volume_multiplier_capped_witness :
  exists r,
    @analyze_symbol_sentiment test_env "BTC" 1 = inr r /\
    tweet_count r <= 200 /\
    (volume_multiplier r = 0.5%float \/ volume_multiplier r = 1.0%float) /\
    volume_multiplier r <> HIGH_VOLUME_MULTIPLIER.
Proof.
  apply (@volume_multiplier_capped test_env "BTC" 1).
  intros tweets H. vm_compute in H. injection H as <-. vm_compute. discriminate.
Defined.

Lemma wider_window_keeps_samples_witness :
  exists r1 r2,
    @analyze_symbol_sentiment test_env "BTC" 0 = inr r1 /\
    @analyze_symbol_sentiment test_env "BTC" 1 = inr r2 /\
    tweet_count r1 <= tweet_count r2 /\
    forall tweet,
      In tweet (@qualifying test_env "BTC" 0) ->
      In tweet (@qualifying test_env "BTC" 1).
Proof.
  apply (@wider_window_keeps_samples test_env "BTC" 0 1); lia.
Defined.

(** With a window of zero hours only the tweet whose timestamp does not
    parse is left; with one hour both relevant tweets are. *)
Example window_sizes :
  map id (@qualifying test_env "BTC" 0) = ["b"%string] /\
  map id (@qualifying test_env "BTC" 1) = ["a"; "b"]%string.
Proof. split; vm_compute; reflexivity. Qed.

Lemma scorer_outage_sells_witness :
  exists r,
    @analyze_symbol_sentiment scorer_down_env "BTC" 1 = inr r /\
    tweet_count r = len (@qualifying scorer_down_env "BTC" 1) /\
    Scores.compound (sentiment_scores r) = 0%float /\
    Scores.adjusted_compound (sentiment_scores r) = 0%float /\
    Scores.positive (sentiment_scores r) = 0%float /\
    Scores.negative (sentiment_scores r) = 0%float /\
    trading_signal r = SELL /\
    error r = None.
Proof.
  apply (@scorer_outage_sells scorer_down_env "BTC" 1).
  - intros processed_text. eexists. reflexivity.
  - vm_compute. discriminate.
Defined.

Lemma single_sample_confidence_witness :
  @calculate_confidence garbled_env [@weighted_sample garbled_env tweet_b] 1
  = inr 0.703%float /\
  exists r,
    @analyze_symbol_sentiment garbled_env "BTC" 1 = inr r /\
    tweet_count r = 1 /\
    volume_multiplier r = 0.5%float /\
    confidence r = 0.703%float.
Proof.
  apply (@single_sample_confidence garbled_env "BTC" 1 tweet_b);
    vm_compute; reflexivity.
Defined.

Lemma aggregate_scores_not_negative_witness :
  exists r,
    @analyze_symbol_sentiment test_env "BTC" 1 = inr r /\
    (Scores.positive (sentiment_scores r) <? 0)%float = false /\
    (Scores.negative (sentiment_scores r) <? 0)%float = false /\
    (Scores.neutral (sentiment_scores r) <? 0)%float = false.
Proof.
  apply (@aggregate_scores_not_negative test_env "BTC" 1).
  intros processed_text scores H. vm_compute in H. injection H as <-.
  repeat split.
Defined.

(** In the concrete environment two samples with compound 0.5 give the
    adjusted score 0.25 and BUY: the weighted compound is above 0.12. *)
Example low_volume_example :
  exists r,
    @analyze_symbol_sentiment test_env "BTC" 1 = inr r /\
    tweet_count r = 2 /\
    Scores.compound (sentiment_scores r) = 0.5%float /\
    Scores.adjusted_compound (sentiment_scores r) = 0.25%float /\
    trading_signal r = BUY.
Proof. eexists. split; [vm_compute; reflexivity|]. repeat split. Qed.

Lemma batch_order_irrelevant_witness :
  exists b1 b2,
    @analyze_multiple_symbols test_env ["BTC"; "DOWN"; "BTC"] = inr b1 /\
    @analyze_multiple_symbols test_env ["DOWN"; "BTC"] = inr b2 /\
    results b1 = results b2.
Proof.
  apply (@batch_order_irrelevant test_env ["BTC"; "DOWN"; "BTC"]
           ["DOWN"; "BTC"]).
  intros s. cbn [In]. tauto.
Defined.

(** ** The message source: [generate_mock_tweets] and [fetch_twitter_data] *)

Lemma choice_in (k : nat) (seq : list string) :
  seq <> [] -> In (choice k seq) seq.
Proof.
  intros Hne. unfold choice. apply nth_In.
  apply Nat.mod_upper_bound. destruct seq; [congruence|discriminate].
Qed.

Lemma mock_text_template (symbol : string) (d : Draw) :
  In (mock_text symbol d)
     (positive_templates symbol ++ negative_templates symbol
      ++ neutral_templates symbol).
Proof.
  unfold mock_text. rewrite !in_app_iff.
  destruct (rand d <? 0.4)%float; [left; apply choice_in; discriminate|].
  destruct (rand d <? 0.7)%float; right;
    [left|right]; apply choice_in; discriminate.
Qed.

Section SourceProperties.

Context {src : Source}.

(** X16. [generate_mock_tweets] returns [count] tweets, none when
    [count] is zero or negative; the [i]-th has the id "mock_i", so the
    ids are pairwise distinct. *)
Theorem generate_mock_tweets_ids (symbol : string) (count : Z) :
  let tweets := MessageSource.generate_mock_tweets symbol count in
  length tweets = Z.to_nat count /\
  (count <= 0 -> tweets = []) /\
  (forall i, (i < Z.to_nat count)%nat ->
     exists tweet,
       nth_error tweets i = Some tweet /\
       id tweet = ("mock_" +:+ pretty i)%string) /\
  List.NoDup (map id tweets).
Proof.
  cbv zeta. unfold MessageSource.generate_mock_tweets.
  split; [rewrite length_map, length_seq; reflexivity|].
  split.
  { intros Hc. replace (Z.to_nat count) with 0%nat by lia. reflexivity. }
  split.
  { intros i Hi. eexists. split.
    - rewrite nth_error_map, nth_error_seq.
      destruct (Nat.ltb_spec i (Z.to_nat count)); [|lia]. reflexivity.
    - reflexivity. }
  rewrite map_map. cbn [id MessageSource.mock_tweet].
  apply NoDup_ListNoDup, NoDup_fmap_2.
  - intros i j H. apply (f_equal list_ascii_of_string) in H.
    rewrite !list_ascii_of_string_app in H.
    apply app_inv_head in H.
    apply (f_equal string_of_list_ascii) in H.
    rewrite !string_of_list_ascii_of_string in H.
    apply (inj pretty) in H. exact H.
  - apply NoDup_ListNoDup, seq_NoDup.
Qed.

Lemma mock_tweets_all_relevant (symbol : string) (count : Z) :
  In symbol ["BTC"; "ETH"; "USDC"; "USDT"]%string ->
  Forall (fun tweet => is_crypto_related (text tweet) symbol = true)
         (MessageSource.generate_mock_tweets symbol count).
Proof.
  intros Hknown.
  assert (Forall (fun text => is_crypto_related text symbol = true)
            (positive_templates symbol ++ negative_templates symbol
             ++ neutral_templates symbol)) as Hall.
  { destruct Hknown as [<-|[<-|[<-|[<-|[]]]]];
      repeat constructor; vm_compute; reflexivity. }
  unfold MessageSource.generate_mock_tweets.
  apply Forall_map, Forall_forall. intros i _.
  cbn [text MessageSource.mock_tweet].
  rewrite List.Forall_forall in Hall. apply Hall, mock_text_template.
Qed.

(** Every template names the symbol as it is given. *)
Lemma templates_name_symbol (symbol : string) :
  Forall (fun text => contains symbol (list_ascii_of_string text) = true)
         (positive_templates symbol ++ negative_templates symbol
          ++ neutral_templates symbol).
Proof.
  unfold contains.
  repeat constructor; apply is_substring_spec;
    rewrite ?list_ascii_of_string_app;
    first [ exists []; eexists; reflexivity
          | eexists; eexists; reflexivity ].
Qed.

(** X17. Whatever is drawn, the text of every mock tweet is one of the
    fifteen templates and contains the symbol as it was given; for BTC,
    ETH, USDC and USDT every mock tweet is therefore related to the
    symbol it was generated for (the lowercased symbol is a keyword). *)
Theorem mock_tweets_relevant (symbol : string) (count : Z) :
  let tweets := MessageSource.generate_mock_tweets symbol count in
  Forall (fun tweet =>
            In (text tweet)
               (positive_templates symbol ++ negative_templates symbol
                ++ neutral_templates symbol) /\
            contains symbol (list_ascii_of_string (text tweet)) = true)
         tweets /\
  (In symbol ["BTC"; "ETH"; "USDC"; "USDT"]%string ->
   Forall (fun tweet => is_crypto_related (text tweet) symbol = true) tweets).
Proof.
  cbv zeta. split; [|apply mock_tweets_all_relevant].
  unfold MessageSource.generate_mock_tweets.
  apply Forall_map, Forall_forall. intros i _.
  cbn [text MessageSource.mock_tweet].
  pose proof (mock_text_template symbol (draws i)) as Hin.
  split; [exact Hin|].
  pose proof (templates_name_symbol symbol) as Hall.
  rewrite List.Forall_forall in Hall. apply Hall, Hin.
Qed.

(** What [fetch_twitter_data] returns, by cases. *)
Lemma fetch_twitter_data_closed (symbol : string) (max_results : Z) :
  MessageSource.fetch_twitter_data symbol max_results
  = inr (if String.eqb twitter_bearer_token "" then
           MessageSource.generate_mock_tweets symbol max_results
         else
           match tweepy_client,
                 search_recent_tweets (MessageSource.search_query symbol)
                   (Z.min max_results 100) max_results with
           | inr _, inr api_tweets => map MessageSource.tweet_of_api api_tweets
           | _, _ => MessageSource.generate_mock_tweets symbol max_results
           end).
Proof.
  unfold MessageSource.fetch_twitter_data, MessageSource.twitter_client.
  destruct (String.eqb twitter_bearer_token ""); [reflexivity|].
  destruct tweepy_client as [e|client]; [reflexivity|]. cbn [negb].
  destruct (search_recent_tweets _ _ _); reflexivity.
Qed.

(** X18. [fetch_twitter_data] never raises. Without a bearer token, when
    building the client raised, and when the search raises, it returns
    the mock tweets in place of an error; otherwise it returns the tweets
    of the search, a missing count read as 0. *)
Theorem fetch_twitter_data_falls_back (symbol : string) (max_results : Z) :
  exists tweets,
    MessageSource.fetch_twitter_data symbol max_results = inr tweets /\
    (twitter_bearer_token = ""%string ->
     tweets = MessageSource.generate_mock_tweets symbol max_results) /\
    (forall e, tweepy_client = inl e ->
     tweets = MessageSource.generate_mock_tweets symbol max_results) /\
    (forall e,
       search_recent_tweets (MessageSource.search_query symbol)
         (Z.min max_results 100) max_results = inl e ->
       tweets = MessageSource.generate_mock_tweets symbol max_results) /\
    (forall client api_tweets,
       twitter_bearer_token <> ""%string ->
       tweepy_client = inr client ->
       search_recent_tweets (MessageSource.search_query symbol)
         (Z.min max_results 100) max_results = inr api_tweets ->
       tweets = map MessageSource.tweet_of_api api_tweets /\
       forall tweet,
         (api_public_metrics tweet !! "retweet_count"%string = None ->
          retweet_count (MessageSource.tweet_of_api tweet) = 0) /\
         (api_public_metrics tweet !! "like_count"%string = None ->
          like_count (MessageSource.tweet_of_api tweet) = 0) /\
         (api_public_metrics tweet !! "reply_count"%string = None ->
          reply_count (MessageSource.tweet_of_api tweet) = 0)).
Proof.
  rewrite fetch_twitter_data_closed. eexists. split; [reflexivity|].
  destruct (String.eqb_spec twitter_bearer_token "") as [Htok|Htok].
  { split; [reflexivity|]. split; [reflexivity|]. split; [reflexivity|].
    intros client api_tweets H. contradiction. }
  split; [intros H; contradiction|].
  destruct tweepy_client as [e|client].
  { split; [reflexivity|]. split; [reflexivity|].
    intros client api_tweets _ H. discriminate H. }
  split; [intros e H; discriminate H|].
  destruct (search_recent_tweets _ _ _) as [e|api_tweets].
  - split; [reflexivity|]. intros client' api_tweets _ _ H. discriminate H.
  - split; [intros e H; discriminate H|].
    intros client' api_tweets' _ _ H. injection H as <-.
    split; [reflexivity|].
    intros tweet.
    cbn [retweet_count like_count reply_count MessageSource.tweet_of_api].
    repeat split; intros ->; reflexivity.
Qed.

End SourceProperties.

(** The analysis reads the fetch once, for its symbol and 200 results. *)
Lemma analysis_reads_fetch_once (env1 env2 : Collaborators)
    (symbol : string) (hours_back : Z) :
  @fetch_twitter_data env1 symbol 200 = @fetch_twitter_data env2 symbol 200 ->
  @polarity_scores env1 = @polarity_scores env2 ->
  @fromisoformat env1 = @fromisoformat env2 ->
  @now env1 = @now env2 ->
  @float_pow env1 = @float_pow env2 ->
  @analyze_symbol_sentiment env1 symbol hours_back
  = @analyze_symbol_sentiment env2 symbol hours_back.
Proof.
  destruct env1 as [f1 p1 i1 n1 v1 w1], env2 as [f2 p2 i2 n2 v2 w2].
  cbn [fetch_twitter_data polarity_scores fromisoformat now float_pow].
  intros Hf <- <- <- <-.
  unfold analyze_symbol_sentiment, analyze_symbol_sentiment_body.
  cbn [fetch_twitter_data]. rewrite Hf. reflexivity.
Qed.

(** X19. With the fetch of the file a failure of the search never
    reaches the result: it is replaced by mock tweets, and the result is
    then the very result of an analyzer without bearer token. The only
    error text the result can carry is that of the start of the window
    when it cannot be computed; for a window of zero to a million hours
    the result carries none. *)
Theorem own_fetch_hides_failures (src : Source) (env : Collaborators)
    (symbol : string) (hours_back : Z) :
  (exists r,
     @analyze_symbol_sentiment (with_source src env) symbol hours_back = inr r /\
     (error r = None \/ error r = Some None \/
      exists e,
        @window_cutoff (with_source src env) hours_back = inl e /\
        error r = Some (Some (exn_str e))) /\
     (0 <= hours_back <= 1000000 ->
      error r = None \/ error r = Some None) /\
     (tweet_count r = 0 <->
      @qualifying (with_source src env) symbol hours_back = [])) /\
  (forall e,
     @search_recent_tweets src (MessageSource.search_query symbol) 100 200
     = inl e ->
     @analyze_symbol_sentiment (with_source src env) symbol hours_back
     = @analyze_symbol_sentiment (with_source (mock_only src) env)
         symbol hours_back).
Proof.
  split.
  - exists (@expected_result (with_source src env) symbol hours_back).
    split; [apply analyze_symbol_sentiment_closed|].
    assert (forall cutoff,
              @window_cutoff (with_source src env) hours_back = cutoff ->
              match cutoff with
              | inl e =>
                error (@expected_result (with_source src env) symbol hours_back)
                = Some None \/
                error (@expected_result (with_source src env) symbol hours_back)
                = Some (Some (exn_str e))
              | inr _ =>
                error (@expected_result (with_source src env) symbol hours_back)
                = None \/
                error (@expected_result (with_source src env) symbol hours_back)
                = Some None
              end) as Herr.
    { intros cutoff Hc. unfold expected_result.
      cbn [fetch_twitter_data with_source].
      rewrite fetch_twitter_data_closed.
      change (@window_cutoff
                {| fetch_twitter_data := @MessageSource.fetch_twitter_data src;
                   polarity_scores := @polarity_scores env;
                   fromisoformat := @fromisoformat env;
                   now := @now env;
                   now_valid := @now_valid env;
                   float_pow := @float_pow env |} hours_back)
        with (@window_cutoff (with_source src env) hours_back).
      rewrite Hc.
      destruct cutoff as [e|cutoff_time].
      - destruct (is_empty _); [left|right]; reflexivity.
      - destruct (is_empty _); [right; reflexivity|].
        destruct (is_empty _); [right|left]; reflexivity. }
    split; [|split].
    + specialize (Herr _ eq_refl).
      destruct (@window_cutoff (with_source src env) hours_back) as [e|c].
      * destruct Herr as [H|H]; [right; left; exact H|].
        right. right. exists e. split; [reflexivity|exact H].
      * destruct Herr as [H|H]; [left|right; left]; exact H.
    + intros Hh.
      apply (Herr (inr (@now (with_source src env) - timedelta_hours hours_back))).
      apply window_cutoff_computed, Hh.
    + rewrite expected_result_tweet_count. apply len_zero.
  - intros e Hsearch. apply analysis_reads_fetch_once; try reflexivity.
    cbn [fetch_twitter_data with_source].
    rewrite !fetch_twitter_data_closed.
    change (Z.min 200 100) with 100. rewrite Hsearch.
    cbn [mock_only twitter_bearer_token String.eqb].
    destruct (String.eqb twitter_bearer_token ""); [reflexivity|].
    destruct tweepy_client; reflexivity.
Qed.

(** X20. Without a bearer token, for BTC, ETH, USDC and USDT, the
    relevance test filters nothing: when the start of the window is
    computed, as it is for zero to a million hours, the sample count is
    the number of the 200 mock tweets that pass the time filter. The
    sample count is at most 200 and the multiplier is 0.5 or 1.0. *)
Theorem mock_mode_analysis (src : Source) (env : Collaborators)
    (symbol : string) (hours_back : Z)
    (Htoken : @twitter_bearer_token src = ""%string)
    (Hknown : In symbol ["BTC"; "ETH"; "USDC"; "USDT"]%string) :
  exists r,
    @analyze_symbol_sentiment (with_source src env) symbol hours_back = inr r /\
    (forall cutoff_time,
       @window_cutoff env hours_back = inr cutoff_time ->
       tweet_count r
       = len (List.filter (@in_window env cutoff_time)
                (@MessageSource.generate_mock_tweets src symbol 200))) /\
    (0 <= hours_back <= 1000000 ->
     tweet_count r
     = len (List.filter
              (@in_window env (@now env - timedelta_hours hours_back))
              (@MessageSource.generate_mock_tweets src symbol 200))) /\
    tweet_count r <= 200 /\
    (volume_multiplier r = 0.5%float \/ volume_multiplier r = 1.0%float).
Proof.
  exists (@expected_result (with_source src env) symbol hours_back).
  split; [apply analyze_symbol_sentiment_closed|].
  assert (@messages (with_source src env) symbol
          = @MessageSource.generate_mock_tweets src symbol 200) as Hm.
  { unfold messages. cbn [fetch_twitter_data with_source].
    rewrite fetch_twitter_data_closed, Htoken. reflexivity. }
  assert (forall cutoff_time,
            @window_cutoff env hours_back = inr cutoff_time ->
            tweet_count (@expected_result (with_source src env) symbol hours_back)
            = len (List.filter (@in_window env cutoff_time)
                     (@MessageSource.generate_mock_tweets src symbol 200)))
    as Hcount.
  { intros cutoff_time Hc.
    rewrite expected_result_tweet_count. unfold qualifying.
    change (@window_cutoff (with_source src env) hours_back)
      with (@window_cutoff env hours_back).
    rewrite Hc, Hm. f_equal.
    pose proof (@mock_tweets_all_relevant src symbol 200 Hknown) as Hrel.
    change (@in_window (with_source src env)) with (@in_window env).
    clear Hm. induction Hrel as [|tweet tweets Ht _ IH]; [reflexivity|].
    cbn [List.filter].
    destruct (in_window _ tweet); [|exact IH].
    cbn [List.filter]. rewrite Ht, IH. reflexivity. }
  split; [exact Hcount|].
  split; [intros Hh; apply Hcount, window_cutoff_computed, Hh|].
  apply expected_result_volume. rewrite Hm. unfold len.
  unfold MessageSource.generate_mock_tweets.
  rewrite length_map, length_seq. lia.
Qed.

(** Three mock tweets for USDC in the concrete source. *)
Example mock_tweets_example :
  map text (@MessageSource.generate_mock_tweets test_source "USDC" 3)
  = [ "USDC breaking resistance levels, moon incoming! ðŸ“ˆ";
      "USDC breaking resistance levels, moon incoming! ðŸ“ˆ";
      "USDC breaking resistance levels, moon incoming! ðŸ“ˆ" ]%string /\
  Forall (fun tweet => is_crypto_related (text tweet) "USDC" = true)
         (@MessageSource.generate_mock_tweets test_source "USDC" 3).
Proof.
  split; [vm_compute; reflexivity|].
  repeat constructor; vm_compute; reflexivity.
Qed.

Lemma mock_mode_analysis_witness :
  exists r,
    @analyze_symbol_sentiment (with_source (mock_only test_source) test_env)
      "BTC" 1 = inr r /\
    (forall cutoff_time,
       @window_cutoff test_env 1 = inr cutoff_time ->
       tweet_count r
       = len (List.filter (@in_window test_env cutoff_time)
                (@MessageSource.generate_mock_tweets (mock_only test_source)
                   "BTC" 200))) /\
    (0 <= 1 <= 1000000 ->
     tweet_count r
     = len (List.filter
              (@in_window test_env (@now test_env - timedelta_hours 1))
              (@MessageSource.generate_mock_tweets (mock_only test_source)
                 "BTC" 200))) /\
    tweet_count r <= 200 /\
    (volume_multiplier r = 0.5%float \/ volume_multiplier r = 1.0%float).
Proof.
  apply (mock_mode_analysis (mock_only test_source) test_env "BTC" 1).
  - reflexivity.
  - left. reflexivity.
Defined.

(** The concrete source: the search for ETH succeeds, the search for BTC
    fails and two mock tweets are returned in its place. *)
Example fetch_examples :
  @MessageSource.fetch_twitter_data test_source "ETH" 200
  = inr [ {| id := "1750000000000000000"; text := "ETH flipping soon";
             created_at := "2024-01-01T11:50:00+00:00";
             retweet_count := 4; like_count := 9; reply_count := 0 |} ] /\
  (exists tweets,
     @MessageSource.fetch_twitter_data test_source "BTC" 2 = inr tweets /\
     map id tweets = ["mock_0"; "mock_1"]%string) /\
  MessageSource.search_query "BTC"
  = "bitcoin OR btc OR $btc OR #bitcoin OR #btc -is:retweet lang:en"%string /\
  MessageSource.search_query "DOGE" = "doge -is:retweet lang:en"%string.
Proof.
  split; [vm_compute; reflexivity|].
  split; [eexists; split; vm_compute; reflexivity|].
  split; vm_compute; reflexivity.
Qed.

(** ** The command line: [main] *)

(** X21. [main] exits with status 1 when no symbol is given, before the
    analyzer is built. Otherwise it builds the analyzer first: when the
    constructor raises, [main] raises the same exception; when it returns
    the analyzer, [main] does not raise. With one symbol it prints the
    result of the analysis of that symbol over one hour; with two or more
    it prints the batch, whose [symbols_analyzed] is the number of
    arguments and whose slot of each symbol holds the result of the
    analysis of that symbol, for the same answers of the collaborators. *)
Theorem main_outcomes (CryptoSentimentAnalyzer : M Collaborators)
    (argv : list string) :
  (argv = [] \/ (exists prog, argv = [prog]) ->
   main CryptoSentimentAnalyzer argv = inr (Exit 1)) /\
  (forall e,
     CryptoSentimentAnalyzer = inl e -> 2 <= len argv ->
     main CryptoSentimentAnalyzer argv = inl e) /\
  (forall analyzer prog s,
     CryptoSentimentAnalyzer = inr analyzer ->
     argv = [prog; s] ->
     exists r,
       main CryptoSentimentAnalyzer argv = inr (Printed_result r) /\
       @analyze_symbol_sentiment analyzer s 1 = inr r) /\
  (forall analyzer prog s1 s2 rest,
     CryptoSentimentAnalyzer = inr analyzer ->
     argv = prog :: s1 :: s2 :: rest ->
     exists b,
       main CryptoSentimentAnalyzer argv = inr (Printed_batch b) /\
       @analyze_multiple_symbols analyzer (s1 :: s2 :: rest) = inr b /\
       symbols_analyzed b = len argv - 1 /\
       forall s, In s (s1 :: s2 :: rest) ->
         exists r,
           @analyze_symbol_sentiment analyzer s 1 = inr r /\
           results b !! s = Some r).
Proof.
  split; [|split; [|split]].
  - intros [->|[prog ->]]; reflexivity.
  - intros e -> Hlen. unfold main.
    assert ((len argv <? 2) = false) as -> by (apply Z.ltb_ge; exact Hlen).
    reflexivity.
  - intros analyzer prog s -> ->. unfold main.
    assert ((len [prog; s] <? 2) = false) as -> by reflexivity.
    cbn [tail nth mbind M_bind bind].
    assert ((len [s] =? 1) = true) as -> by reflexivity.
    rewrite analyze_symbol_sentiment_closed.
    eexists. split; reflexivity.
  - intros analyzer prog s1 s2 rest -> ->. unfold main.
    assert ((len (prog :: s1 :: s2 :: rest) <? 2) = false) as ->.
    { apply Z.ltb_ge. unfold len. cbn [length]. lia. }
    cbn [tail mbind M_bind bind].
    assert ((len (s1 :: s2 :: rest) =? 1) = false) as ->.
    { apply Z.eqb_neq. unfold len. cbn [length]. lia. }
    destruct (@analyze_loop_closed analyzer (s1 :: s2 :: rest)
                (∅ : gmap string Result))
      as (res & Hloop & Hres).
    unfold analyze_multiple_symbols. rewrite Hloop.
    eexists. split; [reflexivity|]. split; [reflexivity|].
    cbn [symbols_analyzed results].
    split; [unfold len; cbn [length]; lia|].
    intros s Hs. exists (@expected_result analyzer s 1).
    split; [apply analyze_symbol_sentiment_closed|].
    apply Hres, Hs.
Qed.

(** A run of [main] in the concrete environment, and a run whose
    constructor raises. *)
Example main_runs :
  (exists r,
     main (inr test_env) ["sentiment_analyzer.py"; "BTC"]%string
     = inr (Printed_result r) /\
     tweet_count r = 2 /\ trading_signal r = BUY) /\
  main (inl (Other "Resource vader_lexicon not found."))
       ["sentiment_analyzer.py"; "BTC"]%string
  = inl (Other "Resource vader_lexicon not found.") /\
  main (inl (Other "Resource vader_lexicon not found."))
       ["sentiment_analyzer.py"]%string
  = inr (Exit 1).
Proof.
  split; [|split; reflexivity].
  eexists. split; [vm_compute; reflexivity|]. split; reflexivity.
Qed.
